(** * Diffusion-visualizer data generator: a shallow embedding and its properties

    The Python sources modelled here are
      - [hooks/attention_recorder.py]   (AttentionRecorder, layer selection),
      - [metrics/analytics.py]          (ranking, PCA degenerate cases, KL),
      - [compression/serializer.py]     (DatasetSerializer),
      - [generate.py]                   (normalize_distribution,
                                         validate_attention_assets, the
                                         per-step glue of [main]),
      - [validate_dataset.py]           (read_json, validate).

    Conventions.  Python [int] is [Z]; floating point values are idealised as
    real numbers ([R]), so every statement about a numeric value is a
    statement in exact arithmetic.  Python [dict]s whose iteration order is
    observable are insertion-ordered association lists; the file system is a
    finite map from path strings to byte contents.  Library calls whose code
    is not part of the repository (sklearn's PCA, [fnmatch.fnmatch],
    [json.loads], [np.argsort], the float16 rounding) are parameters of the
    sections that use them. *)

From stdpp Require Import base gmap strings.
From Stdlib Require Import String Ascii ZArith List Bool Arith Lia.
From Stdlib Require Import Reals Lra Permutation Sorted DecimalString.
From Stdlib Require DecimalPos DecimalZ FinFun Finite.

Import ListNotations.

(* ===================================================================== *)
(** * Part I: the embedding *)
(* ===================================================================== *)

(** ** Python-level plumbing: exceptions, strings, slices, dicts *)

Module Py.

(** The exception classes the modelled code can raise. *)
Inductive exn : Type :=
| FileNotFoundError (msg : string)
| ValueError (msg : string)
| RuntimeError (msg : string)
| IndexError (msg : string)
| UnicodeDecodeError
| TypeError
| AttributeError.

Inductive result (A : Type) : Type :=
| Ok (a : A)
| Raise (e : exn).
Arguments Ok {A} a.
Arguments Raise {A} e.

Definition bind {A B} (m : result A) (k : A -> result B) : result B :=
  match m with
  | Ok a => k a
  | Raise e => Raise e
  end.

Definition is_ok {A} (m : result A) : bool :=
  match m with Ok _ => true | Raise _ => false end.

(** [str(z)] for an [int]. *)
Definition str_of_Z (z : Z) : string :=
  NilZero.string_of_int (Z.to_int z).

Fixpoint zeros (n : nat) : string :=
  match n with
  | O => EmptyString
  | S k => String "0"%char (zeros k)
  end.

(** [f"{z:03d}"]: sign-aware zero padding to a minimal width of three. *)
Definition format_03d (z : Z) : string :=
  if (z <? 0)%Z then
    let digits := str_of_Z (- z) in
    String "-"%char (String.app (zeros (2 - String.length digits)) digits)
  else
    let digits := str_of_Z z in
    String.app (zeros (3 - String.length digits)) digits.

(** [sub in s] on strings. *)
Fixpoint contains (sub s : string) : bool :=
  if String.prefix sub s then true
  else match s with
       | EmptyString => false
       | String _ rest => contains sub rest
       end.

(** [l[:k]] with Python's treatment of a negative bound. *)
Definition slice_to {A} (k : Z) (l : list A) : list A :=
  if (0 <=? k)%Z then firstn (Z.to_nat k) l
  else firstn (length l - Z.to_nat (- k)) l.

(** Insertion-ordered dictionaries with string keys. *)
Definition dict (V : Type) : Type := list (string * V).

Fixpoint dict_get {V} (d : dict V) (k : string) : option V :=
  match d with
  | [] => None
  | (k', v) :: rest => if String.eqb k' k then Some v else dict_get rest k
  end.

(** [d[k] = v]: an existing key keeps its position, a new one goes last. *)
Fixpoint dict_set {V} (d : dict V) (k : string) (v : V) : dict V :=
  match d with
  | [] => [(k, v)]
  | (k', v') :: rest =>
      if String.eqb k' k then (k, v) :: rest
      else (k', v') :: dict_set rest k v
  end.

Definition dict_keys {V} (d : dict V) : list string := map fst d.
Definition dict_values {V} (d : dict V) : list V := map snd d.
Definition dict_mem {V} (d : dict V) (k : string) : bool :=
  match dict_get d k with Some _ => true | None => false end.

End Py.

(** ** Numeric helpers over the reals *)

Module Num.

Local Open Scope R_scope.

Fixpoint sumR (l : list R) : R :=
  match l with
  | [] => 0
  | x :: rest => x + sumR rest
  end.

(** [np.mean]/[tensor.mean] of a vector. *)
Definition meanR (l : list R) : R := sumR l / INR (length l).

(** Component-wise sum of a list of vectors of length [n]. *)
Fixpoint vsum (n : nat) (rows : list (list R)) : list R :=
  match rows with
  | [] => repeat 0 n
  | r :: rest => map (fun p => fst p + snd p) (combine r (vsum n rest))
  end.

(** [stacked.mean(axis=0)] for rows of length [n]. *)
Definition vmean (n : nat) (rows : list (list R)) : list R :=
  map (fun s => s / INR (length rows)) (vsum n rows).

Fixpoint prodZ (l : list Z) : Z :=
  match l with
  | [] => 1%Z
  | d :: rest => (d * prodZ rest)%Z
  end.

(** [np.stack(rows, axis=0)]: all rows must have the same shape. *)
Definition np_stack (rows : list (list R)) : Py.result (list (list R)) :=
  match rows with
  | [] => Py.Raise (Py.ValueError "need at least one array to stack")
  | r :: rest =>
      if forallb (fun r' => Nat.eqb (length r') (length r)) rest
      then Py.Ok rows
      else Py.Raise (Py.ValueError "all input arrays must have the same shape")
  end.

(** numpy arrays: a dtype, a shape and the items in row-major order. *)
Inductive dtype : Type := Float16 | Float32 | Float64.

Definition dtype_eqb (a b : dtype) : bool :=
  match a, b with
  | Float16, Float16 | Float32, Float32 | Float64, Float64 => true
  | _, _ => false
  end.

Definition itemsize (d : dtype) : Z :=
  match d with Float16 => 2%Z | Float32 => 4%Z | Float64 => 8%Z end.

Record ndarray : Type := mkNdarray {
  nd_dtype : dtype;
  nd_shape : list nat;
  nd_items : list R
}.

(** Every numpy array holds exactly [prod shape] items. *)
Definition ndarray_wf (a : ndarray) : Prop :=
  length (nd_items a) = fold_right Nat.mul 1%nat (nd_shape a).

End Num.

(** ** metrics/analytics.py *)

Module Analytics.

Local Open Scope R_scope.

Definition EPS : R := 1 / 100000000.

(** [np.clip(x, lo, hi)] on one entry: [minimum(maximum(x, lo), hi)]. *)
Definition np_clip (lo hi x : R) : R := Rmin (Rmax x lo) hi.

(** [np.clip(x, lo, None)] on one entry. *)
Definition np_clip_min (lo x : R) : R := Rmax x lo.

Definition shannon_entropy (probabilities : list R) : R :=
  let p := map (np_clip EPS 1) probabilities in
  - Num.sumR (map (fun x => x * ln x) p).

Definition mean_attention_entropy (attention_matrix : list (list R)) : R :=
  Num.meanR (map shannon_entropy attention_matrix).

Definition kl_divergence (p q : list R) : R :=
  let p_safe := map (np_clip EPS 1) p in
  let q_safe := map (np_clip EPS 1) q in
  Num.sumR (map (fun ab => fst ab * ln (fst ab / snd ab)) (combine p_safe q_safe)).

(** *** token_importance_ranking

    Scores are values of a totally pre-ordered type ([leb] is [<=] on
    non-NaN floats).  [np.argsort] is a parameter: numpy documents it as
    returning an index array that sorts its argument in ascending order,
    and its default kind is not guaranteed stable. *)
Section Ranking.
Variable score : Type.
Variable leb : score -> score -> bool.
Variable score0 : score.
Variable argsort : list score -> list nat.

Record RankEntry : Type := mkRankEntry { token_index : nat; entry_score : score }.

Definition token_importance_ranking (token_scores : list score) (top_k : Z)
  : list RankEntry :=
  let indices := Py.slice_to top_k (rev (argsort token_scores)) in
  map (fun i => mkRankEntry i (nth i token_scores score0)) indices.

(** The tie rule as the specification words it: of two listed entries
    with equal scores, the one listed first has the smaller index. *)
Definition ties_by_ascending_index (ranking : list RankEntry) : Prop :=
  forall i j a b,
    nth_error ranking i = Some a ->
    nth_error ranking j = Some b ->
    (i < j)%nat ->
    leb (entry_score a) (entry_score b) = true ->
    leb (entry_score b) (entry_score a) = true ->
    (token_index a < token_index b)%nat.

(** The documented contract of [np.argsort]. *)
Definition argsort_contract : Prop :=
  forall l : list score,
    Permutation (argsort l) (seq 0 (length l)) /\
    StronglySorted
      (fun i j => leb (nth i l score0) (nth j l score0) = true) (argsort l).

(** A stable insertion argsort: the behaviour of [kind='stable'], and of
    numpy's default introsort on short inputs, where it falls back to
    insertion sort. *)
Fixpoint insert_index (l : list score) (i : nat) (sorted : list nat) : list nat :=
  match sorted with
  | [] => [i]
  | j :: rest =>
      if leb (nth i l score0) (nth j l score0) then i :: j :: rest
      else j :: insert_index l i rest
  end.

Definition argsort_stable (l : list score) : list nat :=
  fold_right (insert_index l) [] (seq 0 (length l)).

(** Ascending by score, and by index among equal scores: the order a
    stable sort produces. *)
Definition lex_ascending (l : list score) (i j : nat) : Prop :=
  leb (nth i l score0) (nth j l score0) = true /\
  (leb (nth j l score0) (nth i l score0) = true -> (i < j)%nat).
End Ranking.

Arguments mkRankEntry {score} _ _.
Arguments ties_by_ascending_index {score} leb ranking.
Arguments token_index {score} _.
Arguments entry_score {score} _.

(** *** compute_latent_pca

    [sklearn.decomposition.PCA(n_components=2)] is a parameter: given the
    stacked rows it returns the transformed points and the explained
    variance ratio, or raises. *)
Record PcaResult : Type := mkPcaResult {
  points : list (list R);
  explained_variance_ratio : list R
}.

Section Pca.
Variable sklearn_pca2 : list (list R) -> Py.result (list (list R) * list R).

(** Each latent is given by its flattened contents ([x.reshape(-1)]). *)
Definition compute_latent_pca (latents : list (list R)) : Py.result PcaResult :=
  let latent_list := latents in
  if Nat.eqb (length latent_list) 0 then
    Py.Ok (mkPcaResult [] [0; 0])
  else
    Py.bind (Num.np_stack latent_list) (fun stacked =>
      if Nat.eqb (length stacked) 1 then
        Py.Ok (mkPcaResult [[0; 0]] [1; 0])
      else
        Py.bind (sklearn_pca2 stacked) (fun fitted =>
          Py.Ok (mkPcaResult (fst fitted) (snd fitted)))).
End Pca.

End Analytics.

(** ** generate.py: numeric glue *)

Module Generate.

Local Open Scope R_scope.

Definition normalize_distribution (values : list R) : list R :=
  let v := map (Analytics.np_clip_min (1 / 100000000)) values in
  map (fun x => x / Num.sumR v) v.

End Generate.

(** ** hooks/attention_recorder.py: layer selection *)

Module Selection.

Record LayerInfo : Type := mkLayerInfo {
  layer_id : string;
  processor_key : string;
  attention_type : string
}.

Section Select.
(** The model's own attention processors are opaque values. *)
Variable processor : Type.
(** [fnmatch.fnmatch value pattern]. *)
Variable fnmatch : string -> string -> bool.

(** An entry of the returned processor map: the model's original processor,
    or a [RecordingAttnProcessor] (all of which share the one recorder). *)
Inductive attn_processor : Type :=
| Original (p : processor)
| Recording (layer_id : string) (attention_type : string).

Definition _matches_any_pattern (value : string) (patterns : list string) : bool :=
  match patterns with
  | [] => true
  | _ => existsb (fun pattern => fnmatch value pattern) patterns
  end.

Section Run.
Variable include_self_attention : bool.
Variable include_cross_attention : bool.
Variable layer_patterns : list string.
Variable max_layers : Z.

Definition is_cross (key : string) : bool := Py.contains ".attn2." key.
Definition is_self (key : string) : bool := Py.contains ".attn1." key.

Definition keep_kind (key : string) : bool :=
  (is_cross key && include_cross_attention) || (is_self key && include_self_attention).

Definition kind_name (key : string) : string :=
  if is_cross key then "cross" else "self".

Definition layer_name (n : nat) : string :=
  String.app "layer_" (Py.str_of_Z (Z.of_nat n)).

(** One iteration of the loop over [ordered_items]. *)
Definition select_step
    (state : Py.dict attn_processor * list LayerInfo)
    (item : string * processor)
  : Py.dict attn_processor * list LayerInfo :=
  let '(processor_map, selected_layers) := state in
  let '(key, original) := item in
  let matches := _matches_any_pattern key layer_patterns in
  if keep_kind key && matches &&
     ((max_layers <=? 0)%Z || (Z.of_nat (length selected_layers) <? max_layers)%Z)
  then
    let layer_id := layer_name (length selected_layers) in
    let attention_type := kind_name key in
    (Py.dict_set processor_map key (Recording layer_id attention_type),
     selected_layers ++ [mkLayerInfo layer_id key attention_type])
  else
    (Py.dict_set processor_map key (Original original), selected_layers).

Definition select_loop (ordered_items : list (string * processor))
  : Py.dict attn_processor * list LayerInfo :=
  fold_left select_step ordered_items ([], []).

Definition create_recording_processors (attn_processors : Py.dict processor)
  : Py.result (Py.dict attn_processor * list LayerInfo) :=
  let ordered_items := attn_processors in
  let '(processor_map, selected_layers) := select_loop ordered_items in
  match selected_layers with
  | [] =>
      Py.Raise (Py.RuntimeError
        "No attention layers selected. Adjust --layers, --include-cross-attention, and --include-self-attention.")
  | _ => Py.Ok (processor_map, selected_layers)
  end.

(** The selection rule in the specification's words: a key qualifies when
    its kind is enabled and it matches a pattern; at most [max_layers] of the
    qualifying keys are taken, all of them when [max_layers <= 0]. *)
Definition qualifies (key : string) : bool :=
  keep_kind key && _matches_any_pattern key layer_patterns.

Definition limit_layers {A} (l : list A) : list A :=
  if (max_layers <=? 0)%Z then l else firstn (Z.to_nat max_layers) l.

Definition chosen_keys (keys : list string) : list string :=
  limit_layers (filter qualifies keys).

(** Sequential ids, in list order, starting at [start]. *)
Fixpoint number_from (start : nat) (keys : list string) : list LayerInfo :=
  match keys with
  | [] => []
  | key :: rest =>
      mkLayerInfo (layer_name start) key (kind_name key) :: number_from (S start) rest
  end.

End Run.
End Select.

Arguments Original {processor} p.
Arguments Recording {processor} layer_id attention_type.

End Selection.

(** ** hooks/attention_recorder.py: AttentionRecorder *)

Module Recorder.

Local Open Scope R_scope.

(** A torch tensor: its shape and its contents in row-major order. *)
Record tensor : Type := mkTensor {
  shape : list nat;
  data : list R
}.

Definition ndim (t : tensor) : nat := length (shape t).
Definition item (t : tensor) (i : nat) : R := nth i (data t) 0.

(** An attention tensor [[batch * heads, query, key]] as the model produces
    it: every row along the key axis is a probability distribution. *)
Definition is_attention_probs (t : tensor) : Prop :=
  match shape t with
  | [batch_heads; query_tokens; key_tokens] =>
      forall r, (r < batch_heads * query_tokens)%nat ->
        (forall k, (k < key_tokens)%nat -> 0 <= item t (r * key_tokens + k)) /\
        Num.sumR (map (fun k => item t (r * key_tokens + k)) (seq 0 key_tokens)) = 1
  | _ => False
  end.

(** A rank-2 tensor, by rows. *)
Record matrix : Type := mkMatrix {
  m_rows : nat;
  m_cols : nat;
  entries : list (list R)
}.

Definition entry (m : matrix) (q k : nat) : R := nth k (nth q (entries m) []) 0.

Record recorder : Type := mkRecorder {
  token_count : Z;
  attention_resolution : Z;
  self_attention_resolution : Z;
  cfg_enabled : bool;
  current_step : Z;
  current_timestep : Z;
  _cross_maps : Py.dict Num.ndarray;
  _self_maps : Py.dict Num.ndarray;
  _cross_entropy : Py.dict R;
  _self_entropy : Py.dict R;
  _token_activation_by_layer : Py.dict (list R);
  shape_errors : list string
}.

(** [AttentionRecorder.__init__] *)
Definition init (token_count attention_resolution self_attention_resolution : Z)
    (cfg_enabled : bool) : Py.result recorder :=
  if (token_count <=? 0)%Z then
    Py.Raise (Py.ValueError "token_count must be > 0")
  else if (attention_resolution <=? 0)%Z || (self_attention_resolution <=? 0)%Z then
    Py.Raise (Py.ValueError "attention resolutions must be > 0")
  else
    Py.Ok (mkRecorder token_count attention_resolution self_attention_resolution
             cfg_enabled (-1) (-1) [] [] [] [] [] []).

Definition set_step (self : recorder) (step timestep : Z) : recorder :=
  mkRecorder (token_count self) (attention_resolution self)
    (self_attention_resolution self) (cfg_enabled self)
    step timestep [] [] [] [] [] (shape_errors self).

Definition append_shape_error (self : recorder) (msg : string) : recorder :=
  mkRecorder (token_count self) (attention_resolution self)
    (self_attention_resolution self) (cfg_enabled self)
    (current_step self) (current_timestep self)
    (_cross_maps self) (_self_maps self) (_cross_entropy self) (_self_entropy self)
    (_token_activation_by_layer self) (shape_errors self ++ [msg]).

(** [str(list_of_ints)], as in ["[16, 64, 5]"]. *)
Fixpoint join_ints (l : list nat) : string :=
  match l with
  | [] => ""
  | [n] => Py.str_of_Z (Z.of_nat n)
  | n :: rest => Py.str_of_Z (Z.of_nat n) +:+ ", " +:+ join_ints rest
  end.

Definition repr_shape (l : list nat) : string := "[" +:+ join_ints l +:+ "]".

(** The conditional branch: the last batch entry under classifier-free
    guidance, the first otherwise. *)
Definition cond_index (cfg : bool) (batch : nat) : nat :=
  if cfg && (1 <? batch)%nat then (batch - 1)%nat else 0%nat.

(** [reshaped[cond_index].mean(dim=0)] for a tensor viewed as
    [batch, heads, query_tokens, key_tokens]. *)
Definition head_mean (t : tensor) (index heads query_tokens key_tokens : nat) : matrix :=
  mkMatrix query_tokens key_tokens
    (map (fun q =>
            map (fun k =>
                   Num.sumR
                     (map (fun h =>
                             item t (((index * heads + h) * query_tokens + q) * key_tokens + k))
                          (seq 0 heads))
                   / INR heads)
                (seq 0 key_tokens))
         (seq 0 query_tokens)).

(** The three outcomes of [_extract_conditional_attention]: a matrix, [None]
    after a shape error was appended, or an exception. *)
Definition _extract_conditional_attention
    (self : recorder) (attention_probs : tensor) (heads : Z)
  : recorder * Py.result (option matrix) :=
  match shape attention_probs with
  | [batch_heads; query_tokens; key_tokens] =>
      if (heads <=? 0)%Z then
        (append_shape_error self
           ("step=" +:+ Py.str_of_Z (current_step self) +:+
            " has invalid head count " +:+ Py.str_of_Z heads),
         Py.Ok None)
      else if negb (Z.of_nat batch_heads mod heads =? 0)%Z then
        (append_shape_error self
           ("step=" +:+ Py.str_of_Z (current_step self) +:+
            " cannot reshape attention " +:+ repr_shape (shape attention_probs) +:+
            " with heads=" +:+ Py.str_of_Z heads),
         Py.Ok None)
      else
        let batch := Z.to_nat (Z.of_nat batch_heads / heads) in
        let index := cond_index (cfg_enabled self) batch in
        if (index <? batch)%nat then
          (self, Py.Ok (Some (head_mean attention_probs index (Z.to_nat heads)
                                        query_tokens key_tokens)))
        else
          (self, Py.Raise (Py.IndexError "index 0 is out of bounds for dimension 0 with size 0"))
  | _ =>
      (append_shape_error self
         ("step=" +:+ Py.str_of_Z (current_step self) +:+
          " has invalid attention rank " +:+ Py.str_of_Z (Z.of_nat (ndim attention_probs))),
       Py.Ok None)
  end.

(** [matrix.clamp(min=1e-8)], then [-(p * p.log()).sum(dim=-1).mean()]. *)
Definition _entropy (m : matrix) : R :=
  let p := map (map (fun x => Rmax x (1 / 100000000))) (entries m) in
  - Num.meanR (map (fun row => Num.sumR (map (fun x => x * ln x) row)) p).

(** [matrix.mean(dim=0)]: one value per key token. *)
Definition column_mean (m : matrix) : list R :=
  map (fun k => Num.meanR (map (fun q => entry m q k) (seq 0 (m_rows m))))
      (seq 0 (m_cols m)).

(** [matrix.transpose(0, 1).reshape(K, side, side)]: channel [k], pixel
    [(y, x)] is the attention of query [y * side + x] to key [k]. *)
Definition token_maps (m : matrix) (side : nat) : list (list (list R)) :=
  map (fun k =>
         map (fun y => map (fun x => entry m (y * side + x) k) (seq 0 side))
             (seq 0 side))
      (seq 0 (m_cols m)).

Definition pixel (img : list (list R)) (y x : nat) : R := nth x (nth y img []) 0.

(** Source coordinate of a destination index for bilinear resampling with
    [align_corners=False]: [max(0, (dst + 0.5) * in / out - 0.5)], split into
    its integer part and its fractional part.  The subtraction on [nat]
    truncates at zero, which is the clamp. *)
Definition source_index (in_size out_size dst : nat) : nat * R :=
  let num := ((2 * dst + 1) * in_size - out_size)%nat in
  let den := (2 * out_size)%nat in
  ((num / den)%nat, INR (num mod den) / INR den).

Definition next_index (in_size i0 : nat) : nat :=
  if (i0 <? in_size - 1)%nat then (i0 + 1)%nat else i0.

(** [F.interpolate(..., mode="bilinear", align_corners=False)] on one
    channel of size [side x side], to [res x res]. *)
Definition bilinear_channel (side res : nat) (img : list (list R)) : list (list R) :=
  map (fun y =>
         let '(y0, ly) := source_index side res y in
         let y1 := next_index side y0 in
         map (fun x =>
                let '(x0, lx) := source_index side res x in
                let x1 := next_index side x0 in
                (1 - ly) * ((1 - lx) * pixel img y0 x0 + lx * pixel img y0 x1)
                + ly * ((1 - lx) * pixel img y1 x0 + lx * pixel img y1 x1))
             (seq 0 res))
      (seq 0 res).

(** [fixed = zeros(token_count, res, res); fixed[:min_tokens] = down[:min_tokens]] *)
Definition fit_tokens (token_count res : nat) (down : list (list (list R)))
  : list (list (list R)) :=
  if Nat.eqb (length down) token_count then down
  else
    let min_tokens := Nat.min (length down) token_count in
    firstn min_tokens down
    ++ repeat (repeat (repeat 0 res) res) (token_count - min_tokens).

(** Window of adaptive average pooling for output index [i]. *)
Definition pool_start (in_size out_size i : nat) : nat := (i * in_size / out_size)%nat.
Definition pool_end (in_size out_size i : nat) : nat :=
  (((i + 1) * in_size + out_size - 1) / out_size)%nat.

(** [F.adaptive_avg_pool2d(matrix[None, None], (res, res))[0, 0]] *)
Definition adaptive_avg_pool2d (m : matrix) (res : nat) : list (list R) :=
  map (fun i =>
         let ys := seq (pool_start (m_rows m) res i)
                       (pool_end (m_rows m) res i - pool_start (m_rows m) res i) in
         map (fun j =>
                let xs := seq (pool_start (m_cols m) res j)
                              (pool_end (m_cols m) res j - pool_start (m_cols m) res j) in
                Num.sumR (flat_map (fun y => map (fun x => entry m y x) xs) ys)
                / INR (length ys * length xs))
             (seq 0 res))
      (seq 0 res).

Section Float16.
(** Rounding to the nearest float16 value ([.to(dtype=torch.float16)]). *)
Variable round16 : R -> R.

Definition to_float16_array (shape : list nat) (items : list R) : Num.ndarray :=
  Num.mkNdarray Num.Float16 shape (map round16 items).

Definition with_cross (self : recorder) (layer_id : string)
    (entropy : R) (activation : list R) : recorder :=
  mkRecorder (token_count self) (attention_resolution self)
    (self_attention_resolution self) (cfg_enabled self)
    (current_step self) (current_timestep self)
    (_cross_maps self) (_self_maps self)
    (Py.dict_set (_cross_entropy self) layer_id entropy) (_self_entropy self)
    (Py.dict_set (_token_activation_by_layer self) layer_id activation)
    (shape_errors self).

Definition with_cross_map (self : recorder) (layer_id : string) (a : Num.ndarray)
  : recorder :=
  mkRecorder (token_count self) (attention_resolution self)
    (self_attention_resolution self) (cfg_enabled self)
    (current_step self) (current_timestep self)
    (Py.dict_set (_cross_maps self) layer_id a) (_self_maps self)
    (_cross_entropy self) (_self_entropy self)
    (_token_activation_by_layer self) (shape_errors self).

Definition with_self_entropy (self : recorder) (layer_id : string) (entropy : R)
  : recorder :=
  mkRecorder (token_count self) (attention_resolution self)
    (self_attention_resolution self) (cfg_enabled self)
    (current_step self) (current_timestep self)
    (_cross_maps self) (_self_maps self)
    (_cross_entropy self) (Py.dict_set (_self_entropy self) layer_id entropy)
    (_token_activation_by_layer self) (shape_errors self).

Definition with_self_map (self : recorder) (layer_id : string) (a : Num.ndarray)
  : recorder :=
  mkRecorder (token_count self) (attention_resolution self)
    (self_attention_resolution self) (cfg_enabled self)
    (current_step self) (current_timestep self)
    (_cross_maps self) (Py.dict_set (_self_maps self) layer_id a)
    (_cross_entropy self) (_self_entropy self)
    (_token_activation_by_layer self) (shape_errors self).

(** The cross-attention branch of [record]. *)
Definition record_cross (self : recorder) (layer_id : string) (m : matrix)
  : recorder * option Py.exn :=
  let self1 := with_cross self layer_id (_entropy m) (column_mean m) in
  let query_tokens := m_rows m in
  let side := Nat.sqrt query_tokens in
  if negb (Nat.eqb (side * side) query_tokens) then
    (append_shape_error self1
       ("step=" +:+ Py.str_of_Z (current_step self) +:+ " layer=" +:+ layer_id +:+
        " query_tokens=" +:+ Py.str_of_Z (Z.of_nat query_tokens) +:+ " is not square"),
     None)
  else if Nat.eqb side 0 || Nat.eqb (m_cols m) 0 || (attention_resolution self <=? 0)%Z then
    (self1, Some (Py.RuntimeError "Input and output sizes should be greater than 0"))
  else
    let res := Z.to_nat (attention_resolution self) in
    let downsampled := map (bilinear_channel side res) (token_maps m side) in
    let fixed := fit_tokens (Z.to_nat (token_count self)) res downsampled in
    (with_cross_map self1 layer_id
       (to_float16_array [length fixed; res; res] (concat (concat fixed))),
     None).

(** The self-attention branch of [record]. *)
Definition record_self (self : recorder) (layer_id : string) (m : matrix)
  : recorder * option Py.exn :=
  let self1 := with_self_entropy self layer_id (_entropy m) in
  if Nat.eqb (m_rows m) 0 || Nat.eqb (m_cols m) 0 then
    (self1, Some (Py.RuntimeError
       "adaptive_avg_pool2d(): Expected input to have non-zero size for non-batch dimensions"))
  else
    let res := Z.to_nat (self_attention_resolution self) in
    let pooled := adaptive_avg_pool2d m res in
    (with_self_map self1 layer_id (to_float16_array [res; res] (concat pooled)), None).

(** [AttentionRecorder.record]: the new state, and the exception if one
    escapes. *)
Definition record (self : recorder) (layer_id attention_type : string)
    (attention_probs : tensor) (heads : Z) : recorder * option Py.exn :=
  if negb (String.eqb attention_type "cross" || String.eqb attention_type "self") then
    (append_shape_error self
       ("step=" +:+ Py.str_of_Z (current_step self) +:+ " layer=" +:+ layer_id +:+
        " has unsupported attention type '" +:+ attention_type +:+ "'"),
     None)
  else
    match _extract_conditional_attention self attention_probs heads with
    | (self1, Py.Raise e) => (self1, Some e)
    | (self1, Py.Ok None) => (self1, None)
    | (self1, Py.Ok (Some m)) =>
        if String.eqb attention_type "cross" then record_cross self1 layer_id m
        else record_self self1 layer_id m
    end.

End Float16.

(** The dictionary [drain_step] returns. *)
Record step_output : Type := mkStepOutput {
  out_step : Z;
  out_timestep : Z;
  out_cross_maps : Py.dict Num.ndarray;
  out_self_maps : Py.dict Num.ndarray;
  out_cross_entropy : Py.dict R;
  out_self_entropy : Py.dict R;
  out_mean_token_activation : option (list R);
  out_shape_errors : list string
}.

Definition clear_shape_errors (self : recorder) : recorder :=
  mkRecorder (token_count self) (attention_resolution self)
    (self_attention_resolution self) (cfg_enabled self)
    (current_step self) (current_timestep self)
    (_cross_maps self) (_self_maps self) (_cross_entropy self) (_self_entropy self)
    (_token_activation_by_layer self) [].

(** [np.stack(values, axis=0).mean(axis=0)] *)
Definition stacked_mean (vectors : list (list R)) : Py.result (list R) :=
  Py.bind (Num.np_stack vectors) (fun stacked =>
    Py.Ok (Num.vmean (length (hd [] stacked)) stacked)).

Definition drain_step (self : recorder) : recorder * Py.result step_output :=
  let mean_token_activation :=
    match _token_activation_by_layer self with
    | [] => Py.Ok None
    | _ =>
        Py.bind (stacked_mean (Py.dict_values (_token_activation_by_layer self)))
                (fun mean => Py.Ok (Some mean))
    end in
  match mean_token_activation with
  | Py.Raise e => (self, Py.Raise e)
  | Py.Ok mean =>
      (clear_shape_errors self,
       Py.Ok (mkStepOutput (current_step self) (current_timestep self)
                (_cross_maps self) (_self_maps self)
                (_cross_entropy self) (_self_entropy self)
                mean (shape_errors self)))
  end.

End Recorder.

(** ** generate.py: the per-step glue of [main] around [drain_step] *)

Module Driver.

Local Open Scope R_scope.

(** [mean_token_activation = step_data["mean_token_activation"]], replaced by
    [np.zeros((len(tokens),))] when it is [None]. *)
Definition step_mean_token_activation (tokens_len : nat)
    (step_data : Recorder.step_output) : list R :=
  match Recorder.out_mean_token_activation step_data with
  | None => repeat 0 tokens_len
  | Some v => v
  end.

End Driver.

(** ** JSON values and the file system *)

Module Json.

(** What [json.loads] can return, and what the in-memory records hold. *)
#[local] Unset Elimination Schemes.
Inductive json : Type :=
| JNull
| JBool (b : bool)
| JInt (z : Z)
| JFloat (r : R)
| JStr (s : string)
| JList (items : list json)
| JObj (fields : list (string * json)).
#[local] Set Elimination Schemes.

(** [d.get(key)] on a dict, [None] being [JNull]. *)
Definition get (d : Py.dict json) (key : string) : json :=
  match Py.dict_get d key with
  | Some v => v
  | None => JNull
  end.

(** [d.get(key, default)]. *)
Definition get_default (d : Py.dict json) (key : string) (default : json) : json :=
  match Py.dict_get d key with
  | Some v => v
  | None => default
  end.

(** [isinstance(v, int)] together with the integer value; [bool] is a
    subclass of [int]. *)
Definition as_int (v : json) : option Z :=
  match v with
  | JInt z => Some z
  | JBool true => Some 1%Z
  | JBool false => Some 0%Z
  | _ => None
  end.

End Json.

Module Fs.

(** Files by path; the contents are bytes.  Directories are implicit. *)
Abbreviation fs := (gmap string (list Z)).

(** [a / b] for [pathlib] paths: an absolute right operand wins. *)
Definition path_join (a b : string) : string :=
  if String.prefix "/" b then b else a +:+ "/" +:+ b.

Fixpoint str_drop (n : nat) (s : string) : string :=
  match n, s with
  | O, _ => s
  | S k, EmptyString => EmptyString
  | S k, String _ rest => str_drop k rest
  end.

(** [path.relative_to(base)] *)
Definition relative_to (path base : string) : Py.result string :=
  if String.prefix (base +:+ "/") path
  then Py.Ok (str_drop (String.length base + 1) path)
  else Py.Raise (Py.ValueError "path is not in the subpath of the base")%string.

Definition exists_ (files : fs) (path : string) : bool :=
  match files !! path with Some _ => true | None => false end.

(** [path.stat().st_size] of an existing file. *)
Definition st_size (files : fs) (path : string) : Z :=
  match files !! path with
  | Some bytes => Z.of_nat (length bytes)
  | None => 0%Z
  end.

End Fs.

(** ** compression/serializer.py *)

Module Serializer.

Import Json.

Record serializer : Type := mkSerializer {
  output_dir : string;
  attention_files : list (Py.dict json);
  image_paths : list string
}.

(** [DatasetSerializer.__init__] (the [mkdir] calls leave no trace in a file
    system with implicit directories). *)
Definition init (output_dir : string) : serializer :=
  mkSerializer output_dir [] [].

Definition images_dir (self : serializer) : string :=
  Fs.path_join (output_dir self) "images".
Definition attention_dir (self : serializer) : string :=
  Fs.path_join (output_dir self) "attention".
Definition cross_attention_dir (self : serializer) : string :=
  Fs.path_join (attention_dir self) "cross".
Definition self_attention_dir (self : serializer) : string :=
  Fs.path_join (attention_dir self) "self".

(** The [n] low bytes of [z], least significant first. *)
Definition le_bytes (n : nat) (z : Z) : list Z :=
  map (fun i => ((z / 256 ^ Z.of_nat i) mod 256)%Z) (seq 0 n).

(** [f"{layer_id}_step_{step:03d}.bin"] *)
Definition file_name_of (step : Z) (layer_id : string) : string :=
  layer_id +:+ "_step_" +:+ Py.format_03d step +:+ ".bin".

(** The layout of the specification: [attention/{type}/{layerId}_step_{000}.bin],
    relative to the root. *)
Definition rel_path_of (step : Z) (layer_id attention_type : string) : string :=
  "attention" +:+ "/" +:+ attention_type +:+ "/" +:+ file_name_of step layer_id.

Section Encoding.
(** [astype(np.float16)] on one item, and the bit pattern a dtype stores
    for a value. *)
Variable round16 : R -> R.
Variable bits_of : Num.dtype -> R -> Z.

Definition astype_float16 (array : Num.ndarray) : Num.ndarray :=
  Num.mkNdarray Num.Float16 (Num.nd_shape array) (map round16 (Num.nd_items array)).

(** [if array.dtype != np.float16: array = array.astype(np.float16)] *)
Definition stored_array (array : Num.ndarray) : Num.ndarray :=
  if negb (Num.dtype_eqb (Num.nd_dtype array) Num.Float16)
  then astype_float16 array else array.

(** [array.tofile(path)]: the items in row-major order, no header. *)
Definition tofile_bytes (array : Num.ndarray) : list Z :=
  flat_map (fun x => le_bytes (Z.to_nat (Num.itemsize (Num.nd_dtype array)))
                              (bits_of (Num.nd_dtype array) x))
           (Num.nd_items array).

Definition attention_record (step : Z) (layer_id attention_type rel : string)
    (array : Num.ndarray) : Py.dict json :=
  [("step", JInt step);
   ("layer_id", JStr layer_id);
   ("attention_type", JStr attention_type);
   ("path", JStr rel);
   ("shape", JList (map (fun d => JInt (Z.of_nat d)) (Num.nd_shape array)));
   ("dtype", JStr "float16")].

(** [save_attention]: the file system and serializer afterwards, and the
    record returned or the exception raised. *)
Definition save_attention (files : Fs.fs) (self : serializer)
    (step : Z) (layer_id attention_type : string) (array : Num.ndarray)
  : Fs.fs * serializer * Py.result (Py.dict json) :=
  let array := stored_array array in
  let file_name := file_name_of step layer_id in
  let target :=
    if String.eqb attention_type "cross" then
      Py.Ok (Fs.path_join (cross_attention_dir self) file_name)
    else if String.eqb attention_type "self" then
      Py.Ok (Fs.path_join (self_attention_dir self) file_name)
    else
      Py.Raise (Py.ValueError ("Unsupported attention type: " +:+ attention_type)) in
  match target with
  | Py.Raise e => (files, self, Py.Raise e)
  | Py.Ok path =>
      let files' := <[path := tofile_bytes array]> files in
      match Fs.relative_to path (output_dir self) with
      | Py.Raise e => (files', self, Py.Raise e)
      | Py.Ok rel =>
          let record := attention_record step layer_id attention_type rel array in
          (files',
           mkSerializer (output_dir self) (attention_files self ++ [record])
                        (image_paths self),
           Py.Ok record)
      end
  end.

(** One call of [save_attention], as the driver issues them. *)
Record save_call : Type := mkSaveCall {
  call_step : Z;
  call_layer_id : string;
  call_attention_type : string;
  call_array : Num.ndarray
}.

(** The calls the driver can make: a well-formed array, a supported
    attention type, a layer id that is not an absolute path. *)
Definition call_ok (call : save_call) : Prop :=
  Num.ndarray_wf (call_array call) /\
  (call_attention_type call = "cross" \/ call_attention_type call = "self") /\
  String.prefix "/" (call_layer_id call) = false.

(** The record a successful call appends. *)
Definition record_of_call (call : save_call) : Py.dict json :=
  attention_record (call_step call) (call_layer_id call) (call_attention_type call)
    (rel_path_of (call_step call) (call_layer_id call) (call_attention_type call))
    (stored_array (call_array call)).

(** A sequence of calls; the first exception ends the run. *)
Definition save_all (files : Fs.fs) (self : serializer) (calls : list save_call)
  : Py.result (Fs.fs * serializer) :=
  fold_left
    (fun acc call =>
       Py.bind acc (fun st =>
         match save_attention (fst st) (snd st) (call_step call) (call_layer_id call)
                 (call_attention_type call) (call_array call) with
         | (files', self', Py.Ok _) => Py.Ok (files', self')
         | (_, _, Py.Raise e) => Py.Raise e
         end))
    calls (Py.Ok (files, self)).

End Encoding.

(** [dataset_size_bytes]: every file under the root. *)
Definition dataset_size_bytes (files : Fs.fs) (self : serializer) : Z :=
  map_fold (fun path bytes total =>
              if String.prefix (output_dir self +:+ "/") path
              then (total + Z.of_nat (length bytes))%Z else total)
           0%Z files.

(** The byte-size invariant in the specification's words: the record names
    a file whose size is twice the product of the recorded shape. *)
Definition size_matches (files : Fs.fs) (root : string) (record : Py.dict json) : Prop :=
  exists rel dims bytes,
    Py.dict_get record "path" = Some (JStr rel) /\
    Py.dict_get record "shape" = Some (JList (map JInt dims)) /\
    files !! Fs.path_join root rel = Some bytes /\
    Z.of_nat (length bytes) = (Num.prodZ dims * 2)%Z.

Definition record_path (record : Py.dict json) : json := Json.get record "path".

(** A record whose file holds an array of the given shape: a relative
    path, the shape as recorded, and two bytes per item on disk. *)
Definition saved_as (files : Fs.fs) (root : string) (record : Py.dict json)
    (shape : list nat) : Prop :=
  exists rel bytes,
    Py.dict_get record "path" = Some (JStr rel) /\
    rel <> "" /\
    String.prefix "/" rel = false /\
    Py.dict_get record "shape" = Some (JList (map (fun d => JInt (Z.of_nat d)) shape)) /\
    files !! (root +:+ "/" +:+ rel) = Some bytes /\
    length bytes = (2 * fold_right Nat.mul 1 shape)%nat.

End Serializer.

(** ** generate.py: validate_attention_assets *)

Module Assets.

Import Json.

Record report : Type := mkReport {
  checked_files : Z;
  passed : bool;
  errors : list string
}.

Section Validate.
(** [str(value)] as used by the f-strings. *)
Variable py_str : json -> string.

(** The loop over [shape]: the product, or [None] at the first entry that
    is not a positive [int]. *)
Fixpoint expected_items (shape : list json) (acc : Z) : option Z :=
  match shape with
  | [] => Some acc
  | dim :: rest =>
      match as_int dim with
      | Some d => if (d <=? 0)%Z then None else expected_items rest (acc * d)%Z
      | None => None
      end
  end.

(** The body of the loop for one entry: the error it appends, if any. *)
Definition check_entry (files : Fs.fs) (output_dir : string) (entry : Py.dict json)
  : option string :=
  match Json.get entry "path" with
  | JStr rel_path =>
      if String.eqb rel_path "" then
        Some ("invalid_path_metadata:" +:+ py_str (JObj entry))
      else
        let path := Fs.path_join output_dir rel_path in
        if negb (Fs.exists_ files path) then
          Some ("missing_file:" +:+ rel_path)
        else
          match Json.get_default entry "shape" (JList []) with
          | JList [] => Some ("invalid_shape_metadata:" +:+ rel_path)
          | JList shape =>
              match expected_items shape 1 with
              | None =>
                  Some ("invalid_shape_dimension:" +:+ rel_path +:+ ":" +:+
                        py_str (JList shape))
              | Some items =>
                  let expected_bytes := (items * Num.itemsize Num.Float16)%Z in
                  let actual_bytes := Fs.st_size files path in
                  if negb (actual_bytes =? expected_bytes)%Z then
                    Some ("size_mismatch:" +:+ rel_path +:+ ":expected=" +:+
                          Py.str_of_Z expected_bytes +:+ ":actual=" +:+
                          Py.str_of_Z actual_bytes)
                  else None
              end
          | _ => Some ("invalid_shape_metadata:" +:+ rel_path)
          end
  | _ => Some ("invalid_path_metadata:" +:+ py_str (JObj entry))
  end.

(** The errors of a list of entries, in order. *)
Definition entry_errors (files : Fs.fs) (output_dir : string)
    (records : list (Py.dict json)) : list string :=
  flat_map (fun entry => match check_entry files output_dir entry with
                         | Some msg => [msg]
                         | None => []
                         end) records.

Definition validate_attention_assets (files : Fs.fs) (output_dir : string)
    (attention_files : list (Py.dict json)) : report :=
  let '(checked, errors) :=
    fold_left
      (fun state entry =>
         let '(checked, errors) := state in
         let checked := (checked + 1)%Z in
         match check_entry files output_dir entry with
         | Some msg => (checked, errors ++ [msg])
         | None => (checked, errors)
         end)
      attention_files (0%Z, []) in
  mkReport checked (Nat.eqb (length errors) 0) errors.

End Validate.

(** What the validator requires of one record, in the specification's
    words: a non-empty path naming an existing file, a non-empty shape of
    positive integers, and a file of twice their product in bytes. *)
Definition record_valid (files : Fs.fs) (root : string) (record : Py.dict json) : Prop :=
  exists rel dims bytes,
    Py.dict_get record "path" = Some (JStr rel) /\ rel <> "" /\
    Py.dict_get record "shape" = Some (JList dims) /\ dims <> [] /\
    (exists ints, Forall2 (fun dim d => as_int dim = Some d /\ (0 < d)%Z) dims ints /\
                  files !! Fs.path_join root rel = Some bytes /\
                  Z.of_nat (length bytes) = (Num.prodZ ints * 2)%Z).

End Assets.

(** ** validate_dataset.py *)

Module Validator.

Import Json.

Definition REQUIRED_METADATA_KEYS : list string :=
  ["schema_version"; "generator"; "prompt"; "steps"; "timesteps"; "images";
   "layers"; "attention_files"].

(** What [json.loads(path.read_text(encoding="utf-8"))] does with the bytes
    of a file. *)
Inductive loaded : Type :=
| Parsed (value : json)
| JSONDecodeError (msg : string)
| NotUtf8.

(** [len(v)] *)
Definition py_len (v : json) : Py.result Z :=
  match v with
  | JList items => Py.Ok (Z.of_nat (length items))
  | JStr s => Py.Ok (Z.of_nat (String.length s))
  | JObj fields => Py.Ok (Z.of_nat (length fields))
  | _ => Py.Raise Py.TypeError
  end.

Fixpoint chars (s : string) : list json :=
  match s with
  | EmptyString => []
  | String c rest => JStr (String c EmptyString) :: chars rest
  end.

(** What a [for] loop over [v] visits. *)
Definition py_iter (v : json) : Py.result (list json) :=
  match v with
  | JList items => Py.Ok items
  | JStr s => Py.Ok (chars s)
  | JObj fields => Py.Ok (map (fun kv => JStr (fst kv)) fields)
  | _ => Py.Raise Py.TypeError
  end.

(** The receiver of a [.get] call must be a dict. *)
Definition as_dict (v : json) : Py.result (Py.dict json) :=
  match v with
  | JObj fields => Py.Ok fields
  | _ => Py.Raise Py.AttributeError
  end.

(** [key not in v], for each required key in turn: the messages, or the
    [TypeError] of a value that supports no membership test. *)
Definition missing_keys (v : json) : Py.result (list string) :=
  match v with
  | JObj fields =>
      Py.Ok (map (fun key => "metadata missing key: " +:+ key)
                 (filter (fun key => negb (Py.dict_mem fields key))
                         REQUIRED_METADATA_KEYS))
  | JList items =>
      Py.Ok (map (fun key => "metadata missing key: " +:+ key)
                 (filter (fun key =>
                            negb (existsb (fun item =>
                                             match item with
                                             | JStr s => String.eqb s key
                                             | _ => false
                                             end) items))
                         REQUIRED_METADATA_KEYS))
  | JStr s =>
      Py.Ok (map (fun key => "metadata missing key: " +:+ key)
                 (filter (fun key => negb (Py.contains key s)) REQUIRED_METADATA_KEYS))
  | _ => Py.Raise Py.TypeError
  end.

Definition bad_dimension (dim : json) : bool :=
  match as_int dim with
  | Some d => (d <=? 0)%Z
  | None => true
  end.

Definition int_value (dim : json) : Z :=
  match as_int dim with Some d => d | None => 0%Z end.

Section Validate.
Variable json_loads : list Z -> loaded.
(** [f"{size_mb:.2f}"] for a size given in bytes. *)
Variable format_mb : Z -> string.

Definition read_json (files : Fs.fs) (path : string) : Py.result json :=
  match files !! path with
  | None => Py.Raise (Py.FileNotFoundError ("Missing file: " +:+ path))
  | Some bytes =>
      match json_loads bytes with
      | Parsed value => Py.Ok value
      | JSONDecodeError msg =>
          Py.Raise (Py.ValueError ("Invalid JSON in " +:+ path +:+ ": " +:+ msg))
      | NotUtf8 => Py.Raise Py.UnicodeDecodeError
      end
  end.

(** [len(doc.get(key, [])) != expected]: the message when they differ. *)
Definition length_check (doc : Py.dict json) (key : string) (expected : Z)
    (msg : string) : Py.result (list string) :=
  Py.bind (py_len (get_default doc key (JList []))) (fun n =>
    Py.Ok (if (n =? expected)%Z then [] else [msg])).

(** The body of the loop over [attention_files] for one entry. *)
Definition check_attention_entry (files : Fs.fs) (dataset_dir : string)
    (idx : Z) (entry : json) : Py.result (list string) :=
  Py.bind (as_dict entry) (fun fields =>
    let rel_path := get fields "path" in
    let shape := get fields "shape" in
    match rel_path with
    | JStr rel =>
        if String.eqb rel "" then
          Py.Ok ["attention_files[" +:+ Py.str_of_Z idx +:+ "] has invalid path"]
        else
          match shape with
          | JList [] =>
              Py.Ok ["attention_files[" +:+ Py.str_of_Z idx +:+ "] has invalid shape"]
          | JList dims =>
              if existsb bad_dimension dims then
                Py.Ok ["attention_files[" +:+ Py.str_of_Z idx +:+
                       "] has non-positive shape dimensions"]
              else
                let file_path := Fs.path_join dataset_dir rel in
                if negb (Fs.exists_ files file_path) then
                  Py.Ok ["missing attention file: " +:+ rel]
                else
                  let expected_items := Num.prodZ (map int_value dims) in
                  let expected_bytes := (expected_items * 2)%Z in
                  let actual_bytes := Fs.st_size files file_path in
                  if negb (expected_bytes =? actual_bytes)%Z then
                    Py.Ok ["attention size mismatch for " +:+ rel +:+ " (expected " +:+
                           Py.str_of_Z expected_bytes +:+ " bytes, got " +:+
                           Py.str_of_Z actual_bytes +:+ ")"]
                  else Py.Ok []
          | _ => Py.Ok ["attention_files[" +:+ Py.str_of_Z idx +:+ "] has invalid shape"]
          end
    | _ => Py.Ok ["attention_files[" +:+ Py.str_of_Z idx +:+ "] has invalid path"]
    end).

Fixpoint check_attention_entries (files : Fs.fs) (dataset_dir : string)
    (idx : Z) (entries : list json) : Py.result (list string) :=
  match entries with
  | [] => Py.Ok []
  | entry :: rest =>
      Py.bind (check_attention_entry files dataset_dir idx entry) (fun errs =>
        Py.bind (check_attention_entries files dataset_dir (idx + 1) rest) (fun more =>
          Py.Ok (errs ++ more)))
  end.

(** The bytes of every file under the directory. *)
Definition directory_size (files : Fs.fs) (dataset_dir : string) : Z :=
  map_fold (fun path bytes total =>
              if String.prefix (dataset_dir +:+ "/") path
              then (total + Z.of_nat (length bytes))%Z else total)
           0%Z files.

(** [validate]: the triple [(passed, errors, warnings)], or the exception
    that escapes. *)
Definition validate (files : Fs.fs) (dataset_dir : string)
  : Py.result (bool * list string * list string) :=
  Py.bind (read_json files (Fs.path_join dataset_dir "metadata.json")) (fun metadata =>
  Py.bind (read_json files (Fs.path_join dataset_dir "metrics.json")) (fun metrics =>
  Py.bind (read_json files (Fs.path_join dataset_dir "latent_pca.json")) (fun latent_pca =>
  Py.bind (missing_keys metadata) (fun errors0 =>
  Py.bind (as_dict metadata) (fun metadata =>
    match as_int (get metadata "steps") with
    | None =>
        Py.Ok (false, errors0 ++ ["metadata.steps must be a positive integer"], [])
    | Some steps =>
        if (steps <=? 0)%Z then
          Py.Ok (false, errors0 ++ ["metadata.steps must be a positive integer"], [])
        else
          Py.bind (length_check metadata "timesteps" steps
                     "metadata.timesteps length mismatch") (fun errors1 =>
          Py.bind (length_check metadata "images" steps
                     "metadata.images length mismatch") (fun errors2 =>
          Py.bind (as_dict metrics) (fun metrics =>
          Py.bind (length_check metrics "latent_l2_norm" steps
                     "metrics.latent_l2_norm length mismatch") (fun errors3 =>
          Py.bind (as_dict latent_pca) (fun latent_pca =>
          Py.bind (length_check latent_pca "points" steps
                     "latent_pca.points length mismatch") (fun errors4 =>
          Py.bind (length_check latent_pca "explained_variance_ratio" 2
                     "latent_pca.explained_variance_ratio must have exactly two values")
                  (fun errors5 =>
          Py.bind (py_iter (get_default metadata "attention_files" (JList [])))
                  (fun entries =>
          Py.bind (check_attention_entries files dataset_dir 0 entries) (fun errors6 =>
            let errors :=
              errors0 ++ errors1 ++ errors2 ++ errors3 ++ errors4 ++ errors5 ++ errors6 in
            let size := directory_size files dataset_dir in
            let warnings :=
              if (200 * (1024 * 1024) <? size)%Z
              then ["dataset size is " +:+ format_mb size +:+ "MB (>200MB)"]
              else [] in
            Py.Ok (Nat.eqb (length errors) 0, errors, warnings))))))))))
    end))))).

End Validate.

End Validator.

(** ** metrics/analytics.py: norms and similarity *)

Module Metrics.

Local Open Scope R_scope.

(** [np.dot] of two flat vectors, once their sizes agree. *)
Definition dot (a b : list R) : R :=
  Num.sumR (map (fun p => fst p * snd p) (combine a b)).

(** [np.linalg.norm(v, ord=2)] of a flat vector. *)
Definition norm (v : list R) : R :=
  sqrt (Num.sumR (map (fun x => x * x) v)).

(** The latent is given by its flattened contents ([latent.reshape(-1)]). *)
Definition latent_l2_norm (latent : list R) : R := norm latent.

(** [cosine_similarity]: the norms are computed first, then [np.dot] raises
    when the two flattened vectors differ in size. *)
Definition cosine_similarity (a b : list R) : Py.result R :=
  let a_flat := a in
  let b_flat := b in
  let denom := norm a_flat * norm b_flat + Analytics.EPS in
  if Nat.eqb (length a_flat) (length b_flat)
  then Py.Ok (dot a_flat b_flat / denom)
  else Py.Raise (Py.ValueError "shapes not aligned").

End Metrics.

(** ** Predicates on recorder states used by the properties of [record] *)

Module RecorderProps.

(** The fields [record] never writes. *)
Definition same_configuration (a b : Recorder.recorder) : Prop :=
  Recorder.token_count a = Recorder.token_count b /\
  Recorder.attention_resolution a = Recorder.attention_resolution b /\
  Recorder.self_attention_resolution a = Recorder.self_attention_resolution b /\
  Recorder.cfg_enabled a = Recorder.cfg_enabled b /\
  Recorder.current_step a = Recorder.current_step b /\
  Recorder.current_timestep a = Recorder.current_timestep b.

(** The error list of [b] is that of [a], possibly with one more message. *)
Definition at_most_one_more_error (a b : Recorder.recorder) : Prop :=
  Recorder.shape_errors b = Recorder.shape_errors a \/
  exists msg, Recorder.shape_errors b = Recorder.shape_errors a ++ [msg].

Definition same_cross_side (a b : Recorder.recorder) : Prop :=
  Recorder._cross_maps a = Recorder._cross_maps b /\
  Recorder._cross_entropy a = Recorder._cross_entropy b /\
  Recorder._token_activation_by_layer a = Recorder._token_activation_by_layer b.

Definition same_self_side (a b : Recorder.recorder) : Prop :=
  Recorder._self_maps a = Recorder._self_maps b /\
  Recorder._self_entropy a = Recorder._self_entropy b.

(** The zero channel used for padding. *)
Definition zero_channel (res : nat) : list (list R) := repeat (repeat 0%R res) res.

End RecorderProps.

(** ** compression/serializer.py: documents and images *)

Module Documents.

Import Json.

(** [src.replace(dst)]: the file moves; a missing source raises. *)
Definition rename (files : Fs.fs) (src dst : string) : Py.result Fs.fs :=
  match files !! src with
  | Some bytes => Py.Ok (<[dst := bytes]> (delete src files))
  | None => Py.Raise (Py.FileNotFoundError src)
  end.

Section Dump.
(** [json.dumps(payload, indent=2, sort_keys=True)] encoded as UTF-8. *)
Variable json_dumps : json -> list Z.

(** [write_json]: the text goes to the sibling [<target>.tmp], which is then
    renamed over the target.  ([target.with_suffix(suffix + ".tmp")] is the
    target's name with [".tmp"] appended.) *)
Definition write_json (files : Fs.fs) (self : Serializer.serializer)
    (path : string) (payload : json) : Py.result Fs.fs :=
  let target := Fs.path_join (Serializer.output_dir self) path in
  let temp_target := target +:+ ".tmp" in
  let files1 := <[temp_target := json_dumps payload]> files in
  rename files1 temp_target target.

End Dump.

Section Images.
(** The PNG encoder of the imaging library. *)
Variable image : Type.
Variable png_encode : image -> list Z.

(** [save_image]: the file system and serializer afterwards, and the
    relative path returned. *)
Definition save_image (files : Fs.fs) (self : Serializer.serializer)
    (step : Z) (img : image) : Fs.fs * Serializer.serializer * Py.result string :=
  let file_name := "step_" +:+ Py.format_03d step +:+ ".png" in
  let path := Fs.path_join (Serializer.images_dir self) file_name in
  let files' := <[path := png_encode img]> files in
  match Fs.relative_to path (Serializer.output_dir self) with
  | Py.Raise e => (files', self, Py.Raise e)
  | Py.Ok rel =>
      (files',
       Serializer.mkSerializer (Serializer.output_dir self)
         (Serializer.attention_files self) (Serializer.image_paths self ++ [rel]),
       Py.Ok rel)
  end.

End Images.

End Documents.

(* ===================================================================== *)
(** * Part II: properties *)
(* ===================================================================== *)

(** ** The embedding on small inputs *)

Example format_03d_pads :
  map Py.format_03d [0; 7; 42; 123; 1234; -1; -12; -123]%Z =
  ["000"; "007"; "042"; "123"; "1234"; "-01"; "-12"; "-123"].
Proof. reflexivity. Qed.

Example contains_substring :
  Py.contains ".attn2." "down_blocks.0.attentions.0.transformer_blocks.0.attn2.processor"
  = true /\
  Py.contains ".attn1." "down_blocks.0.attentions.0.transformer_blocks.0.attn2.processor"
  = false.
Proof. split; reflexivity. Qed.

Example slice_to_negative_bound :
  Py.slice_to 2 [10; 20; 30]%Z = [10; 20]%Z /\
  Py.slice_to 5 [10; 20; 30]%Z = [10; 20; 30]%Z /\
  Py.slice_to (-1) [10; 20; 30]%Z = [10; 20]%Z.
Proof. repeat split; reflexivity. Qed.

Example dict_set_keeps_position :
  Py.dict_set [("a", 1%Z); ("b", 2%Z)] "a" 3%Z = [("a", 3%Z); ("b", 2%Z)] /\
  Py.dict_set [("a", 1%Z); ("b", 2%Z)] "c" 3%Z = [("a", 1%Z); ("b", 2%Z); ("c", 3%Z)].
Proof. split; reflexivity. Qed.

Example argsort_stable_sorts :
  Analytics.argsort_stable Z Z.leb 0%Z [3; 9; 4; 9]%Z = [0; 2; 1; 3].
Proof. reflexivity. Qed.

Example reshape_error_message :
  Recorder.shape_errors
    (fst (Recorder._extract_conditional_attention
            (Recorder.mkRecorder 5 8 8 true 3 801 [] [] [] [] [] [])
            (Recorder.mkTensor [3; 4; 5]%nat []) 2)) =
  ["step=3 cannot reshape attention [3, 4, 5] with heads=2"].
Proof. reflexivity. Qed.

Example rel_path_layout :
  Serializer.rel_path_of 7 "layer_3" "self" = "attention/self/layer_3_step_007.bin".
Proof. reflexivity. Qed.

(** Resampling to the same size reads every source pixel with weight one:
    destination index 3 of 8 comes from source index 3 with fraction 0.
    Halving the size reads between two pixels: destination 1 of 4 from an
    8-wide source lies midway between source indices 2 and 3. *)
Example source_index_same_and_half :
  fst (Recorder.source_index 8 8 3) = 3 /\
  snd (Recorder.source_index 8 8 3) = (INR 0 / INR 16)%R /\
  fst (Recorder.source_index 8 4 1) = 2 /\
  snd (Recorder.source_index 8 4 1) = (INR 4 / INR 8)%R.
Proof. repeat split; reflexivity. Qed.

Example pool_windows :
  map (fun i => (Recorder.pool_start 10 4 i, Recorder.pool_end 10 4 i)) [0; 1; 2; 3] =
  [(0, 3); (2, 5); (5, 8); (7, 10)].
Proof. reflexivity. Qed.

(** ** Real-number lemmas shared by the numeric claims *)

Section SumLemmas.
Local Open Scope R_scope.

Lemma sumR_app (l1 l2 : list R) :
  Num.sumR (l1 ++ l2) = Num.sumR l1 + Num.sumR l2.
Proof.
  induction l1 as [|x l1 IH]; simpl; [lra | rewrite IH; lra].
Qed.

Lemma sumR_scale (c : R) (l : list R) :
  Num.sumR (map (fun x => x / c) l) = Num.sumR l / c.
Proof.
  induction l as [|x l IH]; simpl.
  - unfold Rdiv; rewrite Rmult_0_l; reflexivity.
  - rewrite IH. unfold Rdiv. ring.
Qed.

Lemma sumR_lower_bound (lo : R) (l : list R) :
  Forall (fun x => lo <= x) l -> INR (length l) * lo <= Num.sumR l.
Proof.
  induction 1 as [|x l Hx _ IH].
  - simpl; lra.
  - change (length (x :: l)) with (S (length l)).
    rewrite S_INR. simpl Num.sumR. lra.
Qed.

Lemma sumR_nonneg (l : list R) :
  Forall (fun x => 0 <= x) l -> 0 <= Num.sumR l.
Proof.
  induction 1 as [|x l Hx _ IH]; simpl; lra.
Qed.

Lemma sumR_pos_exists (l : list R) :
  Forall (fun x => 0 <= x) l -> Exists (fun x => 0 < x) l -> 0 < Num.sumR l.
Proof.
  intros Hall Hex. induction Hex as [x l Hx | x l _ IH].
  - inversion Hall as [|? ? _ Hl]; subst. simpl.
    pose proof (sumR_nonneg l Hl). lra.
  - inversion Hall as [|? ? Hx Hl]; subst. simpl.
    specialize (IH Hl). lra.
Qed.

Lemma eps_pos : 0 < Analytics.EPS.
Proof. unfold Analytics.EPS. lra. Qed.

End SumLemmas.

(** ** C8: the degenerate cases of compute_latent_pca *)

(** C8. Whatever the PCA backend is, [compute_latent_pca] on no vectors
    returns [points = []] with variance ratio [[0, 0]], and on exactly one
    vector [v] (of any length and content) returns [points = [[0, 0]]] with
    variance ratio [[1, 0]]; the backend is not consulted and nothing is
    raised. *)
Theorem compute_latent_pca_degenerate
    (sklearn_pca2 : list (list R) -> Py.result (list (list R) * list R)) :
  Analytics.compute_latent_pca sklearn_pca2 [] =
    Py.Ok (Analytics.mkPcaResult [] [0%R; 0%R]) /\
  forall v : list R,
    Analytics.compute_latent_pca sklearn_pca2 [v] =
      Py.Ok (Analytics.mkPcaResult [[0%R; 0%R]] [1%R; 0%R]).
Proof.
  split.
  - reflexivity.
  - intro v. reflexivity.
Qed.

(** ** C10: normalize_distribution never divides by zero *)

Section NormalizeDistribution.
Local Open Scope R_scope.

Local Abbreviation tiny := (1 / 100000000).

Lemma clip_min_ge (lo x : R) : lo <= Analytics.np_clip_min lo x.
Proof. unfold Analytics.np_clip_min. apply Rmax_r. Qed.

Lemma clipped_all_ge (lo : R) (values : list R) :
  Forall (fun x => lo <= x) (map (Analytics.np_clip_min lo) values).
Proof.
  induction values as [|x values IH]; simpl; constructor; auto using clip_min_ge.
Qed.

Lemma clipped_sum_pos (values : list R) :
  values <> [] ->
  0 < Num.sumR (map (Analytics.np_clip_min tiny) values).
Proof.
  intros Hne.
  pose proof (sumR_lower_bound tiny _ (clipped_all_ge tiny values)) as Hlb.
  rewrite length_map in Hlb.
  assert (1 <= INR (length values)) as Hlen.
  { destruct values as [|x values]; [congruence|].
    change (length (x :: values)) with (S (length values)).
    rewrite S_INR. pose proof (pos_INR (length values)). lra. }
  assert (0 < tiny) by lra.
  nra.
Qed.

Lemma np_clip_pos (x : R) : 0 < Analytics.np_clip Analytics.EPS 1 x.
Proof.
  unfold Analytics.np_clip. pose proof eps_pos.
  apply Rmin_glb_lt; [|lra].
  pose proof (Rmax_r x Analytics.EPS). lra.
Qed.

(** C10. For every real vector with at least one entry (zeros and
    negative entries included) the sum of the clamped entries is strictly
    positive, so the division is never by zero; the result has the length
    of the input, strictly positive entries, and sums to exactly 1.  For
    any second such vector of the same length, every quotient whose
    logarithm [kl_divergence] takes has a nonzero denominator and is
    strictly positive. *)
Theorem normalize_distribution_well_defined (values : list R) :
  values <> [] ->
  let v := map (Analytics.np_clip_min (1 / 100000000)) values in
  Num.sumR v <> 0 /\
  length (Generate.normalize_distribution values) = length values /\
  Forall (fun x => 0 < x) (Generate.normalize_distribution values) /\
  Num.sumR (Generate.normalize_distribution values) = 1 /\
  forall other : list R,
    other <> [] ->
    Forall (fun pq => snd pq <> 0 /\ 0 < fst pq / snd pq)
      (combine
         (map (Analytics.np_clip Analytics.EPS 1)
              (Generate.normalize_distribution values))
         (map (Analytics.np_clip Analytics.EPS 1)
              (Generate.normalize_distribution other))).
Proof.
  intros Hne v.
  pose proof (clipped_sum_pos values Hne) as Hpos. fold v in Hpos.
  unfold Generate.normalize_distribution. fold v.
  repeat split.
  - lra.
  - rewrite length_map. unfold v. apply length_map.
  - pose proof (clipped_all_ge tiny values) as Hge. fold v in Hge.
    rewrite Forall_forall in Hge |- *. intros y Hy.
    apply in_map_iff in Hy as [x [<- Hx]]. specialize (Hge x Hx).
    apply Rdiv_lt_0_compat; [lra | exact Hpos].
  - rewrite sumR_scale. field. lra.
  - intros other _. apply Forall_forall. intros [p q] Hin.
    apply in_combine_l in Hin as Hp. apply in_combine_r in Hin as Hq.
    apply in_map_iff in Hp as [p0 [<- _]].
    apply in_map_iff in Hq as [q0 [<- _]].
    simpl. pose proof (np_clip_pos p0). pose proof (np_clip_pos q0).
    split; [lra | apply Rdiv_lt_0_compat; assumption].
Qed.

Lemma normalize_distribution_witness :
  [0; -3; 2] <> [] /\
  Num.sumR (Generate.normalize_distribution [0; -3; 2]) = 1.
Proof.
  assert ([0; -3; 2] <> @nil R) as Hne by discriminate.
  split; [exact Hne|].
  exact (proj1 (proj2 (proj2 (proj2
           (normalize_distribution_well_defined [0; -3; 2] Hne))))).
Defined.

End NormalizeDistribution.

(** ** C7: token_importance_ranking *)

Lemma StronglySorted_snoc {A : Type} (R : A -> A -> Prop) (l : list A) (x : A) :
  StronglySorted R l -> Forall (fun y => R y x) l -> StronglySorted R (l ++ [x]).
Proof.
  induction 1 as [|a l Hl IH Ha]; intros Hx; simpl.
  - constructor; constructor.
  - inversion Hx as [|? ? Hax Hlx]; subst.
    constructor; [apply IH; assumption|].
    apply Forall_app. split; [assumption | constructor; [assumption | constructor]].
Qed.

Lemma StronglySorted_map {A B : Type} (f : A -> B)
    (RA : A -> A -> Prop) (RB : B -> B -> Prop) (l : list A) :
  (forall a b, RA a b -> RB (f a) (f b)) ->
  StronglySorted RA l -> StronglySorted RB (map f l).
Proof.
  intros Hf. induction 1 as [|a l Hl IH Ha]; simpl; constructor; [exact IH|].
  apply Forall_forall. intros y Hy. apply in_map_iff in Hy as [x [<- Hx]].
  rewrite Forall_forall in Ha. auto.
Qed.

Section SortedLists.
Context {A : Type} (R : A -> A -> Prop).

Lemma StronglySorted_rev (l : list A) :
  StronglySorted R l -> StronglySorted (fun a b => R b a) (rev l).
Proof.
  induction 1 as [|a l Hl IH Ha]; simpl.
  - constructor.
  - apply StronglySorted_snoc; [exact IH|].
    apply Forall_forall. intros y Hy. apply in_rev in Hy.
    rewrite Forall_forall in Ha. auto.
Qed.

Lemma StronglySorted_firstn (n : nat) (l : list A) :
  StronglySorted R l -> StronglySorted R (firstn n l).
Proof.
  intros Hl. revert n. induction Hl as [|a l Hl IH Ha]; intros [|n]; simpl;
    try constructor; auto.
  rewrite Forall_forall in Ha |- *. intros y Hy. apply Ha.
  rewrite <- (firstn_skipn n l). apply in_or_app. left; assumption.
Qed.

Lemma StronglySorted_split (l1 l2 : list A) :
  StronglySorted R (l1 ++ l2) ->
  forall a b, In a l1 -> In b l2 -> R a b.
Proof.
  induction l1 as [|x l1 IH]; simpl; intros Hs a b Ha Hb; [contradiction|].
  apply StronglySorted_inv in Hs as [Hs Hx].
  destruct Ha as [<-|Ha].
  - rewrite Forall_forall in Hx. apply Hx. apply in_or_app. right; assumption.
  - eapply IH; eauto.
Qed.
End SortedLists.

Section RankingFacts.
Context {score : Type} (leb : score -> score -> bool) (score0 : score).

Local Abbreviation value l i := (nth i l score0).
Local Abbreviation ascending l := (fun i j : nat => leb (value l i) (value l j) = true).
Local Abbreviation rank argsort := (Analytics.token_importance_ranking score score0 argsort).

Lemma slice_to_nonneg {B : Type} (k : Z) (l : list B) :
  (0 <= k)%Z -> Py.slice_to k l = firstn (Z.to_nat k) l.
Proof.
  intros Hk. unfold Py.slice_to.
  destruct (Z.leb_spec 0 k); [reflexivity | lia].
Qed.

Lemma ranking_indices (argsort : list score -> list nat) (scores : list score) (top_k : Z) :
  map Analytics.token_index (rank argsort scores top_k) =
  Py.slice_to top_k (rev (argsort scores)).
Proof.
  unfold Analytics.token_importance_ranking.
  rewrite map_map. simpl. apply map_id.
Qed.

(** C7 (as amended). For an [argsort] meeting numpy's contract and a
    non-negative [top_k], the ranking has [min top_k n] entries, lists
    distinct in-range indices each paired with its own score, is sorted by
    descending score, and dominates every index it leaves out; it is a
    function of its arguments, so equal inputs give equal outputs.  No
    order between indices of equal score is promised. *)
Theorem token_importance_ranking_descending_topk
    (argsort : list score -> list nat) (scores : list score) (top_k : Z) :
  Analytics.argsort_contract score leb score0 argsort ->
  (0 <= top_k)%Z ->
  let ranking := rank argsort scores top_k in
  length ranking = Nat.min (Z.to_nat top_k) (length scores) /\
  NoDup (map Analytics.token_index ranking) /\
  Forall (fun e => Analytics.token_index e < length scores /\
                   Analytics.entry_score e = value scores (Analytics.token_index e))
         ranking /\
  StronglySorted
    (fun a b => leb (Analytics.entry_score b) (Analytics.entry_score a) = true)
    ranking /\
  (forall j e, j < length scores ->
               ~ In j (map Analytics.token_index ranking) ->
               In e ranking ->
               leb (value scores j) (Analytics.entry_score e) = true) /\
  (forall scores' top_k', scores' = scores -> top_k' = top_k ->
                          rank argsort scores' top_k' = ranking).
Proof.
  intros Hcontract Hk ranking.
  destruct (Hcontract scores) as [Hperm Hsorted].
  assert (Hidx : map Analytics.token_index ranking =
                 firstn (Z.to_nat top_k) (rev (argsort scores))).
  { unfold ranking. rewrite ranking_indices. apply slice_to_nonneg; assumption. }
  assert (Hrev : Permutation (rev (argsort scores)) (seq 0 (length scores))).
  { etransitivity; [symmetry; apply Permutation_rev | exact Hperm]. }
  assert (Hnodup : NoDup (rev (argsort scores))).
  { eapply Permutation_NoDup; [symmetry; exact Hrev | apply seq_NoDup]. }
  assert (Hdesc : StronglySorted (fun i j => ascending scores j i) (rev (argsort scores))).
  { apply (StronglySorted_rev (ascending scores)). exact Hsorted. }
  assert (Hentry : forall e, In e ranking ->
            In (Analytics.token_index e) (firstn (Z.to_nat top_k) (rev (argsort scores))) /\
            Analytics.entry_score e = value scores (Analytics.token_index e)).
  { intros e He. split.
    - rewrite <- Hidx. apply in_map. exact He.
    - unfold ranking, Analytics.token_importance_ranking in He.
      apply in_map_iff in He as [i [<- _]]. reflexivity. }
  assert (Hfirst_in : forall i, In i (firstn (Z.to_nat top_k) (rev (argsort scores))) ->
                                In i (rev (argsort scores))).
  { intros i Hi. rewrite <- (firstn_skipn (Z.to_nat top_k)). apply in_or_app. left; exact Hi. }
  repeat split.
  - rewrite <- (length_map Analytics.token_index), Hidx, length_firstn.
    rewrite (Permutation_length Hrev), length_seq. reflexivity.
  - rewrite Hidx.
    rewrite <- (firstn_skipn (Z.to_nat top_k)) in Hnodup.
    apply NoDup_app_remove_r in Hnodup. exact Hnodup.
  - apply Forall_forall. intros e He. destruct (Hentry e He) as [Hin Hsc].
    split; [|exact Hsc].
    apply Hfirst_in in Hin. apply (Permutation_in _ Hrev) in Hin.
    apply in_seq in Hin. lia.
  - unfold ranking, Analytics.token_importance_ranking.
    rewrite slice_to_nonneg by assumption.
    apply (StronglySorted_firstn _ (Z.to_nat top_k)) in Hdesc.
    eapply StronglySorted_map; [|exact Hdesc].
    intros i j Hij. exact Hij.
  - intros j e Hj Hnot He. destruct (Hentry e He) as [Hin Hsc].
    rewrite Hsc. rewrite Hidx in Hnot.
    assert (In j (skipn (Z.to_nat top_k) (rev (argsort scores)))) as Hskip.
    { assert (In j (rev (argsort scores))) as Hjin.
      { apply (Permutation_in _ (Permutation_sym Hrev)). apply in_seq. lia. }
      rewrite <- (firstn_skipn (Z.to_nat top_k)) in Hjin.
      apply in_app_or in Hjin as [Hjin|Hjin]; [contradiction | exact Hjin]. }
    rewrite <- (firstn_skipn (Z.to_nat top_k)) in Hdesc.
    exact (StronglySorted_split _ _ _ Hdesc _ _ Hin Hskip).
  - intros scores' top_k' -> ->. reflexivity.
Qed.

End RankingFacts.

Lemma StronglySorted_nth_error {A : Type} (R : A -> A -> Prop) (l : list A) :
  StronglySorted R l ->
  forall i j a b, nth_error l i = Some a -> nth_error l j = Some b -> i < j -> R a b.
Proof.
  induction 1 as [|x l Hl IH Hx]; intros i j a b Hi Hj Hlt.
  - destruct i; discriminate.
  - destruct j as [|j]; [lia|]. simpl in Hj.
    destruct i as [|i]; simpl in Hi.
    + injection Hi as <-. rewrite Forall_forall in Hx.
      apply Hx. eapply nth_error_In; eauto.
    + eapply IH; eauto. lia.
Qed.

(** The stable insertion argsort meets numpy's contract, and orders equal
    scores by ascending index. *)
Section StableArgsort.
Context {score : Type} (leb : score -> score -> bool) (score0 : score).
Hypothesis leb_total : forall x y, leb x y = true \/ leb y x = true.
Hypothesis leb_trans : forall x y z, leb x y = true -> leb y z = true -> leb x z = true.

Local Abbreviation value l i := (nth i l score0).

Local Abbreviation lex_ascending := (Analytics.lex_ascending score leb score0).

Lemma insert_index_perm (l : list score) (i : nat) (sorted : list nat) :
  Permutation (Analytics.insert_index score leb score0 l i sorted) (i :: sorted).
Proof.
  induction sorted as [|j rest IH]; simpl.
  - reflexivity.
  - destruct (leb (value l i) (value l j)).
    + reflexivity.
    + rewrite IH. apply perm_swap.
Qed.

Lemma insert_index_sorted (l : list score) (i : nat) (sorted : list nat) :
  Forall (fun j => i < j) sorted ->
  StronglySorted (lex_ascending l) sorted ->
  StronglySorted (lex_ascending l)
    (Analytics.insert_index score leb score0 l i sorted).
Proof.
  intros Hgt Hs. induction Hs as [|j rest Hrest IH Hj]; simpl.
  - constructor; constructor.
  - inversion Hgt as [|? ? Hij Hgt']; subst.
    destruct (leb (value l i) (value l j)) eqn:Hle.
    + constructor; [constructor; assumption|].
      constructor.
      * split; [exact Hle | intros _; exact Hij].
      * rewrite Forall_forall in Hj, Hgt' |- *. intros y Hy.
        destruct (Hj y Hy) as [Hjy _].
        split; [eapply leb_trans; eauto | intros _; auto].
    + constructor; [apply IH; assumption|].
      apply Forall_forall. intros y Hy.
      apply (Permutation_in _ (insert_index_perm l i rest)) in Hy.
      destruct Hy as [<-|Hy].
      * split.
        -- destruct (leb_total (value l j) (value l i)) as [H|H];
             [exact H | congruence].
        -- intros H. congruence.
      * rewrite Forall_forall in Hj. auto.
Qed.

Lemma fold_insert_from (l : list score) (m a : nat) :
  let out := fold_right (Analytics.insert_index score leb score0 l) [] (seq a m) in
  Permutation out (seq a m) /\ StronglySorted (lex_ascending l) out.
Proof.
  revert a. induction m as [|m IH]; intros a; simpl.
  - split; [reflexivity | constructor].
  - destruct (IH (S a)) as [Hperm Hsorted]. split.
    + rewrite insert_index_perm. constructor. exact Hperm.
    + apply insert_index_sorted; [|exact Hsorted].
      apply Forall_forall. intros j Hj.
      apply (Permutation_in _ Hperm) in Hj. apply in_seq in Hj. lia.
Qed.

Lemma argsort_stable_lex (l : list score) :
  StronglySorted (lex_ascending l) (Analytics.argsort_stable score leb score0 l).
Proof. apply (fold_insert_from l (length l) 0). Qed.

Lemma argsort_stable_contract :
  Analytics.argsort_contract score leb score0
    (Analytics.argsort_stable score leb score0).
Proof.
  intros l. split.
  - apply (fold_insert_from l (length l) 0).
  - pose proof (argsort_stable_lex l) as Hlex.
    induction Hlex as [|i rest Hrest IH Hi]; constructor; [exact IH|].
    rewrite Forall_forall in Hi |- *. intros j Hj. apply (Hi j Hj).
Qed.

(** With a stable argsort, entries of equal score are listed by
    _descending_ index: the reversal that turns the ascending sort into a
    descending one also reverses the order of ties. *)
Lemma ranking_stable_ties_descending (scores : list score) (top_k : Z) :
  (0 <= top_k)%Z ->
  let ranking :=
    Analytics.token_importance_ranking score score0
      (Analytics.argsort_stable score leb score0) scores top_k in
  forall i j a b,
    nth_error ranking i = Some a ->
    nth_error ranking j = Some b ->
    i < j ->
    leb (Analytics.entry_score a) (Analytics.entry_score b) = true ->
    Analytics.token_index b < Analytics.token_index a.
Proof.
  intros Hk ranking i j a b Hi Hj Hlt Hab.
  assert (StronglySorted
            (fun x y => lex_ascending scores (Analytics.token_index y)
                                      (Analytics.token_index x) /\
                        Analytics.entry_score x = value scores (Analytics.token_index x) /\
                        Analytics.entry_score y = value scores (Analytics.token_index y))
            ranking) as Hs.
  { unfold ranking, Analytics.token_importance_ranking.
    rewrite slice_to_nonneg by assumption.
    eapply StronglySorted_map;
      [| apply StronglySorted_firstn, StronglySorted_rev, argsort_stable_lex].
    intros x y Hxy. simpl. auto. }
  destruct (StronglySorted_nth_error _ _ Hs i j a b Hi Hj Hlt) as [[_ Hties] [Ha Hb]].
  apply Hties. rewrite <- Ha, <- Hb. exact Hab.
Qed.
End StableArgsort.

Lemma token_importance_ranking_witness :
  Analytics.token_importance_ranking Z 0%Z
    (Analytics.argsort_stable Z Z.leb 0%Z) [3; 9; 4; 9]%Z 3 =
  [Analytics.mkRankEntry 3 9%Z; Analytics.mkRankEntry 1 9%Z;
   Analytics.mkRankEntry 2 4%Z] /\
  length (Analytics.token_importance_ranking Z 0%Z
            (Analytics.argsort_stable Z Z.leb 0%Z) [3; 9; 4; 9]%Z 3) =
  Nat.min (Z.to_nat 3) (length [3; 9; 4; 9]%Z).
Proof.
  split; [reflexivity|].
  refine (proj1 (token_importance_ranking_descending_topk Z.leb 0%Z
                   (Analytics.argsort_stable Z Z.leb 0%Z) [3; 9; 4; 9]%Z 3 _ _)).
  - apply argsort_stable_contract.
    + intros x y. rewrite !Z.leb_le. lia.
    + intros x y z. rewrite !Z.leb_le. lia.
  - lia.
Defined.

(** C7 (counterexample). On the two equal scores [[5, 5]] the stable
    argsort lists index 1 before index 0, which is not the ascending-index
    tie order of the specification. *)
Lemma token_importance_ranking_ties_not_ascending :
  Analytics.token_importance_ranking Z 0%Z
    (Analytics.argsort_stable Z Z.leb 0%Z) [5; 5]%Z 2 =
  [Analytics.mkRankEntry 1 5%Z; Analytics.mkRankEntry 0 5%Z] /\
  ~ Analytics.ties_by_ascending_index Z.leb
      (Analytics.token_importance_ranking Z 0%Z
         (Analytics.argsort_stable Z Z.leb 0%Z) [5; 5]%Z 2).
Proof.
  split; [reflexivity|].
  intros Hties.
  specialize (Hties 0 1 (Analytics.mkRankEntry 1 5%Z) (Analytics.mkRankEntry 0 5%Z)
                    eq_refl eq_refl).
  simpl in Hties.
  assert (1 < 0) by (apply Hties; [lia | reflexivity | reflexivity]).
  lia.
Qed.

(** ** C9: layer selection *)

Section DictFacts.
Context {V : Type}.

Lemma dict_get_set_eq (d : Py.dict V) (k : string) (v : V) :
  Py.dict_get (Py.dict_set d k v) k = Some v.
Proof.
  induction d as [|[k' v'] d IH]; simpl.
  - rewrite String.eqb_refl. reflexivity.
  - destruct (String.eqb k' k) eqn:E; simpl.
    + rewrite String.eqb_refl. reflexivity.
    + rewrite E. exact IH.
Qed.

Lemma dict_get_set_ne (d : Py.dict V) (k k' : string) (v : V) :
  k <> k' -> Py.dict_get (Py.dict_set d k v) k' = Py.dict_get d k'.
Proof.
  intros Hne. induction d as [|[k0 v0] d IH]; simpl.
  - destruct (String.eqb k k') eqn:E; [apply String.eqb_eq in E; contradiction | reflexivity].
  - destruct (String.eqb k0 k) eqn:E; simpl.
    + apply String.eqb_eq in E. subst k0.
      destruct (String.eqb k k') eqn:E'; [apply String.eqb_eq in E'; contradiction | reflexivity].
    + destruct (String.eqb k0 k'); [reflexivity | exact IH].
Qed.
End DictFacts.

Section SelectionFacts.
Context {processor : Type} (fnmatch : string -> string -> bool).
Context (include_self include_cross : bool) (patterns : list string) (max_layers : Z).

Local Abbreviation run :=
  (Selection.select_loop processor fnmatch include_self include_cross patterns max_layers).
Local Abbreviation step :=
  (Selection.select_step processor fnmatch include_self include_cross patterns max_layers).
Local Abbreviation qualifies :=
  (Selection.qualifies fnmatch include_self include_cross patterns).
Local Abbreviation chosen :=
  (Selection.chosen_keys fnmatch include_self include_cross patterns max_layers).
Local Abbreviation limit := (@Selection.limit_layers max_layers string).
Local Abbreviation number := (Selection.number_from).
Local Abbreviation kind := Selection.kind_name.
Local Abbreviation name := Selection.layer_name.

Lemma run_snoc (items : list (string * processor)) (item : string * processor) :
  run (items ++ [item]) = step (run items) item.
Proof. unfold Selection.select_loop. apply fold_left_app. Qed.

Lemma number_from_snoc (start : nat) (keys : list string) (key : string) :
  number start (keys ++ [key]) =
  number start keys ++ [Selection.mkLayerInfo (name (start + length keys)) key (kind key)].
Proof.
  revert start. induction keys as [|k keys IH]; intros start; simpl.
  - rewrite Nat.add_0_r. reflexivity.
  - rewrite IH. replace (S start + length keys) with (start + S (length keys)) by lia.
    reflexivity.
Qed.

Lemma number_from_length (start : nat) (keys : list string) :
  length (number start keys) = length keys.
Proof. revert start. induction keys; intros; simpl; auto. Qed.

Lemma number_from_keys (start : nat) (keys : list string) :
  map Selection.processor_key (number start keys) = keys.
Proof. revert start. induction keys; intros; simpl; f_equal; auto. Qed.

Lemma number_from_nth (start : nat) (keys : list string) (j : nat) (key : string) :
  nth_error keys j = Some key ->
  nth_error (number start keys) j =
  Some (Selection.mkLayerInfo (name (start + j)) key (kind key)).
Proof.
  revert start j. induction keys as [|k keys IH]; intros start [|j] H; simpl in *;
    try discriminate.
  - injection H as ->. rewrite Nat.add_0_r. reflexivity.
  - rewrite (IH (S start) j H).
    replace (S start + j) with (start + S j) by lia. reflexivity.
Qed.

Lemma limit_incl (l : list string) (key : string) : In key (limit l) -> In key l.
Proof.
  unfold Selection.limit_layers. destruct (max_layers <=? 0)%Z; [auto|].
  intros H. rewrite <- (firstn_skipn (Z.to_nat max_layers) l).
  apply in_or_app. left; exact H.
Qed.

Lemma chosen_incl (keys : list string) (key : string) :
  In key (chosen keys) -> In key keys /\ qualifies key = true.
Proof.
  unfold Selection.chosen_keys. intros H. apply limit_incl in H.
  apply filter_In in H. exact H.
Qed.

(** The effect of one more qualifying or non-qualifying key on the chosen
    list, phrased with the running count the loop tests. *)
Lemma chosen_snoc (keys : list string) (key : string) :
  chosen (keys ++ [key]) =
  if qualifies key &&
     ((max_layers <=? 0)%Z || (Z.of_nat (length (chosen keys)) <? max_layers)%Z)
  then chosen keys ++ [key]
  else chosen keys.
Proof.
  unfold Selection.chosen_keys. rewrite filter_app. simpl.
  destruct (qualifies key) eqn:Hq; simpl; [|rewrite app_nil_r; reflexivity].
  unfold Selection.limit_layers.
  destruct (Z.leb_spec max_layers 0) as [Hmax|Hmax]; simpl; [reflexivity|].
  set (F := filter qualifies keys). set (M := Z.to_nat max_layers).
  rewrite length_firstn.
  destruct (Z.ltb_spec (Z.of_nat (Nat.min M (length F))) max_layers) as [Hroom|Hfull].
  - assert (length F < M) as Hlt by lia.
    rewrite (firstn_all2 F) by lia.
    apply firstn_all2. rewrite length_app. simpl. lia.
  - assert (M <= length F) as Hle by lia.
    rewrite firstn_app.
    replace (M - length F) with 0 by lia. simpl. apply app_nil_r.
Qed.

Lemma chosen_nil : chosen [] = [].
Proof.
  unfold Selection.chosen_keys, Selection.limit_layers. simpl.
  destruct (max_layers <=? 0)%Z; [reflexivity | apply firstn_nil].
Qed.

Lemma run_selected (items : list (string * processor)) :
  snd (run items) = number 0 (chosen (map fst items)).
Proof.
  induction items as [|[key orig] items IH] using rev_ind;
    [simpl map; rewrite chosen_nil; reflexivity|].
  rewrite run_snoc, map_app. simpl map. rewrite chosen_snoc.
  destruct (run items) as [pm sel] eqn:Hrun. simpl in IH. subst sel.
  unfold Selection.select_step.
  rewrite number_from_length.
  fold (qualifies key). unfold Selection.qualifies.
  destruct (Selection.keep_kind include_self include_cross key &&
            Selection._matches_any_pattern fnmatch key patterns &&
            ((max_layers <=? 0)%Z ||
             (Z.of_nat (length (chosen (map fst items))) <? max_layers)%Z)); simpl.
  - rewrite number_from_snoc. reflexivity.
  - reflexivity.
Qed.

Lemma run_processor_map (items : list (string * processor)) :
  NoDup (map fst items) ->
  forall key orig, In (key, orig) items ->
    (forall j, nth_error (chosen (map fst items)) j = Some key ->
               Py.dict_get (fst (run items)) key =
               Some (Selection.Recording (name j) (kind key))) /\
    (~ In key (chosen (map fst items)) ->
     Py.dict_get (fst (run items)) key = Some (Selection.Original orig)).
Proof.
  induction items as [|[k o] items IH] using rev_ind; intros Hnd key orig Hin;
    [contradiction|].
  rewrite map_app in Hnd. simpl in Hnd.
  assert (NoDup (map fst items)) as Hnd' by (eapply NoDup_app_remove_r; exact Hnd).
  assert (~ In k (map fst items)) as Hfresh.
  { intros Hk. apply NoDup_remove_2 in Hnd. apply Hnd. rewrite app_nil_r. exact Hk. }
  assert (~ In k (chosen (map fst items))) as Hfresh'.
  { intros Hk. apply chosen_incl in Hk. tauto. }
  pose proof (run_selected items) as Hsel.
  rewrite run_snoc, map_app. simpl map. rewrite chosen_snoc.
  destruct (run items) as [pm sel] eqn:Hrun. simpl in Hsel. subst sel.
  unfold Selection.select_step. rewrite number_from_length.
  fold (qualifies k). unfold Selection.qualifies.
  set (cond := Selection.keep_kind include_self include_cross k &&
               Selection._matches_any_pattern fnmatch k patterns &&
               ((max_layers <=? 0)%Z ||
                (Z.of_nat (length (chosen (map fst items))) <? max_layers)%Z)).
  apply in_app_or in Hin as [Hin|Hin].
  - assert (k <> key) as Hne.
    { intros ->. apply Hfresh. apply (in_map fst) in Hin. exact Hin. }
    specialize (IH Hnd' key orig Hin). simpl in IH. destruct IH as [IHrec IHorig].
    destruct cond; simpl; rewrite dict_get_set_ne by exact Hne; split.
    + intros j Hj. apply IHrec.
      destruct (Nat.lt_ge_cases j (length (chosen (map fst items)))) as [Hlt|Hge].
      * rewrite nth_error_app1 in Hj by exact Hlt. exact Hj.
      * rewrite nth_error_app2 in Hj by exact Hge.
        destruct (j - length (chosen (map fst items))) as [|[|n]]; simpl in Hj;
          congruence.
    + intros Hnot. apply IHorig. intros Hc. apply Hnot. apply in_or_app. auto.
    + exact IHrec.
    + exact IHorig.
  - destruct Hin as [Heq|[]]. injection Heq as -> ->.
    destruct cond; simpl; rewrite dict_get_set_eq; split.
    + intros j Hj.
      destruct (Nat.lt_ge_cases j (length (chosen (map fst items)))) as [Hlt|Hge].
      * rewrite nth_error_app1 in Hj by exact Hlt.
        apply nth_error_In in Hj. contradiction.
      * rewrite nth_error_app2 in Hj by exact Hge.
        destruct (j - length (chosen (map fst items))) as [|n] eqn:Hd;
          [|destruct n; discriminate].
        replace j with (length (chosen (map fst items))) by lia. reflexivity.
    + intros Hnot. exfalso. apply Hnot. apply in_or_app. right. left. reflexivity.
    + intros j Hj. apply nth_error_In in Hj. contradiction.
    + reflexivity.
Qed.

End SelectionFacts.

Section SelectionTheorem.
Context {processor : Type} (fnmatch : string -> string -> bool).
Context (include_self include_cross : bool) (patterns : list string) (max_layers : Z).

Local Abbreviation run :=
  (Selection.select_loop processor fnmatch include_self include_cross patterns max_layers).
Local Abbreviation qualifies :=
  (Selection.qualifies fnmatch include_self include_cross patterns).
Local Abbreviation chosen :=
  (Selection.chosen_keys fnmatch include_self include_cross patterns max_layers).

Lemma chosen_iff_room (before after : list string) (key : string) :
  NoDup (before ++ key :: after) ->
  In key (chosen (before ++ key :: after)) <->
  qualifies key = true /\
  ((max_layers <= 0)%Z \/ (Z.of_nat (length (chosen before)) < max_layers)%Z).
Proof.
  intros Hnd. split.
  - intros Hin. pose proof (chosen_incl _ _ _ _ _ _ _ Hin) as [_ Hq].
    split; [exact Hq|].
    revert Hin. unfold Selection.chosen_keys, Selection.limit_layers.
    destruct (Z.leb_spec max_layers 0) as [Hmax|Hmax]; [auto|].
    intros Hin. right.
    rewrite filter_app in Hin. simpl in Hin. rewrite Hq in Hin.
    rewrite firstn_app in Hin. rewrite length_firstn.
    apply in_app_or in Hin as [Hin|Hin].
    + exfalso. apply NoDup_remove_2 in Hnd. apply Hnd.
      apply in_or_app. left.
      assert (In key (filter qualifies before)) as Hf.
      { rewrite <- (firstn_skipn (Z.to_nat max_layers)). apply in_or_app. auto. }
      apply filter_In in Hf. tauto.
    + destruct (Z.to_nat max_layers - length (filter qualifies before)) eqn:Hd;
        [contradiction | lia].
  - intros [Hq Hroom].
    unfold Selection.chosen_keys, Selection.limit_layers in *.
    rewrite filter_app. simpl. rewrite Hq.
    destruct (Z.leb_spec max_layers 0) as [Hmax|Hmax].
    + apply in_or_app. right. left. reflexivity.
    + destruct Hroom as [Hroom|Hroom]; [lia|].
      rewrite length_firstn in Hroom.
      rewrite firstn_app. apply in_or_app. right.
      destruct (Z.to_nat max_layers - length (filter qualifies before)) eqn:Hd;
        [lia | left; reflexivity].
Qed.


End SelectionTheorem.


(** ** C4: what set_step resets *)

(** C4 (as amended). Whatever state the recorder is in, [set_step] leaves
    the cross maps, self maps, both entropy tables and the per-layer token
    activations empty and stores the step and timestep; the shape-error list
    is left exactly as it was.  The shape-error list is emptied by
    [drain_step]: once a step has been drained, the following [set_step]
    leaves all six accumulators empty. *)
Theorem set_step_resets_maps_not_errors (self : Recorder.recorder) (step timestep : Z) :
  let after := Recorder.set_step self step timestep in
  Recorder._cross_maps after = [] /\
  Recorder._self_maps after = [] /\
  Recorder._cross_entropy after = [] /\
  Recorder._self_entropy after = [] /\
  Recorder._token_activation_by_layer after = [] /\
  Recorder.current_step after = step /\
  Recorder.current_timestep after = timestep /\
  Recorder.shape_errors after = Recorder.shape_errors self /\
  (forall drained out,
      Recorder.drain_step self = (drained, Py.Ok out) ->
      Recorder.out_shape_errors out = Recorder.shape_errors self /\
      Recorder.shape_errors (Recorder.set_step drained step timestep) = []).
Proof.
  simpl. do 8 (split; [reflexivity|]).
  intros drained out Hdrain.
  unfold Recorder.drain_step in Hdrain.
  destruct (Recorder._token_activation_by_layer self) as [|kv rest].
  - injection Hdrain as <- <-. split; reflexivity.
  - destruct (Py.bind _ _); [injection Hdrain as <- <-; split; reflexivity | discriminate].
Qed.

(** C4 (counterexample). A rank-2 capture at step 0 followed by [set_step]
    for step 1: the shape-error list still holds the error of step 0. *)
Lemma set_step_keeps_shape_errors :
  exists r0 : Recorder.recorder,
    Recorder.init 5 8 8 true = Py.Ok r0 /\
    Recorder.shape_errors
      (Recorder.set_step
         (fst (Recorder.record (fun x => x) (Recorder.set_step r0 0 981)
                 "layer_0" "cross"
                 (Recorder.mkTensor [2; 2]%nat [1; 0; 0; 1]%R) 8))
         1 961)
    = ["step=0 has invalid attention rank 2"].
Proof.
  eexists. split; reflexivity.
Qed.

(** ** C6: recording a tensor that is not rank 3 *)

Section RankErrors.
Variable round16 : R -> R.

Lemma extract_rank2 (self : Recorder.recorder) (t : Recorder.tensor) (heads : Z) :
  Recorder.ndim t = 2 ->
  Recorder._extract_conditional_attention self t heads =
  (Recorder.append_shape_error self
     ("step=" +:+ Py.str_of_Z (Recorder.current_step self) +:+
      " has invalid attention rank 2"),
   Py.Ok None).
Proof.
  destruct t as [sh items].
  unfold Recorder.ndim, Recorder._extract_conditional_attention. simpl.
  destruct sh as [|a [|b [|c rest]]]; simpl; intros H; try discriminate.
  reflexivity.
Qed.

(** A rank-2 capture of a supported type appends exactly one message,
    raises nothing and touches no map, entropy or activation entry. *)
Lemma record_rank2 (self : Recorder.recorder) (layer_id attention_type : string)
    (t : Recorder.tensor) (heads : Z) :
  Recorder.ndim t = 2 ->
  attention_type = "cross" \/ attention_type = "self" ->
  Recorder.record round16 self layer_id attention_type t heads =
  (Recorder.append_shape_error self
     ("step=" +:+ Py.str_of_Z (Recorder.current_step self) +:+
      " has invalid attention rank 2"),
   None).
Proof.
  intros Hrank Htype. unfold Recorder.record.
  rewrite (extract_rank2 self t heads Hrank).
  destruct Htype as [-> | ->]; reflexivity.
Qed.

End RankErrors.

(** C6 (the code at the failing input). Recording the rank-2 tensor of
    shape [[2, 2]] for layer ["layer_0"] at step 0 raises nothing, leaves
    every map untouched and appends exactly one message.  The message is
    ["step=0 has invalid attention rank 2"]: it carries the rank and the
    step, and the layer id does not occur in it. *)
Theorem record_rank2_message_omits_layer :
  forall (round16 : R -> R) (r0 : Recorder.recorder),
    Recorder.init 5 8 8 true = Py.Ok r0 ->
    let before := Recorder.set_step r0 0 981 in
    let result :=
      Recorder.record round16 before "layer_0" "cross"
        (Recorder.mkTensor [2; 2]%nat [1; 0; 0; 1]%R) 8 in
    snd result = None /\
    Recorder.shape_errors (fst result) = ["step=0 has invalid attention rank 2"] /\
    Recorder._cross_maps (fst result) = [] /\
    Recorder._self_maps (fst result) = [] /\
    (exists drained out,
        Recorder.drain_step (fst result) = (drained, Py.Ok out) /\
        Py.dict_get (Recorder.out_cross_maps out) "layer_0" = None /\
        Py.dict_get (Recorder.out_self_maps out) "layer_0" = None /\
        Recorder.out_shape_errors out = ["step=0 has invalid attention rank 2"]) /\
    Py.contains "2" "step=0 has invalid attention rank 2" = true /\
    Py.contains "layer_0" "step=0 has invalid attention rank 2" = false.
Proof.
  intros round16 r0 Hinit. injection Hinit as <-.
  do 4 (split; [reflexivity|]).
  split; [|split; reflexivity].
  eexists. eexists. split; [reflexivity|]. repeat split; reflexivity.
Qed.

Lemma record_rank2_message_witness :
  Recorder.init 5 8 8 true =
    Py.Ok (Recorder.mkRecorder 5 8 8 true (-1) (-1) [] [] [] [] [] []) /\
  Py.contains "layer_0" "step=0 has invalid attention rank 2" = false.
Proof.
  split; [reflexivity|].
  exact (proj2 (proj2 (proj2 (proj2 (proj2 (proj2
    (record_rank2_message_omits_layer (fun x => x)
       (Recorder.mkRecorder 5 8 8 true (-1) (-1) [] [] [] [] [] []) eq_refl))))))).
Defined.

(** ** C5: the mean token-activation vector of a step *)

Section MeanTokenActivation.
Local Open Scope R_scope.

Lemma vsum_length (n : nat) (rows : list (list R)) :
  Forall (fun v => length v = n) rows -> length (Num.vsum n rows) = n.
Proof.
  induction 1 as [|r rows Hr _ IH]; simpl.
  - apply repeat_length.
  - rewrite length_map, length_combine, IH, Hr. apply Nat.min_id.
Qed.

Lemma vsum_nth (n : nat) (rows : list (list R)) (k : nat) :
  Forall (fun v => length v = n) rows -> (k < n)%nat ->
  nth k (Num.vsum n rows) 0 = Num.sumR (map (fun v => nth k v 0) rows).
Proof.
  intros Hrows Hk. induction Hrows as [|r rows Hr Hrows IH]; simpl.
  - apply nth_repeat.
  - rewrite <- IH.
    pose proof (vsum_length n rows Hrows) as Hlen.
    set (f := fun p : R * R => fst p + snd p).
    rewrite (nth_indep _ 0 (f (0, 0)))
      by (rewrite length_map, length_combine, Hlen, Hr; lia).
    rewrite map_nth. rewrite combine_nth by congruence. reflexivity.
Qed.

Lemma np_stack_same_length (n : nat) (rows : list (list R)) :
  rows <> [] -> Forall (fun v => length v = n) rows ->
  Num.np_stack rows = Py.Ok rows.
Proof.
  intros Hne Hrows. destruct rows as [|r rest]; [congruence|].
  inversion Hrows as [|? ? Hr Hrest]; subst. simpl.
  replace (forallb _ rest) with true; [reflexivity|].
  symmetry. apply forallb_forall. intros v Hv.
  rewrite Forall_forall in Hrest. rewrite (Hrest v Hv). apply Nat.eqb_refl.
Qed.

(** C5 (as amended). When no layer produced a token activation in the
    step, [drain_step] returns [None] for the mean vector, and the driver
    replaces it by the all-zero vector of length [len(tokens)].  When some
    layers did, and their vectors all have length [n], [drain_step] returns
    the vector of length [n] whose entry [k] is the arithmetic mean of the
    layers' entries [k], and the driver keeps it. *)
Theorem drain_step_mean_token_activation (self : Recorder.recorder) (tokens_len : nat) :
  (Recorder._token_activation_by_layer self = [] ->
   exists out,
     Recorder.drain_step self = (Recorder.clear_shape_errors self, Py.Ok out) /\
     Recorder.out_mean_token_activation out = None /\
     Driver.step_mean_token_activation tokens_len out = repeat 0 tokens_len /\
     length (Driver.step_mean_token_activation tokens_len out) = tokens_len) /\
  (forall n,
     Recorder._token_activation_by_layer self <> [] ->
     Forall (fun v => length v = n)
            (Py.dict_values (Recorder._token_activation_by_layer self)) ->
     exists out mean,
       Recorder.drain_step self = (Recorder.clear_shape_errors self, Py.Ok out) /\
       Recorder.out_mean_token_activation out = Some mean /\
       Driver.step_mean_token_activation tokens_len out = mean /\
       length mean = n /\
       forall k, (k < n)%nat ->
         nth k mean 0 =
         Num.sumR (map (fun v => nth k v 0)
                       (Py.dict_values (Recorder._token_activation_by_layer self)))
         / INR (length (Recorder._token_activation_by_layer self))).
Proof.
  split.
  - intros Hnone. unfold Recorder.drain_step. rewrite Hnone.
    eexists. split; [reflexivity|]. simpl.
    repeat split; try reflexivity. apply repeat_length.
  - intros n Hsome Hlen. unfold Recorder.drain_step.
    set (values := Py.dict_values (Recorder._token_activation_by_layer self)) in *.
    assert (values <> []) as Hne.
    { unfold values, Py.dict_values.
      destruct (Recorder._token_activation_by_layer self); [congruence | discriminate]. }
    assert (length values = length (Recorder._token_activation_by_layer self)) as Hcount.
    { unfold values, Py.dict_values. apply length_map. }
    unfold Recorder.stacked_mean. rewrite (np_stack_same_length n values Hne Hlen).
    destruct (Recorder._token_activation_by_layer self) as [|kv rest] eqn:Hdict;
      [congruence|].
    simpl Py.bind. cbv iota beta.
    assert (length (hd [] values) = n) as Hhd.
    { destruct values as [|v vs]; [congruence|]. inversion Hlen; subst. reflexivity. }
    change (length (hd [] values)) with (length (snd kv)) in Hhd. rewrite Hhd.
    eexists. eexists. split; [reflexivity|]. simpl.
    split; [reflexivity|]. split; [reflexivity|]. split.
    + unfold Num.vmean. rewrite length_map. apply vsum_length. exact Hlen.
    + intros k Hk. unfold Num.vmean.
      set (g := fun s : R => s / INR (length values)).
      rewrite (nth_indep _ 0 (g 0))
        by (rewrite length_map, (vsum_length n values Hlen); exact Hk).
      rewrite map_nth. unfold g. rewrite (vsum_nth n values k Hlen Hk).
      rewrite Hcount. reflexivity.
Qed.

Lemma drain_step_mean_token_activation_witness :
  let self := Recorder.mkRecorder 2 8 8 true 0 981 [] [] [] []
                [("layer_0", [1; 3]); ("layer_1", [3; 5])] [] in
  Recorder._token_activation_by_layer self <> [] /\
  Forall (fun v => length v = 2%nat)
         (Py.dict_values (Recorder._token_activation_by_layer self)) /\
  exists out mean,
    Recorder.drain_step self = (Recorder.clear_shape_errors self, Py.Ok out) /\
    Recorder.out_mean_token_activation out = Some mean /\
    nth 0 mean 0 = 2 /\ nth 1 mean 0 = 4.
Proof.
  intros self.
  assert (Recorder._token_activation_by_layer self <> []) as Hne by discriminate.
  assert (Forall (fun v => length v = 2%nat)
                 (Py.dict_values (Recorder._token_activation_by_layer self))) as Hlen.
  { repeat constructor. }
  split; [exact Hne|]. split; [exact Hlen|].
  destruct (proj2 (drain_step_mean_token_activation self 2) 2%nat Hne Hlen)
    as [out [mean [Hdrain [Hmean [_ [_ Hnth]]]]]].
  exists out, mean. split; [exact Hdrain|]. split; [exact Hmean|].
  split.
  - rewrite (Hnth 0%nat) by lia. simpl. lra.
  - rewrite (Hnth 1%nat) by lia. simpl. lra.
Defined.

(** C5 (counterexample). Right after [set_step], with no layer recorded,
    [drain_step] returns [None] for the mean token activation, not a vector
    of zeros. *)
Lemma drain_step_returns_none_without_layers :
  exists r0 out,
    Recorder.init 5 8 8 true = Py.Ok r0 /\
    snd (Recorder.drain_step (Recorder.set_step r0 0 981)) = Py.Ok out /\
    Recorder.out_mean_token_activation out = None /\
    Recorder.out_mean_token_activation out <> Some (repeat 0 5).
Proof.
  eexists. eexists. split; [reflexivity|]. split; [reflexivity|].
  split; [reflexivity | discriminate].
Qed.

End MeanTokenActivation.

(** ** C2: recording a cross-attention tensor of shape [16, 64, 5] *)

Section SumAlgebra.
Local Open Scope R_scope.

Lemma sumR_map_ext_in {A : Type} (f g : A -> R) (l : list A) :
  (forall x, In x l -> f x = g x) -> Num.sumR (map f l) = Num.sumR (map g l).
Proof. intros H. rewrite (map_ext_in f g l H). reflexivity. Qed.

Lemma sumR_map_const {A : Type} (c : R) (l : list A) :
  Num.sumR (map (fun _ => c) l) = INR (length l) * c.
Proof.
  induction l as [|x l IH].
  - simpl. lra.
  - change (length (x :: l)) with (S (length l)). rewrite S_INR. simpl. rewrite IH. lra.
Qed.

Lemma sumR_map_plus {A : Type} (f g : A -> R) (l : list A) :
  Num.sumR (map (fun x => f x + g x) l) = Num.sumR (map f l) + Num.sumR (map g l).
Proof. induction l as [|x l IH]; simpl; [lra | rewrite IH; lra]. Qed.

Lemma sumR_swap {A B : Type} (f : A -> B -> R) (la : list A) (lb : list B) :
  Num.sumR (map (fun a => Num.sumR (map (fun b => f a b) lb)) la) =
  Num.sumR (map (fun b => Num.sumR (map (fun a => f a b) la)) lb).
Proof.
  induction la as [|a la IH]; simpl.
  - rewrite (sumR_map_const 0). lra.
  - rewrite IH. rewrite <- sumR_map_plus. reflexivity.
Qed.

Lemma sumR_map_div {A : Type} (f : A -> R) (c : R) (l : list A) :
  Num.sumR (map (fun x => f x / c) l) = Num.sumR (map f l) / c.
Proof. rewrite <- sumR_scale, map_map. reflexivity. Qed.

Lemma sumR_ge_elem (l : list R) (x : R) :
  Forall (fun y => 0 <= y) l -> In x l -> x <= Num.sumR l.
Proof.
  induction 1 as [|y l Hy Hl IH]; intros Hin; [contradiction|].
  simpl. pose proof (sumR_nonneg l Hl). destruct Hin as [->|Hin].
  - lra.
  - specialize (IH Hin). lra.
Qed.

Lemma sumR_neg_exists (l : list R) :
  Forall (fun x => x <= 0) l -> Exists (fun x => x < 0) l -> Num.sumR l < 0.
Proof.
  intros Hall Hex.
  assert (0 < Num.sumR (map Ropp l)) as Hpos.
  { apply sumR_pos_exists.
    - rewrite Forall_forall in Hall |- *. intros y Hy.
      apply in_map_iff in Hy as [x [<- Hx]]. specialize (Hall x Hx). lra.
    - apply Exists_exists in Hex as [x [Hx Hneg]].
      apply Exists_exists. exists (- x). split; [apply in_map; exact Hx | lra]. }
  assert (Num.sumR (map Ropp l) = - Num.sumR l) as Heq.
  { clear. induction l as [|x l IH]; simpl; [lra | rewrite IH; lra]. }
  lra.
Qed.

Lemma all_ge_one_or_some_below (l : list R) :
  Forall (fun x => 1 <= x) l \/ Exists (fun x => x < 1) l.
Proof.
  induction l as [|x l [IH|IH]].
  - left. constructor.
  - destruct (Rlt_le_dec x 1) as [Hlt|Hle].
    + right. constructor. exact Hlt.
    + left. constructor; assumption.
  - right. apply Exists_cons_tl. exact IH.
Qed.

Lemma x_ln_x_nonpos (x : R) : 0 < x -> x <= 1 -> x * ln x <= 0.
Proof.
  intros Hpos Hle. destruct (Rle_lt_or_eq_dec x 1 Hle) as [Hlt| ->].
  - pose proof (ln_increasing x 1 Hpos Hlt) as Hln. rewrite ln_1 in Hln. nra.
  - rewrite ln_1. lra.
Qed.

Lemma x_ln_x_neg (x : R) : 0 < x -> x < 1 -> x * ln x < 0.
Proof.
  intros Hpos Hlt.
  pose proof (ln_increasing x 1 Hpos Hlt) as Hln. rewrite ln_1 in Hln. nra.
Qed.

(** The clamped entropy term of a probability row with at least two
    entries is strictly negative before the sign flip. *)
Lemma distribution_row_term_neg (row : list R) :
  Forall (fun x => 0 <= x) row ->
  Num.sumR row = 1 ->
  (2 <= length row)%nat ->
  Num.sumR (map (fun x => x * ln x) (map (fun x => Rmax x (1 / 100000000)) row)) < 0.
Proof.
  intros Hnonneg Hsum Hlen.
  rewrite map_map. apply sumR_neg_exists.
  - apply Forall_forall. intros y Hy. apply in_map_iff in Hy as [x [<- Hx]].
    pose proof (sumR_ge_elem row x Hnonneg Hx) as Hle. rewrite Hsum in Hle.
    apply x_ln_x_nonpos.
    + pose proof (Rmax_r x (1 / 100000000)). lra.
    + apply Rmax_lub; lra.
  - destruct (all_ge_one_or_some_below row) as [Hall|Hex].
    + exfalso. pose proof (sumR_lower_bound 1 row Hall) as Hlb.
      apply le_INR in Hlen. simpl in Hlen. lra.
    + apply Exists_exists in Hex as [x [Hx Hlt]].
      apply Exists_exists. exists (Rmax x (1 / 100000000) * ln (Rmax x (1 / 100000000))).
      split.
      * apply in_map_iff. exists x. split; [reflexivity | exact Hx].
      * apply x_ln_x_neg.
        -- pose proof (Rmax_r x (1 / 100000000)). lra.
        -- apply Rmax_lub_lt; lra.
Qed.

Lemma meanR_neg (l : list R) :
  l <> [] -> Forall (fun x => x < 0) l -> Num.meanR l < 0.
Proof.
  intros Hne Hall. unfold Num.meanR.
  assert (Num.sumR l < 0) as Hsum.
  { apply sumR_neg_exists.
    - rewrite Forall_forall in Hall |- *. intros x Hx. specialize (Hall x Hx). lra.
    - destruct l as [|x l]; [congruence|]. inversion Hall; subst.
      constructor. assumption. }
  assert (0 < INR (length l)) as Hlen.
  { apply lt_0_INR. destruct l; [congruence | simpl; lia]. }
  apply Ropp_lt_cancel. rewrite Ropp_0.
  replace (- (Num.sumR l / INR (length l))) with ((- Num.sumR l) / INR (length l))
    by (field; lra).
  apply Rdiv_lt_0_compat; lra.
Qed.

End SumAlgebra.

Section CrossRecording.
Local Open Scope R_scope.
Variable round16 : R -> R.

Lemma extract_conditional_ok (self : Recorder.recorder) (t : Recorder.tensor)
    (heads : Z) (batch_heads query_tokens key_tokens : nat) :
  Recorder.shape t = [batch_heads; query_tokens; key_tokens] ->
  (0 < heads)%Z ->
  (Z.of_nat batch_heads mod heads = 0)%Z ->
  let batch := Z.to_nat (Z.of_nat batch_heads / heads) in
  let index := Recorder.cond_index (Recorder.cfg_enabled self) batch in
  (index < batch)%nat ->
  Recorder._extract_conditional_attention self t heads =
  (self, Py.Ok (Some (Recorder.head_mean t index (Z.to_nat heads)
                                          query_tokens key_tokens))).
Proof.
  intros Hshape Hheads Hmod batch index Hidx.
  unfold Recorder._extract_conditional_attention. rewrite Hshape.
  destruct (Z.leb_spec heads 0) as [Hle|_]; [lia|].
  rewrite Hmod. simpl negb. cbv iota.
  fold batch. fold index.
  destruct (Nat.ltb_spec index batch) as [_|Hge]; [reflexivity | lia].
Qed.

(** Averaging heads of a probability tensor gives probability rows. *)
Lemma head_mean_rows (t : Recorder.tensor)
    (batch_heads query_tokens key_tokens index heads : nat) :
  Recorder.shape t = [batch_heads; query_tokens; key_tokens] ->
  Recorder.is_attention_probs t ->
  (0 < heads)%nat ->
  (index * heads + heads <= batch_heads)%nat ->
  Forall (fun row => Forall (fun x => 0 <= x) row /\ Num.sumR row = 1 /\
                     length row = key_tokens)
         (Recorder.entries (Recorder.head_mean t index heads query_tokens key_tokens)).
Proof.
  intros Hshape Hprobs Hheads Hfit.
  unfold Recorder.is_attention_probs in Hprobs. rewrite Hshape in Hprobs.
  unfold Recorder.head_mean. simpl Recorder.entries.
  apply Forall_forall. intros row Hrow.
  apply in_map_iff in Hrow as [q [<- Hq]]. apply in_seq in Hq.
  assert (Hr : forall h, In h (seq 0 heads) ->
                 ((index * heads + h) * query_tokens + q
                  < batch_heads * query_tokens)%nat).
  { intros h Hh. apply in_seq in Hh. nia. }
  assert (0 < INR heads) as Hpos by (apply lt_0_INR; exact Hheads).
  split; [|split].
  - apply Forall_forall. intros x Hx.
    apply in_map_iff in Hx as [k [<- Hk]]. apply in_seq in Hk.
    apply Rmult_le_pos; [|left; apply Rinv_0_lt_compat; exact Hpos].
    apply sumR_nonneg. apply Forall_forall. intros y Hy.
    apply in_map_iff in Hy as [h [<- Hh]].
    apply (proj1 (Hprobs _ (Hr h Hh))). lia.
  - rewrite (sumR_map_div
               (fun k => Num.sumR
                  (map (fun h => Recorder.item t
                          (((index * heads + h) * query_tokens + q) * key_tokens + k))
                       (seq 0 heads)))).
    rewrite (sumR_swap
               (fun k h => Recorder.item t
                  (((index * heads + h) * query_tokens + q) * key_tokens + k))).
    rewrite (sumR_map_ext_in _ (fun _ => 1)).
    + rewrite sumR_map_const, length_seq. field. lra.
    + intros h Hh. apply (proj2 (Hprobs _ (Hr h Hh))).
  - rewrite length_map, length_seq. reflexivity.
Qed.

(** The entropy of a matrix of probability rows over at least two keys is
    strictly positive. *)
Lemma entropy_pos (m : Recorder.matrix) :
  Recorder.entries m <> [] ->
  Forall (fun row => Forall (fun x => 0 <= x) row /\ Num.sumR row = 1 /\
                     (2 <= length row)%nat)
         (Recorder.entries m) ->
  0 < Recorder._entropy m.
Proof.
  intros Hne Hrows. unfold Recorder._entropy.
  apply Ropp_lt_cancel. rewrite Ropp_0, Ropp_involutive.
  apply meanR_neg.
  - destruct (Recorder.entries m); [congruence | discriminate].
  - rewrite map_map. apply Forall_forall. intros y Hy.
    apply in_map_iff in Hy as [row [<- Hrow]].
    rewrite Forall_forall in Hrows. destruct (Hrows row Hrow) as [H0 [H1 H2]].
    apply distribution_row_term_neg; assumption.
Qed.

Lemma concat_length_const {A : Type} (n : nat) (ls : list (list A)) :
  Forall (fun l => length l = n) ls -> length (concat ls) = (length ls * n)%nat.
Proof.
  induction 1 as [|l ls Hl _ IH]; simpl; [reflexivity|].
  rewrite length_app, IH, Hl. reflexivity.
Qed.

Lemma concat_concat_length {A : Type} (n : nat) (chs : list (list (list A))) :
  Forall (fun ch => length (concat ch) = n) chs ->
  length (concat (concat chs)) = (length chs * n)%nat.
Proof.
  induction 1 as [|ch chs Hch _ IH]; simpl; [reflexivity|].
  rewrite concat_app, length_app, IH, Hch. reflexivity.
Qed.

Lemma bilinear_channel_shape (side res : nat) (img : list (list R)) :
  length (Recorder.bilinear_channel side res img) = res /\
  Forall (fun row => length row = res) (Recorder.bilinear_channel side res img).
Proof.
  unfold Recorder.bilinear_channel. split.
  - rewrite length_map, length_seq. reflexivity.
  - apply Forall_forall. intros row Hrow. apply in_map_iff in Hrow as [y [<- _]].
    destruct (Recorder.source_index side res y) as [y0 ly].
    rewrite length_map, length_seq. reflexivity.
Qed.

(** Whatever the number of key tokens, the fitted stack has exactly
    [token_count] channels of [res x res] values. *)
Lemma fit_tokens_shape (token_count res side : nat) (channels : list (list (list R))) :
  let fixed :=
    Recorder.fit_tokens token_count res
      (map (Recorder.bilinear_channel side res) channels) in
  length fixed = token_count /\
  length (concat (concat fixed)) = (token_count * (res * res))%nat.
Proof.
  intros fixed.
  assert (Hdown : Forall (fun ch => length (concat ch) = (res * res)%nat)
                         (map (Recorder.bilinear_channel side res) channels)).
  { apply Forall_forall. intros ch Hch. apply in_map_iff in Hch as [img [<- _]].
    destruct (bilinear_channel_shape side res img) as [Hrows Hcols].
    rewrite (concat_length_const res _ Hcols), Hrows. reflexivity. }
  assert (Hzero : length (concat (repeat (repeat 0 res) res)) = (res * res)%nat).
  { rewrite (concat_length_const res).
    - rewrite repeat_length. reflexivity.
    - apply Forall_forall. intros row Hrow. apply repeat_spec in Hrow. subst.
      apply repeat_length. }
  assert (Hfixed : length fixed = token_count /\
                   Forall (fun ch => length (concat ch) = (res * res)%nat) fixed).
  { unfold fixed, Recorder.fit_tokens.
    destruct (Nat.eqb_spec
                (length (map (Recorder.bilinear_channel side res) channels))
                token_count) as [Heq|Hneq].
    - split; [exact Heq | exact Hdown].
    - split.
      + rewrite length_app, length_firstn, repeat_length. lia.
      + apply Forall_app. split.
        * rewrite Forall_forall in Hdown |- *. intros ch Hch. apply Hdown.
          rewrite <- (firstn_skipn
                        (Nat.min (length (map (Recorder.bilinear_channel side res) channels))
                                 token_count)).
          apply in_or_app. left. exact Hch.
        * apply Forall_forall. intros ch Hch. apply repeat_spec in Hch. subst.
          exact Hzero. }
  destruct Hfixed as [Hlen Hall]. split; [exact Hlen|].
  rewrite <- Hlen. apply concat_concat_length. exact Hall.
Qed.

Lemma head_mean_entry (t : Recorder.tensor) (index heads query_tokens key_tokens q k : nat) :
  (q < query_tokens)%nat -> (k < key_tokens)%nat ->
  Recorder.entry (Recorder.head_mean t index heads query_tokens key_tokens) q k =
  Num.sumR (map (fun h => Recorder.item t
                   (((index * heads + h) * query_tokens + q) * key_tokens + k))
                (seq 0 heads)) / INR heads.
Proof.
  intros Hq Hk. unfold Recorder.entry, Recorder.head_mean. simpl Recorder.entries.
  set (row := fun q0 : nat =>
         map (fun k0 : nat =>
                Num.sumR (map (fun h => Recorder.item t
                                 (((index * heads + h) * query_tokens + q0) * key_tokens + k0))
                              (seq 0 heads)) / INR heads)
             (seq 0 key_tokens)).
  rewrite (nth_indep _ [] (row 0%nat)) by (rewrite length_map, length_seq; exact Hq).
  rewrite (map_nth row), seq_nth by exact Hq. simpl Nat.add. unfold row.
  set (cell := fun k0 : nat =>
         Num.sumR (map (fun h => Recorder.item t
                          (((index * heads + h) * query_tokens + q) * key_tokens + k0))
                       (seq 0 heads)) / INR heads).
  rewrite (nth_indep _ 0 (cell 0%nat)) by (rewrite length_map, length_seq; exact Hk).
  rewrite (map_nth cell), seq_nth by exact Hk. reflexivity.
Qed.

Lemma record_cross_ok (self : Recorder.recorder) (layer_id : string)
    (m : Recorder.matrix) :
  let side := Nat.sqrt (Recorder.m_rows m) in
  (side * side)%nat = Recorder.m_rows m ->
  side <> 0%nat ->
  Recorder.m_cols m <> 0%nat ->
  (0 < Recorder.attention_resolution self)%Z ->
  let res := Z.to_nat (Recorder.attention_resolution self) in
  let fixed :=
    Recorder.fit_tokens (Z.to_nat (Recorder.token_count self)) res
      (map (Recorder.bilinear_channel side res) (Recorder.token_maps m side)) in
  Recorder.record_cross round16 self layer_id m =
  (Recorder.with_cross_map
     (Recorder.with_cross self layer_id (Recorder._entropy m) (Recorder.column_mean m))
     layer_id
     (Recorder.to_float16_array round16 [length fixed; res; res]
                                (concat (concat fixed))),
   None).
Proof.
  intros side Hsquare Hside Hcols Hres res fixed.
  unfold Recorder.record_cross. fold side.
  rewrite (proj2 (Nat.eqb_eq _ _) Hsquare). simpl negb. cbv iota.
  rewrite (proj2 (Nat.eqb_neq _ _) Hside), (proj2 (Nat.eqb_neq _ _) Hcols).
  simpl orb.
  destruct (Z.leb_spec (Recorder.attention_resolution self) 0) as [Hle|_]; [lia|].
  reflexivity.
Qed.


End CrossRecording.

Lemma uniform_attention_probs :
  Recorder.is_attention_probs
    (Recorder.mkTensor [16; 64; 5]%nat (repeat (1 / 5)%R (16 * 64 * 5))).
Proof.
  unfold Recorder.is_attention_probs. cbn [Recorder.shape].
  intros r Hr.
  assert (Hitem : forall k, (k < 5)%nat ->
            Recorder.item (Recorder.mkTensor [16; 64; 5]%nat (repeat (1 / 5)%R (16 * 64 * 5)))
                          (r * 5 + k) = (1 / 5)%R).
  { intros k Hk. unfold Recorder.item. cbn [Recorder.data].
    rewrite (nth_indep _ 0%R (1 / 5)%R) by (rewrite repeat_length; lia).
    apply nth_repeat. }
  split.
  - intros k Hk. rewrite (Hitem k Hk). lra.
  - rewrite (sumR_map_ext_in _ (fun _ => (1 / 5)%R)).
    + rewrite sumR_map_const, length_seq. simpl. lra.
    + intros k Hk. apply in_seq in Hk. apply Hitem. lia.
Qed.


(** ** C1: attention files and their recorded shapes *)

Section StringFacts.

Lemma str_app_cons (ch : ascii) (a b : string) :
  String ch a +:+ b = String ch (a +:+ b).
Proof. reflexivity. Qed.

Lemma str_app_nil (b : string) : "" +:+ b = b.
Proof. reflexivity. Qed.

Lemma str_app_assoc (a b c : string) : (a +:+ b) +:+ c = a +:+ (b +:+ c).
Proof.
  induction a as [|ch a IH]; [reflexivity|].
  rewrite !str_app_cons, IH. reflexivity.
Qed.

Lemma str_prefix_app (a b : string) : String.prefix a (a +:+ b) = true.
Proof.
  induction a as [|ch a IH].
  - rewrite str_app_nil. destruct b; reflexivity.
  - rewrite str_app_cons. cbn [String.prefix].
    destruct (ascii_dec ch ch); [exact IH | congruence].
Qed.

Lemma str_drop_app (a b : string) : Fs.str_drop (String.length a) (a +:+ b) = b.
Proof. induction a as [|ch a IH]; [reflexivity | exact IH]. Qed.

Lemma str_prefix_slash_cons (ch : ascii) (a : string) :
  String.prefix "/" (String ch a) = if ascii_dec "/" ch then true else false.
Proof.
  cbn [String.prefix]. destruct (ascii_dec "/" ch); [|reflexivity].
  destruct a; reflexivity.
Qed.

Lemma str_prefix_slash_app (a b : string) :
  String.prefix "/" a = false -> String.prefix "/" b = false ->
  String.prefix "/" (a +:+ b) = false.
Proof.
  destruct a as [|ch a]; [intros _ H; exact H|].
  rewrite str_app_cons, !str_prefix_slash_cons. intros H _. exact H.
Qed.

End StringFacts.

Section SerializerFacts.
Variable round16 : R -> R.
Variable bits_of : Num.dtype -> R -> Z.

Local Abbreviation save := (Serializer.save_attention round16 bits_of).

Local Abbreviation stored_array := (Serializer.stored_array round16).
Local Abbreviation file_name_of := Serializer.file_name_of.
Local Abbreviation rel_path_of := Serializer.rel_path_of.

Lemma str_length_app (a b : string) :
  String.length (a +:+ b) = String.length a + String.length b.
Proof.
  induction a as [|ch a IH]; [reflexivity|].
  rewrite str_app_cons. simpl. rewrite IH. reflexivity.
Qed.

Lemma stored_array_float16 (array : Num.ndarray) :
  Num.nd_dtype (stored_array array) = Num.Float16 /\
  Num.nd_shape (stored_array array) = Num.nd_shape array /\
  length (Num.nd_items (stored_array array)) = length (Num.nd_items array).
Proof.
  unfold Serializer.stored_array, Serializer.astype_float16.
  destruct array as [[| |] shape items]; simpl; repeat split; try reflexivity;
    apply length_map.
Qed.

Lemma le_bytes_length (n : nat) (z : Z) : length (Serializer.le_bytes n z) = n.
Proof. unfold Serializer.le_bytes. rewrite length_map, length_seq. reflexivity. Qed.

Lemma tofile_bytes_length (array : Num.ndarray) :
  length (Serializer.tofile_bytes bits_of array) =
  Z.to_nat (Num.itemsize (Num.nd_dtype array)) * length (Num.nd_items array).
Proof.
  unfold Serializer.tofile_bytes.
  induction (Num.nd_items array) as [|x items IH]; simpl.
  - lia.
  - rewrite length_app, IH, le_bytes_length. lia.
Qed.

Lemma file_name_not_absolute (step : Z) (layer_id : string) :
  String.prefix "/" layer_id = false ->
  String.prefix "/" (file_name_of step layer_id) = false.
Proof.
  intros H. unfold Serializer.file_name_of. apply str_prefix_slash_app; [exact H|].
  reflexivity.
Qed.

Lemma rel_path_not_absolute (step : Z) (layer_id attention_type : string) :
  String.prefix "/" (rel_path_of step layer_id attention_type) = false.
Proof. reflexivity. Qed.

Lemma join_rel_path (root : string) (step : Z) (layer_id attention_type : string) :
  Fs.path_join root (rel_path_of step layer_id attention_type) =
  root +:+ "/" +:+ rel_path_of step layer_id attention_type.
Proof. unfold Fs.path_join. rewrite rel_path_not_absolute. reflexivity. Qed.

(** A call with a supported type and a relative layer id succeeds: it
    writes the stored array under the type's directory and appends the
    record. *)
Lemma save_attention_ok (files : Fs.fs) (self : Serializer.serializer)
    (step : Z) (layer_id attention_type : string) (array : Num.ndarray) :
  attention_type = "cross" \/ attention_type = "self" ->
  String.prefix "/" layer_id = false ->
  let rel := rel_path_of step layer_id attention_type in
  let record :=
    Serializer.attention_record step layer_id attention_type rel (stored_array array) in
  save files self step layer_id attention_type array =
  (<[Fs.path_join (Serializer.output_dir self) rel :=
       Serializer.tofile_bytes bits_of (stored_array array)]> files,
   Serializer.mkSerializer (Serializer.output_dir self)
     (Serializer.attention_files self ++ [record]) (Serializer.image_paths self),
   Py.Ok record).
Proof.
  intros Htype Hlayer rel record.
  pose proof (file_name_not_absolute step layer_id Hlayer) as Hname.
  unfold Serializer.save_attention.
  assert (Hpath : forall kind,
            Fs.path_join
              (Fs.path_join (Fs.path_join (Serializer.output_dir self) "attention") kind)
              (file_name_of step layer_id) =
            (Serializer.output_dir self +:+ "/") +:+
            ("attention" +:+ "/" +:+ kind +:+ "/" +:+ file_name_of step layer_id)
            \/ String.prefix "/" kind = true).
  { intros kind. destruct (String.prefix "/" kind) eqn:Hk; [right; reflexivity | left].
    unfold Fs.path_join at 1. rewrite Hname.
    unfold Fs.path_join at 1. rewrite Hk.
    unfold Fs.path_join. change (String.prefix "/" "attention") with false. cbv iota.
    rewrite !str_app_assoc. reflexivity. }
  assert (Hrel : forall kind,
            String.prefix "/" kind = false ->
            Fs.relative_to
              (Fs.path_join
                 (Fs.path_join (Fs.path_join (Serializer.output_dir self) "attention") kind)
                 (file_name_of step layer_id))
              (Serializer.output_dir self) =
            Py.Ok ("attention" +:+ "/" +:+ kind +:+ "/" +:+ file_name_of step layer_id)).
  { intros kind Hk. destruct (Hpath kind) as [Heq|Habs]; [|congruence].
    rewrite Heq. unfold Fs.relative_to. rewrite str_prefix_app.
    replace (String.length (Serializer.output_dir self) + 1)
      with (String.length (Serializer.output_dir self +:+ "/"))
      by (rewrite str_length_app; reflexivity).
    rewrite str_drop_app. reflexivity. }
  assert (Hjoin : forall kind,
            String.prefix "/" kind = false ->
            Fs.path_join
              (Fs.path_join (Fs.path_join (Serializer.output_dir self) "attention") kind)
              (file_name_of step layer_id) =
            Fs.path_join (Serializer.output_dir self)
              ("attention" +:+ "/" +:+ kind +:+ "/" +:+ file_name_of step layer_id)).
  { intros kind Hk. destruct (Hpath kind) as [Heq|Habs]; [|congruence].
    rewrite Heq. unfold Fs.path_join at 1.
    change (String.prefix "/" ("attention" +:+ "/" +:+ kind +:+ "/" +:+
                               file_name_of step layer_id)) with false.
    cbv iota. rewrite str_app_assoc. reflexivity. }
  unfold Serializer.cross_attention_dir, Serializer.self_attention_dir,
    Serializer.attention_dir.
  destruct Htype as [-> | ->].
  - rewrite String.eqb_refl.
    rewrite (Hrel "cross" eq_refl), (Hjoin "cross" eq_refl). reflexivity.
  - change (String.eqb "self" "cross") with false. cbv iota.
    rewrite String.eqb_refl.
    rewrite (Hrel "self" eq_refl), (Hjoin "self" eq_refl). reflexivity.
Qed.

End SerializerFacts.

Section AssetsFacts.
Variable py_str : Json.json -> string.

Local Abbreviation check := (Assets.check_entry py_str).
Local Abbreviation validate := (Assets.validate_attention_assets py_str).

Local Abbreviation entry_errors := (Assets.entry_errors py_str).

Lemma validate_loop (files : Fs.fs) (root : string)
    (records : list (Py.dict Json.json)) (checked : Z) (errors : list string) :
  fold_left
    (fun state entry =>
       let '(checked, errors) := state in
       let checked := (checked + 1)%Z in
       match check files root entry with
       | Some msg => (checked, errors ++ [msg])
       | None => (checked, errors)
       end)
    records (checked, errors) =
  ((checked + Z.of_nat (length records))%Z, errors ++ entry_errors files root records).
Proof.
  revert checked errors. induction records as [|entry records IH]; intros checked errors.
  - simpl. rewrite Z.add_0_r, app_nil_r. reflexivity.
  - cbn [fold_left]. unfold Assets.entry_errors. cbn [flat_map].
    destruct (check files root entry) as [msg|]; rewrite IH; unfold Assets.entry_errors.
    + rewrite <- app_assoc. f_equal. cbn [length]. lia.
    + f_equal. cbn [length]. lia.
Qed.

Lemma validate_report (files : Fs.fs) (root : string)
    (records : list (Py.dict Json.json)) :
  validate files root records =
  Assets.mkReport (Z.of_nat (length records))
                  (Nat.eqb (length (entry_errors files root records)) 0)
                  (entry_errors files root records).
Proof.
  unfold Assets.validate_attention_assets. rewrite validate_loop. reflexivity.
Qed.

Lemma entry_errors_nil (files : Fs.fs) (root : string)
    (records : list (Py.dict Json.json)) :
  entry_errors files root records = [] <->
  Forall (fun entry => check files root entry = None) records.
Proof.
  unfold Assets.entry_errors. induction records as [|entry records IH]; simpl.
  - split; [constructor | reflexivity].
  - destruct (check files root entry) as [msg|] eqn:Hc; simpl.
    + split; [discriminate | intros H; inversion H; congruence].
    + rewrite IH. split; [intros H; constructor; assumption | intros H; inversion H; assumption].
Qed.

Lemma expected_items_spec (shape : list Json.json) (acc v : Z) :
  Assets.expected_items shape acc = Some v <->
  exists ints,
    Forall2 (fun dim d => Json.as_int dim = Some d /\ (0 < d)%Z) shape ints /\
    v = (acc * Num.prodZ ints)%Z.
Proof.
  revert acc. induction shape as [|dim shape IH]; intros acc; simpl.
  - split.
    + intros H. injection H as <-. exists []. split; [constructor | simpl; lia].
    + intros [ints [Hall ->]]. inversion Hall; subst. simpl. f_equal. lia.
  - destruct (Json.as_int dim) as [d|] eqn:Hd.
    + destruct (Z.leb_spec d 0) as [Hle|Hpos].
      * split; [discriminate|].
        intros [ints [Hall _]]. inversion Hall as [|? ? ? ? [Hd' Hpos] _]; subst.
        rewrite Hd in Hd'. injection Hd' as <-. lia.
      * rewrite IH. split.
        -- intros [ints [Hall ->]]. exists (d :: ints). split.
           ++ constructor; [split; assumption | exact Hall].
           ++ simpl. lia.
        -- intros [ints [Hall ->]]. inversion Hall as [|? d' ? ints' [Hd' _] Hrest]; subst.
           rewrite Hd in Hd'. injection Hd' as <-.
           exists ints'. split; [exact Hrest | simpl; lia].
    + split; [discriminate|].
      intros [ints [Hall _]]. inversion Hall as [|? ? ? ? [Hd' _] _]; subst. congruence.
Qed.

(** The loop body appends no error exactly for the records the
    specification calls valid. *)
Lemma check_entry_none_iff (files : Fs.fs) (root : string) (entry : Py.dict Json.json) :
  check files root entry = None <-> Assets.record_valid files root entry.
Proof.
  unfold Assets.check_entry, Assets.record_valid, Json.get, Json.get_default,
    Fs.exists_, Fs.st_size.
  split.
  - destruct (Py.dict_get entry "path") as [[| | | |rel| |]|] eqn:Hpath; try discriminate.
    destruct (String.eqb_spec rel "") as [|Hrel]; [discriminate|].
    destruct (files !! Fs.path_join root rel) as [bytes|] eqn:Hfile; [|discriminate].
    cbn [negb].
    destruct (Py.dict_get entry "shape") as [[| | | | |shape|]|] eqn:Hshape;
      try discriminate.
    destruct shape as [|dim shape]; [discriminate|].
    destruct (Assets.expected_items (dim :: shape) 1) as [items|] eqn:Hitems;
      [|discriminate].
    destruct (Z.eqb_spec (Z.of_nat (length bytes)) (items * Num.itemsize Num.Float16))
      as [Hsize|]; [|discriminate].
    intros _. apply expected_items_spec in Hitems as [ints [Hall ->]].
    exists rel, (dim :: shape), bytes.
    repeat split; try assumption; try reflexivity; try discriminate.
    exists ints. repeat split; try assumption. rewrite Hsize. simpl Num.itemsize. lia.
  - intros [rel [dims [bytes [Hpath [Hrel [Hshape [Hdims [ints [Hall [Hfile Hsize]]]]]]]]]].
    rewrite Hpath. destruct (String.eqb_spec rel "") as [|_]; [contradiction|].
    rewrite Hfile. cbn [negb]. rewrite Hshape.
    destruct dims as [|dim dims]; [contradiction|].
    assert (Assets.expected_items (dim :: dims) 1 = Some (1 * Num.prodZ ints)%Z) as ->.
    { apply expected_items_spec. exists ints. split; [exact Hall | reflexivity]. }
    destruct (Z.eqb_spec (Z.of_nat (length bytes))
                         (1 * Num.prodZ ints * Num.itemsize Num.Float16)) as [_|Hne];
      [reflexivity|].
    exfalso. apply Hne. rewrite Hsize. simpl Num.itemsize. lia.
Qed.

Lemma validate_passed_iff (files : Fs.fs) (root : string)
    (records : list (Py.dict Json.json)) :
  Assets.passed (validate files root records) = true <->
  Forall (Assets.record_valid files root) records.
Proof.
  rewrite validate_report. cbn [Assets.passed].
  rewrite Nat.eqb_eq, length_zero_iff_nil, entry_errors_nil.
  split; intros H; (eapply Forall_impl; [|exact H]); intros entry;
    apply check_entry_none_iff.
Qed.

End AssetsFacts.

Section ManifestFacts.
Variable round16 : R -> R.
Variable bits_of : Num.dtype -> R -> Z.
Variable py_str : Json.json -> string.

Local Abbreviation save_all := (Serializer.save_all round16 bits_of).
Local Abbreviation record_of := (Serializer.record_of_call round16).
Local Abbreviation stored := (Serializer.stored_array round16).

Local Abbreviation call_ok := Serializer.call_ok.

Lemma prodZ_of_nat (shape : list nat) :
  Num.prodZ (map Z.of_nat shape) = Z.of_nat (fold_right Nat.mul 1 shape).
Proof. induction shape as [|d shape IH]; simpl; [reflexivity | rewrite IH; lia]. Qed.

Lemma saved_as_size_matches (files : Fs.fs) (root : string)
    (record : Py.dict Json.json) (shape : list nat) :
  Serializer.saved_as files root record shape ->
  Serializer.size_matches files root record.
Proof.
  intros [rel [bytes [Hpath [_ [Hrel [Hshape [Hfile Hlen]]]]]]].
  exists rel, (map Z.of_nat shape), bytes.
  split; [exact Hpath|]. split; [rewrite map_map; exact Hshape|].
  split; [unfold Fs.path_join; rewrite Hrel; exact Hfile|].
  rewrite prodZ_of_nat, Hlen. lia.
Qed.

Lemma saved_as_record_valid (files : Fs.fs) (root : string)
    (record : Py.dict Json.json) (shape : list nat) :
  Serializer.saved_as files root record shape ->
  shape <> [] -> Forall (fun d => 0 < d) shape ->
  Assets.record_valid files root record.
Proof.
  intros [rel [bytes [Hpath [Hne [Hrel [Hshape [Hfile Hlen]]]]]]] Hrank Hpos.
  exists rel, (map (fun d => Json.JInt (Z.of_nat d)) shape), bytes.
  split; [exact Hpath|]. split; [exact Hne|]. split; [exact Hshape|].
  split; [destruct shape; [congruence | discriminate]|].
  exists (map Z.of_nat shape). split; [|split].
  - clear -Hpos. induction Hpos as [|d shape Hd _ IH]; simpl; constructor.
    + split; [reflexivity | lia].
    + exact IH.
  - unfold Fs.path_join. rewrite Hrel. exact Hfile.
  - rewrite prodZ_of_nat, Hlen. lia.
Qed.

Lemma record_of_path (call : Serializer.save_call) :
  Serializer.record_path (record_of call) =
  Json.JStr (Serializer.rel_path_of (Serializer.call_step call)
               (Serializer.call_layer_id call) (Serializer.call_attention_type call)).
Proof. reflexivity. Qed.

(** Right after the write, the new record describes its file. *)
Lemma record_of_saved_as (files : Fs.fs) (root : string) (call : Serializer.save_call) :
  Num.ndarray_wf (Serializer.call_array call) ->
  let rel := Serializer.rel_path_of (Serializer.call_step call)
               (Serializer.call_layer_id call) (Serializer.call_attention_type call) in
  Serializer.saved_as
    (<[Fs.path_join root rel :=
         Serializer.tofile_bytes bits_of (stored (Serializer.call_array call))]> files)
    root (record_of call) (Num.nd_shape (Serializer.call_array call)).
Proof.
  intros Hwf rel.
  destruct (stored_array_float16 round16 (Serializer.call_array call))
    as [Hdtype [Hshape Hitems]].
  exists rel, (Serializer.tofile_bytes bits_of (stored (Serializer.call_array call))).
  split; [reflexivity|]. split; [discriminate|]. split; [reflexivity|]. split.
  - unfold Serializer.record_of_call, Serializer.attention_record.
    cbn [Py.dict_get]. simpl String.eqb. cbv iota. rewrite Hshape. reflexivity.
  - split.
    + unfold rel. rewrite join_rel_path. apply lookup_insert_eq.
    + rewrite tofile_bytes_length, Hdtype, Hitems. simpl Num.itemsize.
      rewrite Hwf. reflexivity.
Qed.

Lemma save_all_snoc (files : Fs.fs) (self : Serializer.serializer)
    (calls : list Serializer.save_call) (call : Serializer.save_call) :
  save_all files self (calls ++ [call]) =
  Py.bind (save_all files self calls) (fun st =>
    match Serializer.save_attention round16 bits_of (fst st) (snd st)
            (Serializer.call_step call) (Serializer.call_layer_id call)
            (Serializer.call_attention_type call) (Serializer.call_array call) with
    | (files', self', Py.Ok _) => Py.Ok (files', self')
    | (_, _, Py.Raise e) => Py.Raise e
    end).
Proof. unfold Serializer.save_all. rewrite fold_left_app. reflexivity. Qed.

(** Every run of acceptable calls succeeds and appends one record per call,
    in call order; when the recorded paths are pairwise distinct, every
    record still describes its file at the end. *)
Lemma save_all_manifest (files0 : Fs.fs) (root : string)
    (calls : list Serializer.save_call) :
  Forall call_ok calls ->
  exists files self,
    save_all files0 (Serializer.init root) calls = Py.Ok (files, self) /\
    Serializer.output_dir self = root /\
    Serializer.attention_files self = map record_of calls /\
    (NoDup (map Serializer.record_path (Serializer.attention_files self)) ->
     Forall2 (fun record call =>
                Serializer.saved_as files root record
                  (Num.nd_shape (Serializer.call_array call)))
             (Serializer.attention_files self) calls).
Proof.
  induction calls as [|call calls IH] using rev_ind; intros Hok.
  - exists files0, (Serializer.init root).
    repeat split; try reflexivity. intros _. constructor.
  - apply Forall_app in Hok as [Hcalls Hcall].
    inversion Hcall as [|? ? [Hwf [Htype Hlayer]] _]; subst.
    destruct (IH Hcalls) as [files [self [Hrun [Hroot [Hrecords Hsaved]]]]].
    rewrite save_all_snoc, Hrun. cbn [Py.bind fst snd].
    rewrite (save_attention_ok round16 bits_of files self _ _ _ _ Htype Hlayer).
    eexists. eexists. split; [reflexivity|].
    cbn [Serializer.output_dir Serializer.attention_files].
    split; [exact Hroot|]. split.
    + rewrite Hrecords, map_app. reflexivity.
    + rewrite Hrecords, map_app. cbn [map]. intros Hnodup.
      assert (NoDup (map Serializer.record_path (map record_of calls))) as Hnodup'
        by (eapply NoDup_app_remove_r; exact Hnodup).
      assert (~ In (Serializer.record_path (record_of call))
                   (map Serializer.record_path (map record_of calls))) as Hfresh.
      { intros Hin. apply NoDup_remove_2 in Hnodup. apply Hnodup.
        rewrite app_nil_r. exact Hin. }
      rewrite Hrecords in Hsaved. specialize (Hsaved Hnodup').
      apply Forall2_app.
      * clear -Hsaved Hfresh Hroot.
        induction Hsaved as [|record c records cs Hrec Hrest IHrest]; [constructor|].
        cbn [map] in Hfresh.
        constructor.
        -- destruct Hrec as [rel [bytes [Hpath [Hne [Hrel [Hshape [Hfile Hlen]]]]]]].
           exists rel, bytes. repeat split; try assumption.
           rewrite Hroot, join_rel_path. rewrite lookup_insert_ne; [exact Hfile|].
           intros Heq. apply Hfresh. left.
           rewrite record_of_path. unfold Serializer.record_path, Json.get.
           rewrite Hpath. f_equal.
           apply (String.app_inj root), (String.app_inj "/") in Heq.
           symmetry. exact Heq.
        -- apply IHrest. intros Hin. apply Hfresh. right. exact Hin.
      * constructor; [|constructor]. rewrite Hroot.
        apply record_of_saved_as. exact Hwf.
Qed.

End ManifestFacts.




(** ** C3: the standalone validator when metrics.json is missing *)

(** C3 (as amended). When [metadata.json] is present and parses but
    [metrics.json] is absent, [validate] returns no report: it raises
    [FileNotFoundError] with the message ["Missing file: <dir>/metrics.json"],
    the error [read_json] builds for a missing document.  No other exception
    is raised and nothing else of the dataset is examined. *)
Theorem validate_missing_metrics_raises
    (json_loads : list Z -> Validator.loaded) (format_mb : Z -> string)
    (files : Fs.fs) (dataset_dir : string)
    (metadata_bytes : list Z) (metadata : Json.json) :
  files !! Fs.path_join dataset_dir "metadata.json" = Some metadata_bytes ->
  json_loads metadata_bytes = Validator.Parsed metadata ->
  files !! Fs.path_join dataset_dir "metrics.json" = None ->
  Validator.validate json_loads format_mb files dataset_dir =
    Py.Raise (Py.FileNotFoundError
                ("Missing file: " +:+ dataset_dir +:+ "/" +:+ "metrics.json")) /\
  forall report,
    Validator.validate json_loads format_mb files dataset_dir <> Py.Ok report.
Proof.
  intros Hmeta Hparse Hmetrics.
  assert (Validator.validate json_loads format_mb files dataset_dir =
          Py.Raise (Py.FileNotFoundError
                      ("Missing file: " +:+ dataset_dir +:+ "/" +:+ "metrics.json")))
    as Hraise.
  { unfold Validator.validate.
    unfold Validator.read_json at 1. rewrite Hmeta, Hparse. cbn [Py.bind].
    unfold Validator.read_json at 1. rewrite Hmetrics. reflexivity. }
  split; [exact Hraise|].
  intros report Hok. rewrite Hraise in Hok. discriminate.
Qed.

Lemma validate_missing_metrics_witness :
  let json_loads := fun _ : list Z =>
    Validator.Parsed (Json.JObj [("steps", Json.JInt 2)]) in
  let files : Fs.fs := <["dataset/metadata.json" := [123; 125]%Z]> ∅ in
  files !! Fs.path_join "dataset" "metadata.json" = Some [123; 125]%Z /\
  files !! Fs.path_join "dataset" "metrics.json" = None /\
  Validator.validate json_loads (fun _ => "") files "dataset" =
    Py.Raise (Py.FileNotFoundError "Missing file: dataset/metrics.json").
Proof.
  intros json_loads files.
  assert (files !! Fs.path_join "dataset" "metadata.json" = Some [123; 125]%Z) as Hmeta
    by reflexivity.
  assert (files !! Fs.path_join "dataset" "metrics.json" = None) as Hmetrics
    by reflexivity.
  split; [exact Hmeta|]. split; [exact Hmetrics|].
  exact (proj1 (validate_missing_metrics_raises json_loads (fun _ => "") files "dataset"
                  [123; 125]%Z (Json.JObj [("steps", Json.JInt 2)])
                  Hmeta eq_refl Hmetrics)).
Defined.

(** C3 (counterexample). A dataset directory holding only a valid
    [metadata.json]: [validate] produces no [(passed, errors, warnings)]
    report at all; the call ends in an exception. *)
Lemma validate_missing_metrics_no_report :
  Validator.validate
    (fun _ => Validator.Parsed (Json.JObj [("steps", Json.JInt 2)]))
    (fun _ => "")
    (<["dataset/metadata.json" := [123; 125]%Z]> ∅) "dataset" =
  Py.Raise (Py.FileNotFoundError "Missing file: dataset/metrics.json") /\
  Py.is_ok
    (Validator.validate
       (fun _ => Validator.Parsed (Json.JObj [("steps", Json.JInt 2)]))
       (fun _ => "")
       (<["dataset/metadata.json" := [123; 125]%Z]> ∅) "dataset") = false.
Proof. split; reflexivity. Qed.

(* ===================================================================== *)
(** * Part III: further properties of the code *)
(* ===================================================================== *)

(** ** metrics/analytics.py: norms, cosine similarity, entropy, divergence *)

Section MetricsFacts.
Local Open Scope R_scope.

Lemma sum_squares_nonneg (v : list R) : 0 <= Num.sumR (map (fun x => x * x) v).
Proof.
  apply sumR_nonneg. apply Forall_forall. intros y Hy.
  apply in_map_iff in Hy as [x [<- _]]. nra.
Qed.

Lemma sum_squares_zero (v : list R) :
  Num.sumR (map (fun x => x * x) v) = 0 <-> Forall (fun x => x = 0) v.
Proof.
  induction v as [|x v IH]; simpl.
  - split; [constructor | reflexivity].
  - pose proof (sum_squares_nonneg v) as Hv. split.
    + intros H. assert (x * x = 0 /\ Num.sumR (map (fun x => x * x) v) = 0) as [Hx Hrest]
        by (split; nra).
      constructor; [nra | apply IH; exact Hrest].
    + intros H. inversion H as [|? ? Hx Hrest]; subst.
      apply IH in Hrest. rewrite Hrest. lra.
Qed.

(** X1. The L2 norm of a latent is never negative, and it is zero exactly
    for the all-zero latent (the empty one included). *)
Theorem latent_l2_norm_zero_iff (latent : list R) :
  0 <= Metrics.latent_l2_norm latent /\
  (Metrics.latent_l2_norm latent = 0 <-> Forall (fun x => x = 0) latent).
Proof.
  unfold Metrics.latent_l2_norm, Metrics.norm. split; [apply sqrt_pos|].
  rewrite <- sum_squares_zero. split.
  - intros H. apply sqrt_eq_0; [apply sum_squares_nonneg | exact H].
  - intros ->. apply sqrt_0.
Qed.

(** Cauchy-Schwarz for equally long lists. *)
Lemma dot_squared_le (a b : list R) :
  length a = length b ->
  Metrics.dot a b * Metrics.dot a b <=
  Num.sumR (map (fun x => x * x) a) * Num.sumR (map (fun x => x * x) b).
Proof.
  unfold Metrics.dot. revert b.
  induction a as [|x a IH]; intros [|y b] Hlen; simpl in Hlen; try discriminate.
  - simpl. lra.
  - injection Hlen as Hlen. specialize (IH b Hlen). simpl.
    pose proof (sum_squares_nonneg a) as HA. pose proof (sum_squares_nonneg b) as HB.
    set (s := Num.sumR (map (fun p => fst p * snd p) (combine a b))) in *.
    set (A := Num.sumR (map (fun x => x * x) a)) in *.
    set (B := Num.sumR (map (fun x => x * x) b)) in *.
    assert (2 * (s * (x * y)) <= A * (y * y) + B * (x * x)) as Hmix.
    { assert (0 <= A * (y * y) + B * (x * x)) as Hnn by nra.
      destruct (Rle_lt_dec (2 * (s * (x * y))) (A * (y * y) + B * (x * x))) as [H|H];
        [exact H|].
      exfalso.
      assert ((A * (y * y) + B * (x * x)) * (A * (y * y) + B * (x * x))
              < (2 * (s * (x * y))) * (2 * (s * (x * y)))) as Hsq by nra.
      assert ((2 * (s * (x * y))) * (2 * (s * (x * y)))
              <= 4 * (A * B) * ((x * x) * (y * y))) as Hup.
      { replace ((2 * (s * (x * y))) * (2 * (s * (x * y))))
          with (4 * (s * s) * ((x * x) * (y * y))) by ring.
        assert (0 <= (x * x) * (y * y)) by nra. nra. }
      assert (4 * (A * B) * ((x * x) * (y * y))
              <= (A * (y * y) + B * (x * x)) * (A * (y * y) + B * (x * x))) as Hamgm.
      { pose proof (Rle_0_sqr (A * (y * y) - B * (x * x))) as Hsqr. unfold Rsqr in Hsqr.
        replace ((A * (y * y) + B * (x * x)) * (A * (y * y) + B * (x * x)))
          with (4 * (A * B) * ((x * x) * (y * y))
                + (A * (y * y) - B * (x * x)) * (A * (y * y) - B * (x * x))) by ring.
        lra. }
      lra. }
    nra.
Qed.

Lemma dot_abs_le_norms (a b : list R) :
  length a = length b ->
  Rabs (Metrics.dot a b) <= Metrics.norm a * Metrics.norm b.
Proof.
  intros Hlen. unfold Metrics.norm.
  rewrite <- sqrt_mult_alt by apply sum_squares_nonneg.
  rewrite <- (sqrt_Rsqr_abs (Metrics.dot a b)).
  apply sqrt_le_1_alt. unfold Rsqr. apply dot_squared_le. exact Hlen.
Qed.

(** X2. For two vectors of equal size the cosine similarity is returned
    and lies strictly between -1 and 1, the denominator being at least EPS;
    for vectors of different sizes a [ValueError] is raised. *)
Theorem cosine_similarity_bounded (a b : list R) :
  (length a = length b ->
   exists c, Metrics.cosine_similarity a b = Py.Ok c /\
             Analytics.EPS <= Metrics.norm a * Metrics.norm b + Analytics.EPS /\
             -1 < c < 1) /\
  (length a <> length b ->
   Metrics.cosine_similarity a b = Py.Raise (Py.ValueError "shapes not aligned")).
Proof.
  unfold Metrics.cosine_similarity. split.
  - intros Hlen. rewrite (proj2 (Nat.eqb_eq _ _) Hlen).
    eexists. split; [reflexivity|].
    pose proof (dot_abs_le_norms a b Hlen) as Hcs.
    pose proof eps_pos as Heps.
    assert (0 <= Metrics.norm a * Metrics.norm b) as Hnn.
    { apply Rmult_le_pos; apply sqrt_pos. }
    split; [lra|].
    set (d := Metrics.norm a * Metrics.norm b + Analytics.EPS) in *.
    assert (0 < d) as Hd by (unfold d; lra).
    assert (Rabs (Metrics.dot a b) < d) as Hlt by (unfold d; lra).
    apply Rabs_def2 in Hlt as [Hhi Hlo].
    split.
    + apply (Rmult_lt_reg_r d); [exact Hd|].
      unfold Rdiv. rewrite Rmult_assoc, Rinv_l by lra. lra.
    + apply (Rmult_lt_reg_r d); [exact Hd|].
      unfold Rdiv. rewrite Rmult_assoc, Rinv_l by lra. lra.
  - intros Hne. rewrite (proj2 (Nat.eqb_neq _ _) Hne). reflexivity.
Qed.

Lemma np_clip_range (x : R) :
  Analytics.EPS <= Analytics.np_clip Analytics.EPS 1 x <= 1.
Proof.
  unfold Analytics.np_clip. pose proof eps_pos.
  assert (Analytics.EPS <= 1) by (unfold Analytics.EPS; lra).
  split.
  - apply Rmin_glb; [apply Rmax_r | assumption].
  - apply Rmin_r.
Qed.

(** X3. Because probabilities are clipped into [[EPS, 1]] before the
    logarithm, [shannon_entropy] is non-negative for every input row,
    whatever its entries (negative, above one, not normalised), and so is
    [mean_attention_entropy] of a matrix with at least one row. *)
Theorem shannon_entropy_nonneg (row : list R) (matrix : list (list R)) :
  0 <= Analytics.shannon_entropy row /\
  (matrix <> [] -> 0 <= Analytics.mean_attention_entropy matrix).
Proof.
  assert (Hrow : forall r, 0 <= Analytics.shannon_entropy r).
  { intros r. unfold Analytics.shannon_entropy.
    assert (Num.sumR (map (fun x => x * ln x) (map (Analytics.np_clip Analytics.EPS 1) r))
            <= 0) as Hle.
    { apply Ropp_le_cancel. rewrite Ropp_0.
      replace (- Num.sumR (map (fun x => x * ln x)
                               (map (Analytics.np_clip Analytics.EPS 1) r)))
        with (Num.sumR (map Ropp (map (fun x => x * ln x)
                               (map (Analytics.np_clip Analytics.EPS 1) r)))).
      - apply sumR_nonneg. apply Forall_forall. intros y Hy.
        apply in_map_iff in Hy as [z [<- Hz]].
        apply in_map_iff in Hz as [w [<- Hw]].
        apply in_map_iff in Hw as [x [<- _]].
        destruct (np_clip_range x) as [Hlo Hhi]. pose proof eps_pos.
        pose proof (x_ln_x_nonpos (Analytics.np_clip Analytics.EPS 1 x)). lra.
      - generalize (map (fun x => x * ln x) (map (Analytics.np_clip Analytics.EPS 1) r)).
        intros l. induction l as [|x l IH]; simpl; [lra | rewrite IH; lra]. }
    lra. }
  split; [apply Hrow|].
  intros Hne. unfold Analytics.mean_attention_entropy, Num.meanR.
  apply Rmult_le_pos.
  - apply sumR_nonneg. apply Forall_forall. intros y Hy.
    apply in_map_iff in Hy as [r [<- _]]. apply Hrow.
  - left. apply Rinv_0_lt_compat. apply lt_0_INR. rewrite length_map.
    destruct matrix; [congruence | simpl; lia].
Qed.

Lemma ln_le_minus_one (x : R) : 0 < x -> ln x <= x - 1.
Proof.
  intros Hx. pose proof (exp_ineq1_le (x - 1)) as Hexp.
  replace (1 + (x - 1)) with x in Hexp by ring.
  rewrite <- (ln_exp (x - 1)).
  destruct (Rle_lt_or_eq_dec _ _ Hexp) as [Hlt|Heq].
  - left. apply ln_increasing; assumption.
  - right. rewrite <- Heq. reflexivity.
Qed.

(** X4. The divergence of any vector from itself is exactly zero, and for
    two vectors of equal size it is at least the clipped mass of the first
    minus the clipped mass of the second (Gibbs' inequality); so it is
    non-negative whenever the two clipped vectors have the same sum. *)
Theorem kl_divergence_gibbs (p q : list R) :
  Analytics.kl_divergence p p = 0 /\
  (length p = length q ->
   Num.sumR (map (Analytics.np_clip Analytics.EPS 1) p)
   - Num.sumR (map (Analytics.np_clip Analytics.EPS 1) q)
   <= Analytics.kl_divergence p q).
Proof.
  unfold Analytics.kl_divergence. split.
  - induction p as [|x p IH]; simpl; [reflexivity|].
    rewrite IH. pose proof (np_clip_pos x) as Hx.
    unfold Rdiv. rewrite Rinv_r by lra. rewrite ln_1. lra.
  - revert q. induction p as [|x p IH]; intros [|y q] Hlen; simpl in Hlen;
      try discriminate.
    + simpl. lra.
    + injection Hlen as Hlen. specialize (IH q Hlen). simpl.
      pose proof (np_clip_pos x) as Hx. pose proof (np_clip_pos y) as Hy.
      set (a := Analytics.np_clip Analytics.EPS 1 x) in *.
      set (b := Analytics.np_clip Analytics.EPS 1 y) in *.
      assert (a - b <= a * ln (a / b)) as Hterm.
      { assert (ln (a / b) = - ln (b / a)) as ->.
        { unfold Rdiv. rewrite !ln_mult, !ln_Rinv;
            try assumption; try (apply Rinv_0_lt_compat; assumption). ring. }
        pose proof (ln_le_minus_one (b / a)) as Hln.
        assert (0 < b / a) as Hpos by (apply Rdiv_lt_0_compat; assumption).
        specialize (Hln Hpos).
        assert (a * ln (b / a) <= a * (b / a - 1)) as Hmul
          by (apply Rmult_le_compat_l; lra).
        replace (a * (b / a - 1)) with (b - a) in Hmul by (field; lra).
        lra. }
      lra.
Qed.

End MetricsFacts.

(** ** hooks/attention_recorder.py: what record touches *)

Section RecordFrame.
Variable round16 : R -> R.

Lemma extract_frame (self : Recorder.recorder) (t : Recorder.tensor) (heads : Z) :
  let after := fst (Recorder._extract_conditional_attention self t heads) in
  RecorderProps.same_configuration self after /\
  RecorderProps.at_most_one_more_error self after /\
  RecorderProps.same_cross_side self after /\
  RecorderProps.same_self_side self after /\
  (forall m, snd (Recorder._extract_conditional_attention self t heads) = Py.Ok (Some m) ->
             after = self).
Proof.
  unfold Recorder._extract_conditional_attention.
  destruct (Recorder.shape t) as [|a [|b [|c [|d rest]]]];
    try (cbn; repeat split; try reflexivity; try discriminate;
         right; eexists; reflexivity).
  destruct (heads <=? 0)%Z;
    [cbn; repeat split; try reflexivity; try discriminate; right; eexists; reflexivity|].
  destruct (negb (Z.of_nat a mod heads =? 0)%Z);
    [cbn; repeat split; try reflexivity; try discriminate; right; eexists; reflexivity|].
  destruct (_ <? _)%nat; cbn; repeat split; try reflexivity; try discriminate;
    left; reflexivity.
Qed.

(** X5. Whatever it is given, [record] keeps the recorder's configuration
    and current step, keeps every shape error already collected and appends
    at most one.  A cross capture leaves the self maps and self entropies
    alone, a self capture leaves the cross maps, cross entropies and token
    activations alone, and a capture of any other type changes nothing but
    the error list. *)
Theorem record_frame (self : Recorder.recorder) (layer_id attention_type : string)
    (t : Recorder.tensor) (heads : Z) :
  let after := fst (Recorder.record round16 self layer_id attention_type t heads) in
  RecorderProps.same_configuration self after /\
  RecorderProps.at_most_one_more_error self after /\
  (attention_type = "cross" -> RecorderProps.same_self_side self after) /\
  (attention_type = "self" -> RecorderProps.same_cross_side self after) /\
  (attention_type <> "cross" -> attention_type <> "self" ->
   RecorderProps.same_cross_side self after /\ RecorderProps.same_self_side self after /\
   snd (Recorder.record round16 self layer_id attention_type t heads) = None /\
   exists msg, Recorder.shape_errors after = Recorder.shape_errors self ++ [msg]).
Proof.
  unfold Recorder.record.
  destruct (String.eqb_spec attention_type "cross") as [Hc|Hc].
  - subst. cbn [orb negb].
    pose proof (extract_frame self t heads) as Hext. cbv zeta in Hext.
    destruct (Recorder._extract_conditional_attention self t heads) as [self1 [[m|]|e]];
      cbn [fst snd] in *.
    + destruct Hext as [_ [_ [_ [_ Hsame]]]]. rewrite (Hsame m eq_refl). clear Hsame.
      unfold Recorder.record_cross.
      destruct (negb _); [cbn; repeat split; try reflexivity; try congruence;
                          right; eexists; reflexivity|].
      destruct (_ || _ || _); cbn; repeat split; try reflexivity; try congruence;
        left; reflexivity.
    + destruct Hext as [H1 [H2 [H3 [H4 _]]]]. repeat split; try apply H1; try apply H3;
        try apply H4; try exact H2; try congruence.
    + destruct Hext as [H1 [H2 [H3 [H4 _]]]]. repeat split; try apply H1; try apply H3;
        try apply H4; try exact H2; try congruence.
  - destruct (String.eqb_spec attention_type "self") as [Hs|Hs].
    + subst. cbn [orb negb].
      pose proof (extract_frame self t heads) as Hext. cbv zeta in Hext.
      destruct (Recorder._extract_conditional_attention self t heads) as [self1 [[m|]|e]];
        cbn [fst snd] in *.
      * destruct Hext as [_ [_ [_ [_ Hsame]]]]. rewrite (Hsame m eq_refl). clear Hsame.
        change (String.eqb "self" "cross") with false. cbv iota.
        unfold Recorder.record_self.
        destruct (_ || _); cbn; repeat split; try reflexivity; try congruence;
          left; reflexivity.
      * destruct Hext as [H1 [H2 [H3 [H4 _]]]]. repeat split; try apply H1; try apply H3;
          try apply H4; try exact H2; try congruence.
      * destruct Hext as [H1 [H2 [H3 [H4 _]]]]. repeat split; try apply H1; try apply H3;
          try apply H4; try exact H2; try congruence.
    + cbn [orb negb]. cbn. repeat split; try reflexivity; try congruence.
      * right. eexists. reflexivity.
      * eexists. reflexivity.
Qed.

End RecordFrame.

(** ** hooks/attention_recorder.py: when a capture yields a matrix *)

(** X6. [_extract_conditional_attention] yields a matrix exactly for a
    rank-3 tensor with a positive head count that divides a non-zero first
    dimension.  When it does, the recorder is unchanged and the matrix has
    the tensor's query and key sizes. *)
Theorem extract_conditional_attention_matrix_iff
    (self : Recorder.recorder) (t : Recorder.tensor) (heads : Z) :
  ((exists m, snd (Recorder._extract_conditional_attention self t heads) = Py.Ok (Some m))
   <->
   (exists batch_heads query_tokens key_tokens,
       Recorder.shape t = [batch_heads; query_tokens; key_tokens] /\
       (0 < heads)%Z /\ (Z.of_nat batch_heads mod heads = 0)%Z /\ 0 < batch_heads)) /\
  (forall m,
      snd (Recorder._extract_conditional_attention self t heads) = Py.Ok (Some m) ->
      fst (Recorder._extract_conditional_attention self t heads) = self /\
      exists batch_heads,
        Recorder.shape t = [batch_heads; Recorder.m_rows m; Recorder.m_cols m] /\
        length (Recorder.entries m) = Recorder.m_rows m /\
        Forall (fun row => length row = Recorder.m_cols m) (Recorder.entries m)).
Proof.
  unfold Recorder._extract_conditional_attention.
  destruct (Recorder.shape t) as [|bh [|q [|k [|d rest]]]];
    try (split; [split; [intros [m Hm]; discriminate
                        | intros [a [b [c [H _]]]]; discriminate]
                | intros m Hm; discriminate]).
  destruct (Z.leb_spec heads 0) as [Hle|Hheads].
  { split; [split; [intros [m Hm]; discriminate
                   | intros [a [b [c [_ [H _]]]]]; lia]
           | intros m Hm; discriminate]. }
  destruct (Z.eqb_spec (Z.of_nat bh mod heads) 0) as [Hmod|Hmod]; cbn [negb].
  2:{ split; [split; [intros [m Hm]; discriminate
                     | intros [a [b [c [Hs [_ [H _]]]]]]; injection Hs as <- <- <-;
                       contradiction]
             | intros m Hm; discriminate]. }
  set (batch := Z.to_nat (Z.of_nat bh / heads)).
  assert (Hbatch : 0 < bh -> 0 < batch).
  { intros Hbh. unfold batch.
    assert (1 <= Z.of_nat bh / heads)%Z; [|lia].
    apply Z.div_le_lower_bound; [lia|].
    apply Z.div_exact in Hmod; [|lia]. nia. }
  assert (Hzero : bh = 0 -> batch = 0).
  { intros ->. unfold batch. rewrite Z.div_0_l by lia. reflexivity. }
  assert (Hidx : 0 < batch ->
                 Recorder.cond_index (Recorder.cfg_enabled self) batch < batch).
  { intros Hb. unfold Recorder.cond_index.
    destruct (Recorder.cfg_enabled self && (1 <? batch)); lia. }
  destruct (Nat.ltb_spec (Recorder.cond_index (Recorder.cfg_enabled self) batch) batch)
    as [Hlt|Hge].
  - split; [split|].
    + intros _. exists bh, q, k. repeat split; try assumption; try reflexivity.
      destruct bh; [rewrite Hzero in Hlt by reflexivity; lia | lia].
    + intros _. eexists. reflexivity.
    + intros m Hm. cbn [fst snd] in *. injection Hm as <-.
      split; [reflexivity|]. exists bh. cbn. split; [reflexivity|]. split.
      * rewrite length_map, length_seq. reflexivity.
      * apply Forall_forall. intros row Hrow. apply in_map_iff in Hrow as [x [<- _]].
        rewrite length_map, length_seq. reflexivity.
  - split; [split|].
    + intros [m Hm]. discriminate.
    + intros [a [b [c [Hs [_ [_ Hbh]]]]]]. injection Hs as <- <- <-.
      specialize (Hidx (Hbatch Hbh)). lia.
    + intros m Hm. discriminate.
Qed.

(** ** hooks/attention_recorder.py: the maps a capture stores *)

Section StoredMaps.
Local Open Scope R_scope.
Variable round16 : R -> R.

Lemma fit_tokens_pad_or_truncate (token_count res : nat) (down : list (list (list R))) :
  Recorder.fit_tokens token_count res down =
  firstn token_count down
  ++ repeat (RecorderProps.zero_channel res) (token_count - length down).
Proof.
  unfold Recorder.fit_tokens, RecorderProps.zero_channel.
  destruct (Nat.eqb_spec (length down) token_count) as [Heq|Hne].
  - subst. rewrite firstn_all, Nat.sub_diag. simpl. rewrite app_nil_r. reflexivity.
  - destruct (Nat.lt_ge_cases (length down) token_count) as [Hlt|Hge].
    + rewrite Nat.min_l by lia. rewrite !firstn_all2 by lia. reflexivity.
    + rewrite Nat.min_r by lia. replace (token_count - token_count)%nat with 0%nat by lia.
      replace (token_count - length down)%nat with 0%nat by lia. reflexivity.
Qed.

(** X7. For a matrix whose query count is a non-zero perfect square and
    that has at least one key column, the cross branch raises nothing, adds
    no shape error, and stores a float16 array of shape
    [[token_count, res, res]] holding exactly that many items: the first
    [token_count] resampled channels in their original order, followed by
    all-zero channels when there are fewer key columns than tokens. *)
Theorem record_cross_fits_token_count
    (self : Recorder.recorder) (layer_id : string) (m : Recorder.matrix) :
  let side := Nat.sqrt (Recorder.m_rows m) in
  (side * side)%nat = Recorder.m_rows m ->
  side <> 0%nat ->
  Recorder.m_cols m <> 0%nat ->
  (0 < Recorder.attention_resolution self)%Z ->
  let res := Z.to_nat (Recorder.attention_resolution self) in
  let tokens := Z.to_nat (Recorder.token_count self) in
  let down := map (Recorder.bilinear_channel side res) (Recorder.token_maps m side) in
  let after := fst (Recorder.record_cross round16 self layer_id m) in
  snd (Recorder.record_cross round16 self layer_id m) = None /\
  Recorder.shape_errors after = Recorder.shape_errors self /\
  exists cross_map,
    Py.dict_get (Recorder._cross_maps after) layer_id = Some cross_map /\
    Num.nd_dtype cross_map = Num.Float16 /\
    Num.nd_shape cross_map = [tokens; res; res] /\
    Num.ndarray_wf cross_map /\
    Num.nd_items cross_map =
      map round16
        (concat (concat (firstn tokens down
                         ++ repeat (RecorderProps.zero_channel res)
                                   (tokens - Recorder.m_cols m)))).
Proof.
  intros side Hsquare Hside Hcols Hres res tokens down after.
  pose proof (record_cross_ok round16 self layer_id m Hsquare Hside Hcols Hres) as Hrec.
  cbv zeta in Hrec. fold side res tokens down in Hrec.
  unfold after. rewrite Hrec. cbn [fst snd].
  destruct (fit_tokens_shape tokens res side (Recorder.token_maps m side)) as [Hlen Hitems].
  cbv zeta in Hlen, Hitems. fold down in Hlen, Hitems.
  split; [reflexivity|]. split; [reflexivity|].
  eexists. split; [apply dict_get_set_eq|].
  unfold Recorder.to_float16_array. cbn [Num.nd_dtype Num.nd_shape Num.nd_items].
  split; [reflexivity|]. split; [rewrite Hlen; reflexivity|]. split.
  - unfold Num.ndarray_wf. cbn [Num.nd_shape Num.nd_items fold_right].
    rewrite length_map, Hitems, Hlen. lia.
  - rewrite fit_tokens_pad_or_truncate.
    assert (length down = Recorder.m_cols m) as ->; [|reflexivity].
    unfold down, Recorder.token_maps. rewrite !length_map, length_seq. reflexivity.
Qed.

(** X8. When the query count is not a perfect square the cross branch
    appends the error that names the layer and the query count and stores no
    cross map, but the layer's entropy and token activation have already
    been stored: the layer still counts in the step's entropy table and mean
    token activation. *)
Theorem record_cross_not_square
    (self : Recorder.recorder) (layer_id : string) (m : Recorder.matrix) :
  (Nat.sqrt (Recorder.m_rows m) * Nat.sqrt (Recorder.m_rows m))%nat <> Recorder.m_rows m ->
  let after := fst (Recorder.record_cross round16 self layer_id m) in
  snd (Recorder.record_cross round16 self layer_id m) = None /\
  Recorder.shape_errors after =
    Recorder.shape_errors self ++
    ["step=" +:+ Py.str_of_Z (Recorder.current_step self) +:+ " layer=" +:+ layer_id +:+
     " query_tokens=" +:+ Py.str_of_Z (Z.of_nat (Recorder.m_rows m)) +:+ " is not square"] /\
  Recorder._cross_maps after = Recorder._cross_maps self /\
  Py.dict_get (Recorder._cross_entropy after) layer_id = Some (Recorder._entropy m) /\
  Py.dict_get (Recorder._token_activation_by_layer after) layer_id =
    Some (Recorder.column_mean m).
Proof.
  intros Hns after. unfold after, Recorder.record_cross.
  rewrite (proj2 (Nat.eqb_neq _ _) Hns). cbn [negb fst snd].
  cbn [Recorder.append_shape_error Recorder.with_cross Recorder.shape_errors
       Recorder._cross_maps Recorder._cross_entropy Recorder._token_activation_by_layer
       Recorder.current_step].
  split; [reflexivity|]. split; [reflexivity|]. split; [reflexivity|].
  split; apply dict_get_set_eq.
Qed.

Lemma adaptive_avg_pool2d_shape (m : Recorder.matrix) (res : nat) :
  length (Recorder.adaptive_avg_pool2d m res) = res /\
  Forall (fun row => length row = res) (Recorder.adaptive_avg_pool2d m res).
Proof.
  unfold Recorder.adaptive_avg_pool2d. split.
  - rewrite length_map, length_seq. reflexivity.
  - apply Forall_forall. intros row Hrow. apply in_map_iff in Hrow as [i [<- _]].
    rewrite length_map, length_seq. reflexivity.
Qed.

(** X9. The self branch accepts every matrix with at least one row and one
    column, square or not: it raises nothing, adds no shape error, stores the
    entropy, and stores a float16 array of shape [[res, res]] with exactly
    [res * res] items. *)
Theorem record_self_stores_square_map
    (self : Recorder.recorder) (layer_id : string) (m : Recorder.matrix) :
  Recorder.m_rows m <> 0%nat ->
  Recorder.m_cols m <> 0%nat ->
  let res := Z.to_nat (Recorder.self_attention_resolution self) in
  let after := fst (Recorder.record_self round16 self layer_id m) in
  snd (Recorder.record_self round16 self layer_id m) = None /\
  Recorder.shape_errors after = Recorder.shape_errors self /\
  Py.dict_get (Recorder._self_entropy after) layer_id = Some (Recorder._entropy m) /\
  exists self_map,
    Py.dict_get (Recorder._self_maps after) layer_id = Some self_map /\
    Num.nd_dtype self_map = Num.Float16 /\
    Num.nd_shape self_map = [res; res] /\
    Num.ndarray_wf self_map.
Proof.
  intros Hrows Hcols res after. unfold after, Recorder.record_self.
  rewrite (proj2 (Nat.eqb_neq _ _) Hrows), (proj2 (Nat.eqb_neq _ _) Hcols).
  cbn [orb fst snd]. fold res.
  cbn [Recorder.with_self_map Recorder.with_self_entropy Recorder.shape_errors
       Recorder._self_entropy Recorder._self_maps].
  split; [reflexivity|]. split; [reflexivity|]. split; [apply dict_get_set_eq|].
  eexists. split; [apply dict_get_set_eq|].
  unfold Recorder.to_float16_array. cbn [Num.nd_dtype Num.nd_shape Num.nd_items].
  split; [reflexivity|]. split; [reflexivity|].
  unfold Num.ndarray_wf. cbn [Num.nd_shape Num.nd_items fold_right].
  destruct (adaptive_avg_pool2d_shape m res) as [Hlen Hrowlen].
  rewrite length_map, (concat_length_const res _ Hrowlen), Hlen. lia.
Qed.

End StoredMaps.

Lemma record_cross_fits_token_count_witness :
  let self := Recorder.mkRecorder 3 2 2 true 0 981 [] [] [] [] [] [] in
  let m := Recorder.mkMatrix 4 2 [[1; 0]; [0; 1]; [1; 0]; [0; 1]]%R in
  (Nat.sqrt 4 * Nat.sqrt 4)%nat = 4%nat /\
  exists cross_map,
    Py.dict_get
      (Recorder._cross_maps (fst (Recorder.record_cross (fun x => x) self "layer_0" m)))
      "layer_0" = Some cross_map /\
    Num.nd_shape cross_map = [3; 2; 2]%nat /\
    Num.ndarray_wf cross_map.
Proof.
  intros self m. split; [reflexivity|].
  destruct (record_cross_fits_token_count (fun x => x) self "layer_0" m
              eq_refl ltac:(discriminate) ltac:(discriminate) ltac:(reflexivity))
    as [_ [_ [cross_map [Hget [_ [Hshape [Hwf _]]]]]]].
  exists cross_map. split; [exact Hget|]. split; [exact Hshape | exact Hwf].
Defined.

Lemma record_cross_not_square_witness :
  let self := Recorder.mkRecorder 3 2 2 true 0 981 [] [] [] [] [] [] in
  let m := Recorder.mkMatrix 3 2 [[1; 0]; [0; 1]; [1; 0]]%R in
  (Nat.sqrt 3 * Nat.sqrt 3)%nat <> 3%nat /\
  Recorder.shape_errors (fst (Recorder.record_cross (fun x => x) self "layer_0" m)) =
    ["step=0 layer=layer_0 query_tokens=3 is not square"] /\
  Recorder._cross_maps (fst (Recorder.record_cross (fun x => x) self "layer_0" m)) = [].
Proof.
  intros self m.
  assert ((Nat.sqrt 3 * Nat.sqrt 3)%nat <> 3%nat) as Hns by (cbv; discriminate).
  split; [exact Hns|].
  destruct (record_cross_not_square (fun x => x) self "layer_0" m Hns)
    as [_ [Herr [Hmaps _]]].
  split; [exact Herr | exact Hmaps].
Defined.

Lemma record_self_stores_square_map_witness :
  let self := Recorder.mkRecorder 3 2 2 true 0 981 [] [] [] [] [] [] in
  let m := Recorder.mkMatrix 3 5 [[1; 0; 0; 0; 0]; [0; 1; 0; 0; 0]; [0; 0; 1; 0; 0]]%R in
  Recorder.m_rows m <> 0%nat /\ Recorder.m_cols m <> 0%nat /\
  exists self_map,
    Py.dict_get
      (Recorder._self_maps (fst (Recorder.record_self (fun x => x) self "layer_1" m)))
      "layer_1" = Some self_map /\
    Num.nd_shape self_map = [2; 2]%nat.
Proof.
  intros self m.
  assert (Recorder.m_rows m <> 0%nat) as Hr by discriminate.
  assert (Recorder.m_cols m <> 0%nat) as Hc by discriminate.
  split; [exact Hr|]. split; [exact Hc|].
  destruct (record_self_stores_square_map (fun x => x) self "layer_1" m Hr Hc)
    as [_ [_ [_ [self_map [Hget [_ [Hshape _]]]]]]].
  exists self_map. split; [exact Hget | exact Hshape].
Defined.

(** ** hooks/attention_recorder.py: resampling and pooling *)

Section Resampling.
Local Open Scope R_scope.

Lemma map_nth_seq {A : Type} (l : list A) (d : A) :
  map (fun i => nth i l d) (seq 0 (length l)) = l.
Proof.
  induction l as [|a l IH]; [reflexivity|].
  simpl. f_equal. rewrite <- seq_shift, map_map. exact IH.
Qed.

Lemma pixel_of_map (res : nat) (F : nat -> nat -> R) (y x : nat) :
  (y < res)%nat -> (x < res)%nat ->
  Recorder.pixel (map (fun y => map (fun x => F y x) (seq 0 res)) (seq 0 res)) y x = F y x.
Proof.
  intros Hy Hx. unfold Recorder.pixel.
  set (row := fun y0 : nat => map (fun x0 => F y0 x0) (seq 0 res)).
  rewrite (nth_indep _ [] (row 0%nat)) by (rewrite length_map, length_seq; exact Hy).
  rewrite (map_nth row), seq_nth by exact Hy. simpl Nat.add. unfold row.
  rewrite (nth_indep _ 0 (F y 0%nat)) by (rewrite length_map, length_seq; exact Hx).
  rewrite (map_nth (F y)), seq_nth by exact Hx. reflexivity.
Qed.

Lemma source_index_same (n dst : nat) :
  (0 < n)%nat -> Recorder.source_index n n dst = (dst, INR 0 / INR (2 * n)).
Proof.
  intros Hn. unfold Recorder.source_index.
  replace ((2 * dst + 1) * n - n)%nat with (dst * (2 * n))%nat by nia.
  rewrite Nat.div_mul by lia. rewrite Nat.Div0.mod_mul. reflexivity.
Qed.

(** X10. Resampling a [n x n] channel to [n x n] returns the channel
    unchanged: every output pixel takes its value from the one source pixel
    at the same position. *)
Theorem bilinear_same_size_is_identity (n : nat) (img : list (list R)) :
  length img = n ->
  Forall (fun row => length row = n) img ->
  Recorder.bilinear_channel n n img = img.
Proof.
  intros Hlen Hrows. destruct n as [|n'].
  - destruct img; [reflexivity | discriminate].
  - set (n := S n') in *. assert (0 < n)%nat as Hn by (unfold n; lia).
    unfold Recorder.bilinear_channel.
    transitivity (map (fun y => map (fun x => Recorder.pixel img y x) (seq 0 n)) (seq 0 n)).
    + apply map_ext_in. intros y _. rewrite (source_index_same n y Hn).
      apply map_ext_in. intros x _. rewrite (source_index_same n x Hn).
      change (INR 0) with 0. unfold Rdiv. rewrite !Rmult_0_l. ring.
    + transitivity (map (fun i => nth i img []) (seq 0 (length img)));
        [|apply map_nth_seq].
      rewrite Hlen. apply map_ext_in. intros y Hy. apply in_seq in Hy.
      unfold Recorder.pixel.
      assert (length (nth y img []) = n) as Hrow.
      { rewrite Forall_forall in Hrows. apply Hrows. apply nth_In. lia. }
      rewrite <- Hrow at 1. apply map_nth_seq.
Qed.

Lemma bilinear_same_size_is_identity_witness :
  length [[1; 2]; [3; 4]]%R = 2%nat /\
  Recorder.bilinear_channel 2 2 [[1; 2]; [3; 4]]%R = [[1; 2]; [3; 4]]%R.
Proof.
  split; [reflexivity|].
  apply bilinear_same_size_is_identity; [reflexivity|].
  repeat constructor.
Defined.

Lemma source_index_in_range (side res dst : nat) :
  (0 < side)%nat -> (0 < res)%nat -> (dst < res)%nat ->
  (fst (Recorder.source_index side res dst) < side)%nat /\
  0 <= snd (Recorder.source_index side res dst) <= 1.
Proof.
  intros Hside Hres Hdst. unfold Recorder.source_index. cbn [fst snd]. split.
  - apply Nat.Div0.div_lt_upper_bound. nia.
  - assert (0 < INR (2 * res)) as Hden by (apply lt_0_INR; lia).
    pose proof (Nat.mod_upper_bound ((2 * dst + 1) * side - res) (2 * res)) as Hmod.
    assert (INR (((2 * dst + 1) * side - res) mod (2 * res)) <= INR (2 * res)) as Hle.
    { apply le_INR. lia. }
    pose proof (pos_INR (((2 * dst + 1) * side - res) mod (2 * res))) as Hnn.
    split.
    + apply Rmult_le_pos; [exact Hnn | left; apply Rinv_0_lt_compat; exact Hden].
    + apply (Rmult_le_reg_r (INR (2 * res))); [exact Hden|].
      unfold Rdiv. rewrite Rmult_assoc, Rinv_l by lra. lra.
Qed.

Lemma next_index_in_range (side i0 : nat) :
  (i0 < side)%nat -> (Recorder.next_index side i0 < side)%nat.
Proof.
  intros H. unfold Recorder.next_index.
  destruct (Nat.ltb_spec i0 (side - 1)); lia.
Qed.

Lemma convex_between (lo hi t a b : R) :
  0 <= t <= 1 -> lo <= a <= hi -> lo <= b <= hi ->
  lo <= (1 - t) * a + t * b <= hi.
Proof. intros Ht Ha Hb. split; nra. Qed.

(** X11. Bilinear resampling never leaves the range of its input: if
    every pixel of a [side x side] channel lies in [[lo, hi]], so does every
    pixel of the resampled [res x res] channel (no source pixel outside the
    channel is ever read). *)
Theorem bilinear_channel_within_bounds
    (side res : nat) (img : list (list R)) (lo hi : R) :
  (0 < side)%nat -> (0 < res)%nat ->
  (forall y x, (y < side)%nat -> (x < side)%nat -> lo <= Recorder.pixel img y x <= hi) ->
  forall y x, (y < res)%nat -> (x < res)%nat ->
    lo <= Recorder.pixel (Recorder.bilinear_channel side res img) y x <= hi.
Proof.
  intros Hside Hres Himg y x Hy Hx.
  unfold Recorder.bilinear_channel.
  rewrite (pixel_of_map res
             (fun y x =>
                let '(y0, ly) := Recorder.source_index side res y in
                let y1 := Recorder.next_index side y0 in
                let '(x0, lx) := Recorder.source_index side res x in
                let x1 := Recorder.next_index side x0 in
                (1 - ly) * ((1 - lx) * Recorder.pixel img y0 x0 + lx * Recorder.pixel img y0 x1)
                + ly * ((1 - lx) * Recorder.pixel img y1 x0 + lx * Recorder.pixel img y1 x1))).
  2: exact Hy. 2: exact Hx.
  - destruct (source_index_in_range side res y Hside Hres Hy) as [Hy0 Hly].
    destruct (source_index_in_range side res x Hside Hres Hx) as [Hx0 Hlx].
    destruct (Recorder.source_index side res y) as [y0 ly].
    destruct (Recorder.source_index side res x) as [x0 lx].
    cbn [fst snd] in *.
    pose proof (next_index_in_range side y0 Hy0) as Hy1.
    pose proof (next_index_in_range side x0 Hx0) as Hx1.
    apply convex_between; [exact Hly | |]; apply convex_between; auto.
Qed.

Lemma bilinear_channel_within_bounds_witness :
  (0 < 2)%nat /\ (0 < 1)%nat /\
  0 <= Recorder.pixel (Recorder.bilinear_channel 2 1 [[0; 1]; [1; 0]]%R) 0 0 <= 1.
Proof.
  split; [lia|]. split; [lia|].
  apply (bilinear_channel_within_bounds 2 1 [[0; 1]; [1; 0]]%R 0 1); try lia.
  intros y x Hy Hx.
  destruct y as [|[|y]]; [| |lia]; (destruct x as [|[|x]]; [| |lia]);
    unfold Recorder.pixel; simpl; lra.
Defined.

End Resampling.

Section Pooling.
Local Open Scope R_scope.

Lemma pool_window_valid (in_size out_size i : nat) :
  (0 < in_size)%nat -> (i < out_size)%nat ->
  (Recorder.pool_start in_size out_size i < Recorder.pool_end in_size out_size i)%nat /\
  (Recorder.pool_end in_size out_size i <= in_size)%nat.
Proof.
  intros Hin Hi. unfold Recorder.pool_start, Recorder.pool_end.
  set (a := ((i + 1) * in_size)%nat).
  pose proof (Nat.Div0.mul_div_le (i * in_size) out_size) as Hstart.
  pose proof (Nat.div_mod_eq (a + out_size - 1) out_size) as Hend.
  pose proof (Nat.mod_upper_bound (a + out_size - 1) out_size) as Hmod.
  split.
  - assert (a <= out_size * ((a + out_size - 1) / out_size))%nat as Hceil by lia.
    unfold a in Hceil. nia.
  - assert ((a + out_size - 1) / out_size < in_size + 1)%nat; [|lia].
    apply Nat.Div0.div_lt_upper_bound. unfold a. nia.
Qed.

Lemma mean_between (lo hi : R) (l : list R) :
  l <> [] -> Forall (fun x => lo <= x <= hi) l ->
  lo <= Num.sumR l / INR (length l) <= hi.
Proof.
  intros Hne Hall.
  assert (0 < INR (length l)) as Hlen.
  { apply lt_0_INR. destruct l; [congruence | simpl; lia]. }
  assert (INR (length l) * lo <= Num.sumR l) as Hlow.
  { apply sumR_lower_bound. eapply Forall_impl; [|exact Hall]. cbv beta. intros x Hx. lra. }
  assert (Num.sumR l <= INR (length l) * hi) as Hhigh.
  { clear Hne Hlen Hlow. induction Hall as [|x l Hx _ IH].
    - simpl. lra.
    - change (length (x :: l)) with (S (length l)). rewrite S_INR. simpl Num.sumR. lra. }
  split.
  - apply (Rmult_le_reg_r (INR (length l))); [exact Hlen|].
    unfold Rdiv. rewrite Rmult_assoc, Rinv_l by lra. lra.
  - apply (Rmult_le_reg_r (INR (length l))); [exact Hlen|].
    unfold Rdiv. rewrite Rmult_assoc, Rinv_l by lra. lra.
Qed.

Lemma window_length {A : Type} (f : nat -> nat -> A) (ys xs : list nat) :
  length (flat_map (fun y => map (fun x => f y x) xs) ys) = (length ys * length xs)%nat.
Proof.
  induction ys as [|y ys IH]; simpl; [reflexivity|].
  rewrite length_app, length_map, IH. reflexivity.
Qed.

(** X12. Adaptive average pooling of a matrix with at least one row and one
    column: every pooling window is non-empty and lies inside the matrix, so
    no average divides by zero, and every pooled value lies within the
    bounds of the matrix entries. *)
Theorem adaptive_avg_pool2d_within_bounds
    (m : Recorder.matrix) (res : nat) (lo hi : R) :
  (0 < Recorder.m_rows m)%nat -> (0 < Recorder.m_cols m)%nat ->
  (forall y x, (y < Recorder.m_rows m)%nat -> (x < Recorder.m_cols m)%nat ->
               lo <= Recorder.entry m y x <= hi) ->
  forall i j, (i < res)%nat -> (j < res)%nat ->
    (Recorder.pool_start (Recorder.m_rows m) res i
     < Recorder.pool_end (Recorder.m_rows m) res i <= Recorder.m_rows m)%nat /\
    (Recorder.pool_start (Recorder.m_cols m) res j
     < Recorder.pool_end (Recorder.m_cols m) res j <= Recorder.m_cols m)%nat /\
    lo <= Recorder.pixel (Recorder.adaptive_avg_pool2d m res) i j <= hi.
Proof.
  intros Hrows Hcols Hentries i j Hi Hj.
  destruct (pool_window_valid (Recorder.m_rows m) res i Hrows Hi) as [Hy1 Hy2].
  destruct (pool_window_valid (Recorder.m_cols m) res j Hcols Hj) as [Hx1 Hx2].
  split; [lia|]. split; [lia|].
  unfold Recorder.adaptive_avg_pool2d.
  rewrite (pixel_of_map res
             (fun i j =>
                Num.sumR
                  (flat_map
                     (fun y => map (fun x => Recorder.entry m y x)
                        (seq (Recorder.pool_start (Recorder.m_cols m) res j)
                             (Recorder.pool_end (Recorder.m_cols m) res j
                              - Recorder.pool_start (Recorder.m_cols m) res j)))
                     (seq (Recorder.pool_start (Recorder.m_rows m) res i)
                          (Recorder.pool_end (Recorder.m_rows m) res i
                           - Recorder.pool_start (Recorder.m_rows m) res i)))
                / INR (length (seq (Recorder.pool_start (Recorder.m_rows m) res i)
                                   (Recorder.pool_end (Recorder.m_rows m) res i
                                    - Recorder.pool_start (Recorder.m_rows m) res i))
                       * length (seq (Recorder.pool_start (Recorder.m_cols m) res j)
                                     (Recorder.pool_end (Recorder.m_cols m) res j
                                      - Recorder.pool_start (Recorder.m_cols m) res j)))))
    by assumption.
  rewrite <- (window_length (fun y x => Recorder.entry m y x)).
  apply mean_between.
  - intros Hnil. apply (f_equal (@length R)) in Hnil.
    rewrite window_length, !length_seq in Hnil. simpl in Hnil. nia.
  - apply Forall_forall. intros v Hv. apply in_flat_map in Hv as [y [Hy Hv]].
    apply in_map_iff in Hv as [x [<- Hx]]. apply in_seq in Hy, Hx.
    apply Hentries; lia.
Qed.

Lemma adaptive_avg_pool2d_within_bounds_witness :
  (0 < 3)%nat /\ (0 < 3)%nat /\
  0 <= Recorder.pixel
         (Recorder.adaptive_avg_pool2d
            (Recorder.mkMatrix 3 3 [[1; 0; 0]; [0; 1; 0]; [0; 0; 1]]%R) 2) 1 0 <= 1.
Proof.
  split; [lia|]. split; [lia|].
  apply (adaptive_avg_pool2d_within_bounds
           (Recorder.mkMatrix 3 3 [[1; 0; 0]; [0; 1; 0]; [0; 0; 1]]%R) 2 0 1);
    try (simpl; lia).
  intros y x Hy Hx. simpl in Hy, Hx.
  destruct y as [|[|[|y]]]; try lia; destruct x as [|[|[|x]]]; try lia;
    unfold Recorder.entry; simpl; lra.
Defined.

End Pooling.

(** ** hooks/attention_recorder.py: draining a step *)

Section Draining.
Local Open Scope R_scope.

(** X13. [drain_step] empties the shape-error list and nothing else: the
    maps, entropies and token activations stay in the recorder, so draining
    again without an intervening [set_step] returns the same maps, entropies
    and mean token activation, now with an empty error list. *)
Theorem drain_step_twice (self drained : Recorder.recorder) (out : Recorder.step_output) :
  Recorder.drain_step self = (drained, Py.Ok out) ->
  drained = Recorder.clear_shape_errors self /\
  Recorder._cross_maps drained = Recorder._cross_maps self /\
  Recorder._self_maps drained = Recorder._self_maps self /\
  Recorder._token_activation_by_layer drained = Recorder._token_activation_by_layer self /\
  Recorder.drain_step drained =
    (drained,
     Py.Ok (Recorder.mkStepOutput
              (Recorder.out_step out) (Recorder.out_timestep out)
              (Recorder.out_cross_maps out) (Recorder.out_self_maps out)
              (Recorder.out_cross_entropy out) (Recorder.out_self_entropy out)
              (Recorder.out_mean_token_activation out) [])).
Proof.
  unfold Recorder.drain_step. intros Hdrain.
  destruct (Recorder._token_activation_by_layer self) as [|kv rest] eqn:Hdict.
  - injection Hdrain as <- <-.
    cbn [Recorder.clear_shape_errors Recorder._token_activation_by_layer
         Recorder._cross_maps Recorder._self_maps]. rewrite Hdict.
    repeat split; reflexivity.
  - destruct (Py.bind _ _) as [mean|e] eqn:Hmean; [|discriminate].
    injection Hdrain as <- <-.
    cbn [Recorder.clear_shape_errors Recorder._token_activation_by_layer
         Recorder._cross_maps Recorder._self_maps]. rewrite Hdict, Hmean.
    repeat split; reflexivity.
Qed.

Lemma drain_step_twice_witness :
  let self := Recorder.mkRecorder 2 8 8 true 0 981 [] [] [("layer_0", 1)] []
                [("layer_0", [1; 3])] ["step=0 has invalid attention rank 2"] in
  exists drained out,
    Recorder.drain_step self = (drained, Py.Ok out) /\
    Recorder.out_shape_errors out = ["step=0 has invalid attention rank 2"] /\
    exists out2,
      Recorder.drain_step drained = (drained, Py.Ok out2) /\
      Recorder.out_cross_entropy out2 = [("layer_0", 1)] /\
      Recorder.out_shape_errors out2 = [].
Proof.
  intros self. eexists. eexists. split; [reflexivity|]. split; [reflexivity|].
  eexists. split.
  - exact (proj2 (proj2 (proj2 (proj2 (drain_step_twice self _ _ eq_refl))))).
  - split; reflexivity.
Defined.

(** X14. If two layers stored token activations of different lengths,
    [drain_step] raises the [ValueError] of [np.stack] and leaves the
    recorder as it was: the pending shape errors are not cleared. *)
Theorem drain_step_ragged_activations
    (self : Recorder.recorder) (key : string) (first : list R)
    (rest : Py.dict (list R)) :
  Recorder._token_activation_by_layer self = (key, first) :: rest ->
  Exists (fun kv => length (snd kv) <> length first) rest ->
  Recorder.drain_step self =
  (self, Py.Raise (Py.ValueError "all input arrays must have the same shape")).
Proof.
  intros Hdict Hragged. unfold Recorder.drain_step. rewrite Hdict.
  unfold Recorder.stacked_mean, Py.dict_values. cbn [map snd Num.np_stack].
  assert (forallb (fun r' => Nat.eqb (length r') (length first)) (map snd rest) = false)
    as ->; [|reflexivity].
  apply Bool.not_true_is_false. intros Hall.
  rewrite forallb_forall in Hall.
  apply Exists_exists in Hragged as [kv [Hin Hne]].
  specialize (Hall (snd kv) (in_map snd _ _ Hin)).
  apply Nat.eqb_eq in Hall. contradiction.
Qed.

Lemma drain_step_ragged_activations_witness :
  let self := Recorder.mkRecorder 2 8 8 true 0 981 [] [] [] []
                [("layer_0", [1; 3]); ("layer_1", [1])] ["pending"] in
  Recorder.drain_step self =
    (self, Py.Raise (Py.ValueError "all input arrays must have the same shape")) /\
  Recorder.shape_errors (fst (Recorder.drain_step self)) = ["pending"].
Proof.
  intros self.
  assert (Recorder.drain_step self =
          (self, Py.Raise (Py.ValueError "all input arrays must have the same shape")))
    as Hdrain.
  { apply (drain_step_ragged_activations self "layer_0" [1; 3] [("layer_1", [1])]);
      [reflexivity|].
    constructor. simpl. lia. }
  split; [exact Hdrain|]. rewrite Hdrain. reflexivity.
Defined.

(** X15. The token activation of a matrix whose rows are probability
    distributions over the key tokens is itself a probability distribution:
    it has one entry per key token, no entry is negative, and the entries sum
    to one. *)
Theorem column_mean_is_distribution (m : Recorder.matrix) :
  (0 < Recorder.m_rows m)%nat ->
  length (Recorder.entries m) = Recorder.m_rows m ->
  Forall (fun row => length row = Recorder.m_cols m /\
                     Forall (fun x => 0 <= x) row /\ Num.sumR row = 1)
         (Recorder.entries m) ->
  length (Recorder.column_mean m) = Recorder.m_cols m /\
  Forall (fun x => 0 <= x) (Recorder.column_mean m) /\
  Num.sumR (Recorder.column_mean m) = 1.
Proof.
  intros Hrows Hlen Hdist.
  assert (Hpos : 0 < INR (Recorder.m_rows m)) by (apply lt_0_INR; exact Hrows).
  assert (Hrow : forall q, (q < Recorder.m_rows m)%nat ->
            length (nth q (Recorder.entries m) []) = Recorder.m_cols m /\
            Forall (fun x => 0 <= x) (nth q (Recorder.entries m) []) /\
            Num.sumR (nth q (Recorder.entries m) []) = 1).
  { intros q Hq. rewrite Forall_forall in Hdist. apply Hdist. apply nth_In. lia. }
  unfold Recorder.column_mean, Num.meanR.
  split; [rewrite length_map, length_seq; reflexivity|]. split.
  - apply Forall_forall. intros v Hv. apply in_map_iff in Hv as [k [<- Hk]].
    apply in_seq in Hk. rewrite length_map, length_seq.
    apply Rmult_le_pos; [|left; apply Rinv_0_lt_compat; exact Hpos].
    apply sumR_nonneg. apply Forall_forall. intros e He.
    apply in_map_iff in He as [q [<- Hq]]. apply in_seq in Hq.
    destruct (Hrow q ltac:(lia)) as [Hl [Hnn _]].
    unfold Recorder.entry. rewrite Forall_forall in Hnn. apply Hnn.
    apply nth_In. lia.
  - rewrite (sumR_map_ext_in _
               (fun k => Num.sumR (map (fun q => Recorder.entry m q k)
                                       (seq 0 (Recorder.m_rows m)))
                         / INR (Recorder.m_rows m))).
    2:{ intros k _. rewrite length_map, length_seq. reflexivity. }
    rewrite (sumR_map_div
               (fun k => Num.sumR (map (fun q => Recorder.entry m q k)
                                       (seq 0 (Recorder.m_rows m))))).
    rewrite (sumR_swap (fun k q => Recorder.entry m q k)).
    rewrite (sumR_map_ext_in _ (fun _ => 1)).
    + rewrite sumR_map_const, length_seq. field. lra.
    + intros q Hq. apply in_seq in Hq.
      destruct (Hrow q ltac:(lia)) as [Hl [_ Hsum]].
      unfold Recorder.entry. rewrite <- Hl, map_nth_seq. exact Hsum.
Qed.

Lemma column_mean_is_distribution_witness :
  let m := Recorder.mkMatrix 2 2 [[1; 0]; [0; 1]]%R in
  (0 < Recorder.m_rows m)%nat /\
  Num.sumR (Recorder.column_mean m) = 1.
Proof.
  intros m. split; [simpl; lia|].
  apply (column_mean_is_distribution m); [simpl; lia | reflexivity |].
  repeat constructor; simpl; lra.
Defined.

End Draining.

(** ** hooks/attention_recorder.py: more on layer selection *)

Section DecimalNames.

Lemma to_int_not_nil (z : Z) :
  Z.to_int z <> Decimal.Pos Decimal.Nil /\ Z.to_int z <> Decimal.Neg Decimal.Nil.
Proof.
  destruct z; simpl; split; try discriminate.
  - intros H. injection H. apply DecimalPos.Unsigned.to_uint_nonnil.
  - intros H. injection H. apply DecimalPos.Unsigned.to_uint_nonnil.
Qed.

(** [str] of an [int] determines the [int]. *)
Lemma str_of_Z_inj (a b : Z) : Py.str_of_Z a = Py.str_of_Z b -> a = b.
Proof.
  unfold Py.str_of_Z. intros H. apply DecimalZ.to_int_inj.
  destruct (to_int_not_nil a), (to_int_not_nil b).
  assert (Some (Z.to_int a) = Some (Z.to_int b)) as E.
  { rewrite <- (NilZero.isi (Z.to_int a)), <- (NilZero.isi (Z.to_int b)) by assumption.
    rewrite H. reflexivity. }
  congruence.
Qed.

Lemma layer_name_inj (i j : nat) :
  Selection.layer_name i = Selection.layer_name j -> i = j.
Proof.
  unfold Selection.layer_name. intros H.
  apply String.app_inj in H. apply str_of_Z_inj in H. lia.
Qed.

End DecimalNames.

Section SelectionMore.
Context {processor : Type} (fnmatch : string -> string -> bool).
Context (include_self include_cross : bool) (patterns : list string) (max_layers : Z).

Local Abbreviation run :=
  (Selection.select_loop processor fnmatch include_self include_cross patterns max_layers).
Local Abbreviation qualifies :=
  (Selection.qualifies fnmatch include_self include_cross patterns).
Local Abbreviation chosen :=
  (Selection.chosen_keys fnmatch include_self include_cross patterns max_layers).

Lemma number_from_ids (start : nat) (keys : list string) :
  map Selection.layer_id (Selection.number_from start keys) =
  map Selection.layer_name (seq start (length keys)).
Proof.
  revert start. induction keys as [|k keys IH]; intros start; simpl; [reflexivity|].
  rewrite IH. reflexivity.
Qed.

Lemma dict_set_fresh {V : Type} (d : Py.dict V) (k : string) (v : V) :
  ~ In k (Py.dict_keys d) -> Py.dict_set d k v = d ++ [(k, v)].
Proof.
  induction d as [|[k' v'] d IH]; simpl; intros Hfresh; [reflexivity|].
  destruct (String.eqb_spec k' k) as [->|Hne]; [exfalso; apply Hfresh; left; reflexivity|].
  rewrite IH; [reflexivity|]. intros Hin. apply Hfresh. right. exact Hin.
Qed.

Lemma run_keys (items : list (string * processor)) :
  NoDup (map fst items) -> Py.dict_keys (fst (run items)) = map fst items.
Proof.
  induction items as [|[k o] items IH] using rev_ind; intros Hnd; [reflexivity|].
  rewrite map_app in Hnd. simpl in Hnd.
  assert (NoDup (map fst items)) as Hnd' by (eapply NoDup_app_remove_r; exact Hnd).
  assert (~ In k (map fst items)) as Hfresh.
  { intros Hk. apply NoDup_remove_2 in Hnd. apply Hnd. rewrite app_nil_r. exact Hk. }
  specialize (IH Hnd'). rewrite run_snoc, map_app. simpl map.
  destruct (run items) as [pm sel]. cbn [fst] in IH.
  unfold Selection.select_step.
  destruct (_ && _ && _); cbn [fst];
    (rewrite dict_set_fresh by (rewrite IH; exact Hfresh));
    unfold Py.dict_keys in *; rewrite map_app, IH; reflexivity.
Qed.

(** X16. The processor map returned for a processor dictionary has
    exactly the dictionary's keys, in the same order.  The number of
    selected layers is the number of qualifying keys when [max_layers <= 0],
    and the smaller of that number and [max_layers] otherwise; the layer ids
    handed out are pairwise distinct. *)
Theorem selection_keys_count_and_ids (items : Py.dict processor) :
  NoDup (map fst items) ->
  Py.dict_keys (fst (run items)) = map fst items /\
  length (snd (run items)) =
    (if (max_layers <=? 0)%Z then length (filter qualifies (map fst items))
     else Nat.min (Z.to_nat max_layers) (length (filter qualifies (map fst items)))) /\
  NoDup (map Selection.layer_id (snd (run items))) /\
  NoDup (map Selection.processor_key (snd (run items))).
Proof.
  intros Hnd. split; [apply run_keys; exact Hnd|].
  rewrite run_selected. split; [|split].
  - rewrite number_from_length. unfold Selection.chosen_keys, Selection.limit_layers.
    destruct (max_layers <=? 0)%Z; [reflexivity | apply length_firstn].
  - rewrite number_from_ids.
    apply Finite.Injective_map_NoDup; [|apply seq_NoDup].
    intros i j. apply layer_name_inj.
  - rewrite number_from_keys. unfold Selection.chosen_keys, Selection.limit_layers.
    assert (NoDup (filter qualifies (map fst items))) as Hf by (apply NoDup_filter; exact Hnd).
    destruct (max_layers <=? 0)%Z; [exact Hf|].
    rewrite <- (firstn_skipn (Z.to_nat max_layers)) in Hf.
    apply NoDup_app_remove_r in Hf. exact Hf.
Qed.

End SelectionMore.

Lemma selection_keys_count_and_ids_witness :
  NoDup (map fst [("a.attn1.p", 1%nat); ("b.attn2.p", 2%nat); ("c.attn2.p", 3%nat)]) /\
  length (snd (Selection.select_loop nat (fun v p => String.eqb v p) true true [] 2
                 [("a.attn1.p", 1%nat); ("b.attn2.p", 2%nat); ("c.attn2.p", 3%nat)])) =
  Nat.min (Z.to_nat 2) 3.
Proof.
  assert (NoDup (map fst [("a.attn1.p", 1%nat); ("b.attn2.p", 2%nat); ("c.attn2.p", 3%nat)]))
    as Hnd.
  { simpl. repeat constructor; simpl; intuition discriminate. }
  split; [exact Hnd|].
  exact (proj1 (proj2 (selection_keys_count_and_ids
                         (fun v p => String.eqb v p) true true [] 2
                         [("a.attn1.p", 1%nat); ("b.attn2.p", 2%nat); ("c.attn2.p", 3%nat)]
                         Hnd))).
Defined.

(** ** compression/serializer.py: what the writers leave behind *)

Section WriterFacts.
Variable round16 : R -> R.
Variable bits_of : Num.dtype -> R -> Z.

Lemma str_app_tmp_ne (target : string) : target +:+ ".tmp" <> target.
Proof.
  intros H. apply (f_equal String.length) in H.
  rewrite str_length_app in H. simpl in H. lia.
Qed.

(** X17. [save_attention] rejects an attention type other than ["cross"]
    and ["self"] with a [ValueError] before touching anything: no file is
    written and the manifest is unchanged.  A call with a supported type and a
    relative layer id changes exactly one file, keeps every earlier record as
    a prefix of the manifest, and leaves the image list and the root alone. *)
Theorem save_attention_frame (files : Fs.fs) (self : Serializer.serializer)
    (step : Z) (layer_id attention_type : string) (array : Num.ndarray) :
  (attention_type <> "cross" -> attention_type <> "self" ->
   Serializer.save_attention round16 bits_of files self step layer_id attention_type array =
   (files, self,
    Py.Raise (Py.ValueError ("Unsupported attention type: " +:+ attention_type)))) /\
  ((attention_type = "cross" \/ attention_type = "self") ->
   String.prefix "/" layer_id = false ->
   let result :=
     Serializer.save_attention round16 bits_of files self step layer_id attention_type
       array in
   let written :=
     Fs.path_join (Serializer.output_dir self)
       (Serializer.rel_path_of step layer_id attention_type) in
   (forall path, path <> written -> (fst (fst result)) !! path = files !! path) /\
   (exists record,
       snd result = Py.Ok record /\
       Serializer.attention_files (snd (fst result)) =
         Serializer.attention_files self ++ [record]) /\
   Serializer.image_paths (snd (fst result)) = Serializer.image_paths self /\
   Serializer.output_dir (snd (fst result)) = Serializer.output_dir self).
Proof.
  split.
  - intros Hc Hs. unfold Serializer.save_attention.
    destruct (String.eqb_spec attention_type "cross"); [contradiction|].
    destruct (String.eqb_spec attention_type "self"); [contradiction|].
    reflexivity.
  - intros Htype Hlayer result written. unfold result.
    rewrite (save_attention_ok round16 bits_of files self _ _ _ _ Htype Hlayer).
    cbn [fst snd Serializer.attention_files Serializer.image_paths Serializer.output_dir].
    split; [|split; [|split]].
    + intros path Hne. apply lookup_insert_ne. unfold written in Hne. congruence.
    + eexists. split; reflexivity.
    + reflexivity.
    + reflexivity.
Qed.

End WriterFacts.

Section DocumentFacts.
Variable json_dumps : Json.json -> list Z.
Variable json_loads : list Z -> Validator.loaded.

(** X18. A document written by [write_json] is read back by the
    validator's [read_json] whenever [json.loads] inverts [json.dumps]; the
    temporary sibling is gone after the rename, and no other file changes. *)
Theorem write_json_then_read_json
    (files : Fs.fs) (self : Serializer.serializer) (path : string) (payload : Json.json) :
  json_loads (json_dumps payload) = Validator.Parsed payload ->
  let target := Fs.path_join (Serializer.output_dir self) path in
  exists files',
    Documents.write_json json_dumps files self path payload = Py.Ok files' /\
    Validator.read_json json_loads files' target = Py.Ok payload /\
    files' !! (target +:+ ".tmp") = None /\
    (forall other, other <> target -> other <> target +:+ ".tmp" ->
                   files' !! other = files !! other).
Proof.
  intros Hloads target.
  unfold Documents.write_json, Documents.rename. fold target.
  rewrite lookup_insert_eq. eexists. split; [reflexivity|].
  pose proof (str_app_tmp_ne target) as Hne.
  split; [|split].
  - unfold Validator.read_json. rewrite lookup_insert_eq, Hloads. reflexivity.
  - rewrite lookup_insert_ne by congruence. apply lookup_delete_eq.
  - intros other H1 H2.
    rewrite lookup_insert_ne by congruence.
    rewrite lookup_delete_ne by congruence.
    apply lookup_insert_ne. congruence.
Qed.

End DocumentFacts.

Lemma write_json_then_read_json_witness :
  let dumps := fun _ : Json.json => [123; 125]%Z in
  let loads := fun _ : list Z => Validator.Parsed (Json.JObj []) in
  loads (dumps (Json.JObj [])) = Validator.Parsed (Json.JObj []) /\
  exists files',
    Documents.write_json dumps ∅ (Serializer.init "out") "metrics.json" (Json.JObj []) =
      Py.Ok files' /\
    Validator.read_json loads files' "out/metrics.json" = Py.Ok (Json.JObj []).
Proof.
  intros dumps loads. split; [reflexivity|].
  destruct (write_json_then_read_json dumps loads ∅ (Serializer.init "out")
              "metrics.json" (Json.JObj []) eq_refl) as [files' [Hw [Hr _]]].
  exists files'. split; [exact Hw | exact Hr].
Defined.
